(** * TaskList/app.py: the task store of the to-do list application

    A shallow embedding of the non-widget logic of [TodoApp]
    (src/TaskList/app.py): the task collection, the filtered and sorted
    view computed by [refresh_listbox] and [_sort_tasks], the operations
    [add_task] and [clear_completed], and the JSON persistence of
    [load_tasks] and [save_tasks] with its [.bak] copy.

    Python objects live in a heap: [self.tasks] and [self.filtered_tasks]
    are references to list objects whose items are references to dict
    objects, so sharing between the store and its views is visible.
    Methods are computations in a state-and-exception monad over the
    application object. *)

From Stdlib Require Import String Ascii NArith List Bool Lia.
From Stdlib Require Import Sorting.Permutation Sorting.Sorted.
From stdpp Require Import base option list gmap strings sorting.

Local Open Scope string_scope.

(** ** Python [str], for code points below 256

    A [str] is a sequence of code points; this model keeps the code points
    below 256 (one [ascii] each), where [str.lower] is one-to-one on
    characters and [str.isspace] is a finite table. *)

Module PyStr.

(** [c.isspace()]: TAB..CR, FS..US, SPACE, NEL and NBSP. *)
Definition isspace (c : ascii) : bool :=
  let n := N_of_ascii c in
  ((9 <=? n) && (n <=? 13) || (28 <=? n) && (n <=? 32)
   || (n =? 133) || (n =? 160))%N.

(** [c.lower()]: A..Z and the Latin-1 capitals (all of 0xC0..0xDE but
    the multiplication sign 0xD7) move up by 32. *)
Definition lower_char (c : ascii) : ascii :=
  let n := N_of_ascii c in
  if ((65 <=? n) && (n <=? 90)
      || (192 <=? n) && (n <=? 222) && negb (n =? 215))%N
  then ascii_of_N (n + 32) else c.

Fixpoint lower (s : string) : string :=
  match s with
  | EmptyString => EmptyString
  | String c s' => String (lower_char c) (lower s')
  end.

Fixpoint lstrip (s : string) : string :=
  match s with
  | EmptyString => EmptyString
  | String c s' => if isspace c then lstrip s' else s
  end.

Definition rstrip (s : string) : string := String.rev (lstrip (String.rev s)).

(** [s.strip()] *)
Definition strip (s : string) : string := rstrip (lstrip s).

(** [q in s]: [q] occurs in [s] at some offset. *)
Fixpoint contains (q s : string) : bool :=
  String.prefix q s ||
  match s with
  | EmptyString => false
  | String _ s' => contains q s'
  end.

(** [a < b] on [str]: lexicographic on code points. *)
Definition lt (a b : string) : bool := String.ltb a b.

(** Truth value of a [str]. *)
Definition nonempty (s : string) : bool :=
  match s with EmptyString => false | String _ _ => true end.

End PyStr.

(** ** Values, exceptions and results *)

(** The values a task record holds: the application writes only [str]
    ([id], [title], [created_at], [updated_at]) and [bool] ([completed]). *)
Inductive pyval : Type :=
| VStr (s : string)
| VBool (b : bool).

(** The exceptions the modelled code paths can raise. *)
Inductive exn : Type :=
| KeyError (k : string)
| AttributeError
| TypeError
| OSError
| UnicodeDecodeError
| JSONDecodeError
| RecursionError.

Inductive res (A : Type) : Type :=
| Ok (a : A)
| Raise (e : exn).
Arguments Ok {A} a.
Arguments Raise {A} e.

Definition res_bind {A B} (r : res A) (k : A -> res B) : res B :=
  match r with
  | Ok a => k a
  | Raise e => Raise e
  end.

Notation "'let?' x ':=' r 'in' k" := (res_bind r (fun x => k))
  (at level 10, x name, r at level 100, k at level 200).

(** Truth value of an object, as [if v:] and [not v] take it. *)
Definition truthy (v : pyval) : bool :=
  match v with
  | VStr s => PyStr.nonempty s
  | VBool b => b
  end.

(** [a < b]: [str] with [str], [bool] with [bool] (as the integers 0 and
    1); a [str] against a [bool] raises [TypeError]. *)
Definition py_lt (a b : pyval) : res bool :=
  match a, b with
  | VStr x, VStr y => Ok (PyStr.lt x y)
  | VBool x, VBool y => Ok (negb x && y)
  | _, _ => Raise TypeError
  end.

(** [v.lower()] *)
Definition str_lower (v : pyval) : res string :=
  match v with
  | VStr s => Ok (PyStr.lower s)
  | VBool _ => Raise AttributeError
  end.

(** A task record: a [dict] with [str] keys. *)
Abbreviation dict := (gmap string pyval).

(** [d[k]] *)
Definition getitem (d : dict) (k : string) : res pyval :=
  match d !! k with
  | Some v => Ok v
  | None => Raise (KeyError k)
  end.

(** [d.get(k, dflt)] *)
Definition get_default (d : dict) (k : string) (dflt : pyval) : pyval :=
  default dflt (d !! k).

(** [d.get(k)] taken as a condition: a missing key gives [None], which is
    false. *)
Definition get_truthy (d : dict) (k : string) : bool :=
  match d !! k with
  | Some v => truthy v
  | None => false
  end.

(** ** List traversals that may raise *)

(** [[x for x in l if p(x)]] *)
Fixpoint filter_res {A} (p : A -> res bool) (l : list A) : res (list A) :=
  match l with
  | [] => Ok []
  | x :: l' =>
      let? b := p x in
      let? r := filter_res p l' in
      Ok (if b then x :: r else r)
  end.

Fixpoint map_res {A B} (f : A -> res B) (l : list A) : res (list B) :=
  match l with
  | [] => Ok []
  | x :: l' =>
      let? y := f x in
      let? r := map_res f l' in
      Ok (y :: r)
  end.

(** ** [sorted(l, key=..., reverse=...)]

    The keys are computed first, one per item, in list order. The sort
    uses [<] only and is stable: an item goes in front of the first item
    that is not smaller than it. With [reverse=True] the list is reversed
    before and after, which keeps equal keys in their original order.
    The interpreter's own sort makes other comparisons in another order;
    on [str] keys its result is the same list, the stable ascending order
    being unique ([stable_sort_is_isort_by] below). *)

Fixpoint insert_keyed {A} (x : pyval * A) (l : list (pyval * A))
  : res (list (pyval * A)) :=
  match l with
  | [] => Ok [x]
  | y :: l' =>
      let? b := py_lt (fst y) (fst x) in
      if b then (let? r := insert_keyed x l' in Ok (y :: r))
      else Ok (x :: y :: l')
  end.

Fixpoint sort_keyed {A} (l : list (pyval * A)) : res (list (pyval * A)) :=
  match l with
  | [] => Ok []
  | x :: l' => let? r := sort_keyed l' in insert_keyed x r
  end.

Definition sorted {A} (key : A -> res pyval) (reverse : bool) (l : list A)
  : res (list A) :=
  let? ks := map_res key l in
  let kl := combine ks l in
  let? r := sort_keyed (if reverse then rev kl else kl) in
  Ok (map snd (if reverse then rev r else r)).

(** ** Objects and the heap *)

Definition loc := nat.

Inductive obj : Type :=
| OList (items : list loc)
| ODict (fields : dict).

(** The items of the list object at [l]. *)
Definition list_at (h : list obj) (l : loc) : list loc :=
  match h !! l with
  | Some (OList xs) => xs
  | _ => []
  end.

(** The fields of the dict object at [l]. *)
Definition dict_at (h : list obj) (l : loc) : dict :=
  match h !! l with
  | Some (ODict d) => d
  | _ => ∅
  end.

(** ** The file system *)

(** A file holds text, the text a read in text mode gives ([None]: bytes
    that do not decode as UTF-8), and may or may not be opened for reading
    and for writing. Line endings are the text layer's business and stay
    below this model. *)
Record file : Type := mkFile {
  f_data : option string;
  f_readable : bool;
  f_writable : bool
}.

Record fsys : Type := mkFs {
  fs_files : gmap string file;
  fs_creatable : bool        (* may new files be created in the directory *)
}.

(** [os.path.join(os.path.dirname(__file__), "tasks.json")] *)
Definition DATA_FILE : string := "tasks.json".

(** [DATA_FILE + ".bak"] *)
Definition BACKUP_FILE : string := DATA_FILE ++ ".bak".

(** [os.path.exists(p)] *)
Definition path_exists (fs : fsys) (p : string) : bool :=
  match fs_files fs !! p with
  | Some _ => true
  | None => false
  end.

(** [open(p, 'r')]: the handle gives the file's data. *)
Definition open_read (fs : fsys) (p : string) : res (option string) :=
  match fs_files fs !! p with
  | Some f => if f_readable f then Ok (f_data f) else Raise OSError
  | None => Raise OSError
  end.

(** [f.read()] with [encoding='utf-8'] *)
Definition read_text (d : option string) : res string :=
  match d with
  | Some t => Ok t
  | None => Raise UnicodeDecodeError
  end.

(** [open(p, 'w')]: truncates an existing file, creates a missing one. *)
Definition open_write (fs : fsys) (p : string) : res fsys :=
  match fs_files fs !! p with
  | Some f =>
      if f_writable f
      then Ok (mkFs (<[p := mkFile (Some "") (f_readable f) true]> (fs_files fs))
                    (fs_creatable fs))
      else Raise OSError
  | None =>
      if fs_creatable fs
      then Ok (mkFs (<[p := mkFile (Some "") true true]> (fs_files fs))
                    (fs_creatable fs))
      else Raise OSError
  end.

(** Writing [txt] through an open handle, closed at the end of [with]. *)
Definition write_text (fs : fsys) (p : string) (txt : string) : fsys :=
  mkFs (alter (fun f => mkFile (Some txt) (f_readable f) (f_writable f)) p
              (fs_files fs))
       (fs_creatable fs).

(** May [p] be opened for writing: an existing file by its own
    permission, a missing one by the directory's. *)
Definition can_write (fs : fsys) (p : string) : bool :=
  match fs_files fs !! p with
  | Some f => f_writable f
  | None => fs_creatable fs
  end.

(** May [p] be opened for reading. *)
Definition can_read (fs : fsys) (p : string) : bool :=
  match fs_files fs !! p with
  | Some f => f_readable f
  | None => false
  end.

(** The text of the file at [p], when there is one. *)
Definition file_text (fs : fsys) (p : string) : option string :=
  fs_files fs !! p ≫= f_data.

(** ** The application object *)

(** [self.sort_mode]: ['alpha'], or ['date'] (the [else] branch). *)
Inductive mode : Type := Alpha | Date.

(** The texts the application shows, by their meaning. *)
Inductive message : Type :=
| MsgCorrupt                 (* "Arquivo de tarefas corrompido. ..." *)
| MsgLoadFailed (e : exn)    (* "Falha ao carregar tarefas: {e}" *)
| MsgSaveFailed (e : exn)    (* "Falha ao salvar tarefas: {e}" *)
| MsgEmptyTask               (* "Digite uma tarefa antes de adicionar." *)
| MsgNothingToClear          (* "Nao ha tarefas concluidas para remover." *)
| MsgConfirmClear (n : nat)  (* "Remover {n} tarefa(s) concluida(s)?" *)
| MsgCleared (n : nat).      (* "{n} tarefa(s) removida(s)!" *)

(** The [messagebox] calls, in the order they are made. *)
Inductive dialog : Type :=
| ShowError (m : message)
| ShowWarning (m : message)
| ShowInfo (m : message)
| AskYesNo (m : message) (answer : bool).

(** A row of the listbox: whether it carries the check mark (and the gray
    colour), and the title shown after the mark. *)
Definition row : Type := bool * pyval.

Record app : Type := mkApp {
  heap : list obj;
  tasks : loc;                      (* self.tasks *)
  filtered_tasks : loc;             (* self.filtered_tasks *)
  sort_mode : mode;                 (* self.sort_mode *)
  search_var : string;              (* self.search_var.get() *)
  entry_task : string;              (* self.entry_task.get() *)
  listbox : list row;               (* self.listbox *)
  stats_label : nat * nat * nat;    (* total, pending, completed *)
  disk : fsys;
  dialogs : list dialog
}.

Definition set_heap (h : list obj) (s : app) : app :=
  mkApp h (tasks s) (filtered_tasks s) (sort_mode s) (search_var s)
        (entry_task s) (listbox s) (stats_label s) (disk s) (dialogs s).

Definition set_tasks (l : loc) (s : app) : app :=
  mkApp (heap s) l (filtered_tasks s) (sort_mode s) (search_var s)
        (entry_task s) (listbox s) (stats_label s) (disk s) (dialogs s).

Definition set_filtered_tasks (l : loc) (s : app) : app :=
  mkApp (heap s) (tasks s) l (sort_mode s) (search_var s)
        (entry_task s) (listbox s) (stats_label s) (disk s) (dialogs s).

Definition set_entry_task (e : string) (s : app) : app :=
  mkApp (heap s) (tasks s) (filtered_tasks s) (sort_mode s) (search_var s)
        e (listbox s) (stats_label s) (disk s) (dialogs s).

Definition set_listbox (r : list row) (s : app) : app :=
  mkApp (heap s) (tasks s) (filtered_tasks s) (sort_mode s) (search_var s)
        (entry_task s) r (stats_label s) (disk s) (dialogs s).

Definition set_stats_label (c : nat * nat * nat) (s : app) : app :=
  mkApp (heap s) (tasks s) (filtered_tasks s) (sort_mode s) (search_var s)
        (entry_task s) (listbox s) c (disk s) (dialogs s).

Definition set_disk (d : fsys) (s : app) : app :=
  mkApp (heap s) (tasks s) (filtered_tasks s) (sort_mode s) (search_var s)
        (entry_task s) (listbox s) (stats_label s) d (dialogs s).

Definition set_dialogs (d : list dialog) (s : app) : app :=
  mkApp (heap s) (tasks s) (filtered_tasks s) (sort_mode s) (search_var s)
        (entry_task s) (listbox s) (stats_label s) (disk s) d.

(** The items of [self.tasks] and of [self.filtered_tasks]. *)
Definition task_locs (s : app) : list loc := list_at (heap s) (tasks s).

Definition view_locs (s : app) : list loc :=
  list_at (heap s) (filtered_tasks s).

(** The task collection: the records [self.tasks] refers to, in order. *)
Definition collection (s : app) : list dict :=
  map (dict_at (heap s)) (list_at (heap s) (tasks s)).

(** The view last computed: the records of [self.filtered_tasks]. *)
Definition view (s : app) : list dict :=
  map (dict_at (heap s)) (list_at (heap s) (filtered_tasks s)).

(** ** Methods as computations

    A method takes the application object to a result, [Ok] or an
    exception that leaves the method, and the object as it is then. *)

Definition M (A : Type) : Type := app -> res A * app.

Definition ret {A} (a : A) : M A := fun s => (Ok a, s).

Definition bind {A B} (m : M A) (k : A -> M B) : M B :=
  fun s =>
    match m s with
    | (Ok a, s') => k a s'
    | (Raise e, s') => (Raise e, s')
    end.

Notation "'let!' x ':=' m 'in' k" := (bind m (fun x => k))
  (at level 10, x name, m at level 100, k at level 200).
Notation "m ';;;' k" := (bind m (fun _ => k))
  (at level 100, k at level 200, right associativity).

(** [try: m  except ... as e: h e] *)
Definition try_except {A} (m : M A) (h : exn -> M A) : M A :=
  fun s =>
    match m s with
    | (Ok a, s') => (Ok a, s')
    | (Raise e, s') => h e s'
    end.

Definition lift {A} (r : res A) : M A := fun s => (r, s).

Definition gets {A} (f : app -> A) : M A := fun s => (Ok (f s), s).

Definition modify (f : app -> app) : M unit := fun s => (Ok tt, f s).

(** A new object, at an address no object has yet. *)
Definition alloc (o : obj) : M loc :=
  fun s => (Ok (length (heap s)), set_heap (heap s ++ [o]) s).

Fixpoint alloc_dicts (ds : list dict) : M (list loc) :=
  match ds with
  | [] => ret []
  | d :: ds' =>
      let! l := alloc (ODict d) in
      let! ls := alloc_dicts ds' in
      ret (l :: ls)
  end.

Definition messagebox (d : dialog) : M unit :=
  modify (fun s => set_dialogs (dialogs s ++ [d]) s).

Definition m_open_read (p : string) : M (option string) :=
  fun s => (open_read (disk s) p, s).

Definition m_open_write (p : string) : M unit :=
  fun s =>
    match open_write (disk s) p with
    | Ok fs' => (Ok tt, set_disk fs' s)
    | Raise e => (Raise e, s)
    end.

Definition m_write (p txt : string) : M unit :=
  modify (fun s => set_disk (write_text (disk s) p txt) s).

(** ** The methods of [TodoApp] *)

(** [t.get('completed', False)] taken as a condition. *)
Definition is_completed (d : dict) : bool :=
  truthy (get_default d "completed" (VBool false)).

(** [lambda t: t['title'].lower()] *)
Definition title_key (h : list obj) (t : loc) : res pyval :=
  let? v := getitem (dict_at h t) "title" in
  let? s := str_lower v in
  Ok (VStr s).

(** [lambda t: t.get('created_at', '')] *)
Definition date_key (h : list obj) (t : loc) : res pyval :=
  Ok (get_default (dict_at h t) "created_at" (VStr "")).

(** [q in t['title'].lower()] *)
Definition matches (q : string) (h : list obj) (t : loc) : res bool :=
  let? v := getitem (dict_at h t) "title" in
  let? s := str_lower v in
  Ok (PyStr.contains q s).

(** [_sort_tasks(tasks)]: a new list object, sorted by the mode's key. *)
Definition _sort_tasks (l : loc) : M loc :=
  let! md := gets sort_mode in
  let! h := gets heap in
  let! r := lift (match md with
                  | Alpha => sorted (title_key h) false (list_at h l)
                  | Date => sorted (date_key h) true (list_at h l)
                  end) in
  alloc (OList r).

(** One turn of the loop that fills the listbox. *)
Definition render_row (h : list obj) (t : loc) : res row :=
  let? v := getitem (dict_at h t) "title" in
  Ok (get_truthy (dict_at h t) "completed", v).

Fixpoint render (ts : list loc) : M unit :=
  match ts with
  | [] => ret tt
  | t :: ts' =>
      let! h := gets heap in
      let! r := lift (render_row h t) in
      modify (fun s => set_listbox (listbox s ++ [r]) s) ;;;
      render ts'
  end.

Definition refresh_listbox : M unit :=
  let! q := gets (fun s => PyStr.lower (PyStr.strip (search_var s))) in
  let! h := gets heap in
  let! ts := gets tasks in
  (if PyStr.nonempty q
   then let! r := lift (filter_res (matches q h) (list_at h ts)) in
        let! l := alloc (OList r) in
        modify (set_filtered_tasks l)
   else let! l := alloc (OList (list_at h ts)) in
        modify (set_filtered_tasks l)) ;;;
  let! f := gets filtered_tasks in
  let! l := _sort_tasks f in
  modify (set_filtered_tasks l) ;;;
  modify (set_listbox []) ;;;
  let! h' := gets heap in
  let! f' := gets filtered_tasks in
  render (list_at h' f').

Definition _update_stats : M unit :=
  let! c := gets collection in
  let total := length c in
  let completed := length (List.filter is_completed c) in
  modify (set_stats_label (total, total - completed, completed)).

Section Persistence.

(** [json.dumps(tasks, ensure_ascii=False, indent=2)] and [json.loads]
    for a list of task records; the JSON text format itself is the
    library's and is left open here. The decoder gives the records, or
    the exception it raises: [JSONDecodeError] on text it finds not to
    be valid JSON, and others on text it gives up on ([RecursionError]
    on arrays nested deeper than the interpreter's recursion limit,
    whether they are ever closed or not). *)
Variable json_dumps : list dict -> string.
Variable json_loads : string -> res (list dict).

(** The inner [try] of [save_tasks]. *)
Definition backup_copy : M unit :=
  let! d := m_open_read DATA_FILE in
  m_open_write BACKUP_FILE ;;;
  let! txt := lift (read_text d) in
  m_write BACKUP_FILE txt.

Definition save_tasks : M unit :=
  try_except
    (let! ex := gets (fun s => path_exists (disk s) DATA_FILE) in
     (if ex then try_except backup_copy (fun _ => ret tt) else ret tt) ;;;
     m_open_write DATA_FILE ;;;
     let! txt := gets (fun s => json_dumps (collection s)) in
     m_write DATA_FILE txt)
    (fun e => messagebox (ShowError (MsgSaveFailed e))).

(** [self.tasks = []] *)
Definition reset_tasks : M unit :=
  let! l := alloc (OList []) in
  modify (set_tasks l).

Definition load_tasks : M unit :=
  let! ex := gets (fun s => path_exists (disk s) DATA_FILE) in
  if negb ex then
    reset_tasks ;;;
    save_tasks
  else
    try_except
      (let! d := m_open_read DATA_FILE in
       let! txt := lift (read_text d) in
       let! recs := lift (json_loads txt) in
       let! ls := alloc_dicts recs in
       let! l := alloc (OList ls) in
       modify (set_tasks l))
      (fun e =>
         match e with
         | JSONDecodeError =>
             messagebox (ShowError MsgCorrupt) ;;;
             reset_tasks ;;;
             save_tasks
         | _ =>
             messagebox (ShowError (MsgLoadFailed e)) ;;;
             reset_tasks
         end).

(** [add_task]; [uuid] is what [str(uuid.uuid4())] gives and [now] what
    [datetime.now().isoformat()] gives. *)
Definition new_task (uuid title now : string) : dict :=
  <["id" := VStr uuid]>
    (<["title" := VStr title]>
       (<["completed" := VBool false]>
          (<["created_at" := VStr now]> ∅))).

Definition add_task (uuid now : string) : M unit :=
  let! title := gets (fun s => PyStr.strip (entry_task s)) in
  if negb (PyStr.nonempty title) then
    messagebox (ShowWarning MsgEmptyTask)
  else
    let! task := alloc (ODict (new_task uuid title now)) in
    (* self.tasks.insert(0, task): the list object is updated in place *)
    modify (fun s =>
      set_heap (<[tasks s := OList (task :: list_at (heap s) (tasks s))]>
                  (heap s)) s) ;;;
    modify (set_entry_task "") ;;;
    save_tasks ;;;
    refresh_listbox ;;;
    _update_stats.

(** [clear_completed]; [answer] is what the user answers to
    [askyesno]. *)
Definition clear_completed (answer : bool) : M unit :=
  let! c := gets collection in
  let completed_count := length (List.filter is_completed c) in
  if (completed_count =? 0)%nat then
    messagebox (ShowInfo MsgNothingToClear)
  else
    messagebox (AskYesNo (MsgConfirmClear completed_count) answer) ;;;
    if answer then
      let! h := gets heap in
      let! ts := gets tasks in
      let! l := alloc (OList (List.filter
                   (fun t => negb (is_completed (dict_at h t)))
                   (list_at h ts))) in
      modify (set_tasks l) ;;;
      save_tasks ;;;
      refresh_listbox ;;;
      _update_stats ;;;
      messagebox (ShowInfo (MsgCleared completed_count))
    else ret tt.

(** [__init__], on a disk [fs]: two empty lists, date mode, then
    [load_tasks], [refresh_listbox] and [_update_stats]. *)
Definition new_app (fs : fsys) : app :=
  mkApp [OList []; OList []] 0 1 Date "" "" [] (0, 0, 0) fs [].


End Persistence.

(** ** The sort when every key is a [str]

    [sorted] makes the same moves as [sorted_by] when the key function
    gives a [str] for every item; the order of the result is stated on
    [sorted_by]. *)

Fixpoint insert_by {A} (k : A -> string) (x : A) (l : list A) : list A :=
  match l with
  | [] => [x]
  | y :: l' =>
      if PyStr.lt (k y) (k x) then y :: insert_by k x l' else x :: y :: l'
  end.

Fixpoint isort_by {A} (k : A -> string) (l : list A) : list A :=
  match l with
  | [] => []
  | x :: l' => insert_by k x (isort_by k l')
  end.

Definition sorted_by {A} (k : A -> string) (reverse : bool) (l : list A)
  : list A :=
  if reverse then rev (isort_by k (rev l)) else isort_by k l.

(** An item with its [str] key, as [sorted] pairs them. *)
Definition keyed {A} (k : A -> string) (x : A) : pyval * A := (VStr (k x), x).

(** The [str] fields of a record, [""] when absent (or not a [str]). *)
Definition title_of (d : dict) : string :=
  match d !! "title" with
  | Some (VStr s) => s
  | _ => ""
  end.

Definition created_at_of (d : dict) : string :=
  match d !! "created_at" with
  | Some (VStr s) => s
  | _ => ""
  end.

(** A record as the file format has it where the view reads it: [title]
    is a [str], and [created_at], when there is one, is a [str]. *)
Definition has_title (d : dict) : Prop :=
  exists s, d !! "title" = Some (VStr s).

Definition date_is_str (d : dict) : Prop :=
  forall b, d !! "created_at" <> Some (VBool b).

Definition record_ok (md : mode) (d : dict) : Prop :=
  has_title d /\ (md = Date -> date_is_str d).

Definition tasks_well_formed (s : app) : Prop :=
  forall t, In t (list_at (heap s) (tasks s)) ->
    record_ok (sort_mode s) (dict_at (heap s) t).

(** The two sort keys, on records of that shape. *)
Definition title_lower (h : list obj) (t : loc) : string :=
  PyStr.lower (title_of (dict_at h t)).

Definition created_at (h : list obj) (t : loc) : string :=
  created_at_of (dict_at h t).

(** The search term [refresh_listbox] works with. *)
Definition search_term (s : app) : string :=
  PyStr.lower (PyStr.strip (search_var s)).

(** What [refresh_listbox] leaves on such records: the filtered list,
    the sorted list, the rows, and the application object. *)
Definition filtered (s : app) : list loc :=
  if PyStr.nonempty (search_term s)
  then List.filter (fun t => PyStr.contains (search_term s)
                                            (title_lower (heap s) t))
                   (list_at (heap s) (tasks s))
  else list_at (heap s) (tasks s).

Definition sort_by_mode (md : mode) (h : list obj) (ts : list loc)
  : list loc :=
  match md with
  | Alpha => sorted_by (title_lower h) false ts
  | Date => sorted_by (created_at h) true ts
  end.

Definition ordered (s : app) : list loc :=
  sort_by_mode (sort_mode s) (heap s) (filtered s).

Definition rows (h : list obj) (ts : list loc) : list row :=
  map (fun t => (get_truthy (dict_at h t) "completed",
                 VStr (title_of (dict_at h t)))) ts.

Definition refreshed (s : app) : app :=
  set_listbox (rows (heap s) (ordered s))
    (set_filtered_tasks (S (length (heap s)))
       (set_heap (heap s ++ [OList (filtered s); OList (ordered s)]) s)).

(** What [save_tasks] leaves: the disk after the attempt at the backup
    copy, and the application object after the attempt at the write. *)
Definition backup_fs (fs : fsys) : fsys :=
  match open_read fs DATA_FILE with
  | Ok d =>
      match open_write fs BACKUP_FILE with
      | Ok fs' =>
          match read_text d with
          | Ok txt => write_text fs' BACKUP_FILE txt
          | Raise _ => fs'
          end
      | Raise _ => fs
      end
  | Raise _ => fs
  end.

Definition saved (json_dumps : list dict -> string) (s : app) : app :=
  let fs1 := if path_exists (disk s) DATA_FILE
             then backup_fs (disk s) else disk s in
  match open_write fs1 DATA_FILE with
  | Ok fs2 =>
      set_disk (write_text fs2 DATA_FILE (json_dumps (collection s))) s
  | Raise e =>
      set_dialogs (dialogs s ++ [ShowError (MsgSaveFailed e)]) (set_disk fs1 s)
  end.

(** [self.tasks = []], and a [messagebox] call, as they leave the
    application object. *)
Definition reset (s : app) : app :=
  set_tasks (length (heap s)) (set_heap (heap s ++ [OList []]) s).

Definition shown (d : dialog) (s : app) : app :=
  set_dialogs (dialogs s ++ [d]) s.

(** [self.tasks = json.load(f)] for the records [recs], as it leaves the
    application object: one new dict per record, then the list. *)
Definition loaded (recs : list dict) (s : app) : app :=
  set_tasks (length (heap s) + length recs)
    (set_heap ((heap s ++ map ODict recs)
               ++ [OList (seq (length (heap s)) (length recs))]) s).

(** The store's own invariant: [self.tasks] refers to a list object. *)
Definition tasks_is_list (s : app) : Prop :=
  exists xs, heap s !! tasks s = Some (OList xs).

(** [self.tasks.insert(0, task)] for a new dict [d], with the entry
    field cleared, and [_update_stats], as they leave the object. *)
Definition inserted (d : dict) (s : app) : app :=
  set_entry_task ""
    (set_heap
       (<[tasks s := OList (length (heap s)
                            :: list_at (heap s ++ [ODict d])%list (tasks s))]>
          (heap s ++ [ODict d])%list) s).

Definition counted (s : app) : app :=
  set_stats_label
    (length (collection s),
     length (collection s) - length (List.filter is_completed (collection s)),
     length (List.filter is_completed (collection s))) s.

(** [self.tasks = [t for t in self.tasks if not t.get('completed',
    False)]], as it leaves the object. *)
Definition cleared (s : app) : app :=
  set_tasks (length (heap s))
    (set_heap
       (heap s ++ [OList (List.filter
                            (fun t => negb (is_completed (dict_at (heap s) t)))
                            (list_at (heap s) (tasks s)))]) s).

(** What a caller can do to the sequence a view returned: change the
    sequence itself (append, remove, reorder, clear: any new list of
    items), or set a field of the record at a position in it. *)
Inductive mutation : Type :=
| SetItems (items : list loc)
| SetField (i : nat) (k : string) (v : pyval).

Definition mutate_view (m : mutation) (s : app) : app :=
  match m with
  | SetItems items =>
      set_heap (<[filtered_tasks s := OList items]> (heap s)) s
  | SetField i k v =>
      match view_locs s !! i with
      | Some t =>
          set_heap (<[t := ODict (<[k := v]> (dict_at (heap s) t))]> (heap s)) s
      | None => s
      end
  end.

(** An application object holding the records [ds], in this order, as
    its tasks, before any view is computed. *)
Definition app_of (md : mode) (search : string) (ds : list dict) : app :=
  mkApp (OList (seq 2 (length ds)) :: OList [] :: map ODict ds)
        0 1 md search "" [] (0, 0, 0) (mkFs ∅ true) [].

(** Three tasks titled banana, Apple and cherry, in alphabetical mode. *)
Definition fruit_app : app :=
  app_of Alpha ""
    [ new_task "id-1" "banana" "2024-05-01T10:00:00";
      new_task "id-2" "Apple" "2024-05-02T10:00:00";
      new_task "id-3" "cherry" "2024-05-03T10:00:00" ].

(** Three tasks, the search field holding [buy], in date mode. *)
Definition shop_app : app :=
  app_of Date "buy"
    [ new_task "id-1" "Buy milk" "2024-05-03T10:00:00";
      new_task "id-2" "Walk dog" "2024-05-02T10:00:00";
      new_task "id-3" "Buy bread" "2024-05-01T10:00:00" ].

(** Date mode: two dated tasks, one record without [created_at] placed
    first in the store, and two tasks created at the same instant. *)
Definition dated_app : app :=
  app_of Date ""
    [ <["title" := VStr "undated"]> ∅;
      new_task "id-1" "early" "2024-05-01T10:00:00";
      new_task "id-2" "late a" "2024-05-02T10:00:00";
      new_task "id-3" "late b" "2024-05-02T10:00:00" ].

(** A stand-in for the [json] module, to run the methods on a concrete
    disk: it writes a collection as the list of its titles and reads back
    the empty collection only. The properties below hold for every
    codec. *)
Definition titles_dumps (ds : list dict) : string :=
  "[" ++ String.concat "," (map title_of ds) ++ "]".

Definition empty_loads (txt : string) : res (list dict) :=
  if String.eqb txt "[]" then Ok [] else Raise JSONDecodeError.

(** The arrays a text opens before anything else. *)
Fixpoint leading_opens (txt : string) : nat :=
  match txt with
  | String "[" rest => S (leading_opens rest)
  | _ => 0
  end.

(** [sys.getrecursionlimit()], as the interpreter starts. *)
Definition recursion_limit : nat := 1000.

(** A stand-in that gives up as the [json] module does on deep
    nesting: its scanner descends once for each array it opens, and
    raises [RecursionError] at the recursion limit, before it has seen
    whether the arrays are closed. *)
Definition deep_loads (txt : string) : res (list dict) :=
  if (recursion_limit <=? leading_opens txt)%nat
  then Raise RecursionError
  else empty_loads txt.

(** ['[' * n] *)
Fixpoint opens (n : nat) : string :=
  match n with
  | O => ""
  | S k => String "[" (opens k)
  end.

(** A disk whose data file holds [txt], and one where it cannot be
    read. *)
Definition disk_with (txt : string) : fsys :=
  mkFs {[ DATA_FILE := mkFile (Some txt) true true ]} true.

Definition disk_unreadable (txt : string) : fsys :=
  mkFs {[ DATA_FILE := mkFile (Some txt) false true ]} true.

(** The three fruit tasks over a disk whose data file holds [[old]]. *)
Definition stored_app : app := set_disk (disk_with "[old]") fruit_app.


Definition blank_app : app := set_entry_task "   " fruit_app.







(** Three tasks of which the first and the last are completed. *)
Definition chores_app : app :=
  set_disk (disk_with "[old]")
    (app_of Date ""
       [ <["completed" := VBool true]>
           (new_task "id-1" "wash" "2024-05-03T10:00:00");
         new_task "id-2" "cook" "2024-05-02T10:00:00";
         <["completed" := VBool true]>
           (new_task "id-3" "shop" "2024-05-01T10:00:00") ]).

(** [a <= b] on keys, ascending and descending. *)
Definition asc {A} (k : A -> string) (x y : A) : Prop :=
  String.leb (k x) (k y) = true.

Definition desc {A} (k : A -> string) (x y : A) : Prop :=
  String.leb (k y) (k x) = true.

(** The items of [l] whose key is [key], in their order in [l]. *)
Definition with_key {A} (k : A -> string) (key : string) (l : list A)
  : list A :=
  List.filter (fun x => String.eqb (k x) key) l.

(** ** The rest of the window: the methods driven by the selection

    [_get_selected_task], [edit_task], [delete_task], [toggle_complete],
    [_toggle_sort], [_on_search_changed], [_manual_save] and [on_close].
    They read what the user selected, typed or answered (arguments
    here), show dialogs of their own, and can leave with an [IndexError];
    the text of the sort button and whether the window is still open are
    part of the window. *)

(** [a == b]: equal values of one type; a [str] is never equal to a
    [bool]. *)
Definition py_eq (a b : pyval) : bool :=
  match a, b with
  | VStr x, VStr y => String.eqb x y
  | VBool x, VBool y => Bool.eqb x y
  | _, _ => false
  end.

(** The dialogs of these methods. *)
Inductive notice : Type :=
| SelectFirst                     (* showinfo "Selecione uma tarefa primeiro." *)
| TitleEmpty                      (* showwarning "Tarefa nao pode ficar vazia." *)
| AskNewTitle (initial : pyval) (answer : option string)  (* askstring *)
| ConfirmRemove (title : pyval) (answer : bool)           (* askyesno *)
| SavedOk.                        (* showinfo "Tarefas salvas com sucesso!" *)

Inductive failure : Type :=
| Exn (e : exn)
| IndexError.

Inductive outcome (A : Type) : Type :=
| Done (a : A)
| Failed (f : failure).
Arguments Done {A} a.
Arguments Failed {A} f.

Record window : Type := mkWindow {
  win_app : app;
  win_sort_btn : mode;          (* the text of self.sort_btn *)
  win_notices : list notice;
  win_open : bool               (* false once self.destroy() has run *)
}.

Definition set_win_app (s : app) (w : window) : window :=
  mkWindow s (win_sort_btn w) (win_notices w) (win_open w).

Definition set_win_sort_btn (md : mode) (w : window) : window :=
  mkWindow (win_app w) md (win_notices w) (win_open w).

Definition set_win_notices (ns : list notice) (w : window) : window :=
  mkWindow (win_app w) (win_sort_btn w) ns (win_open w).

Definition set_win_open (b : bool) (w : window) : window :=
  mkWindow (win_app w) (win_sort_btn w) (win_notices w) b.

Definition set_sort_mode (md : mode) (s : app) : app :=
  mkApp (heap s) (tasks s) (filtered_tasks s) md (search_var s)
        (entry_task s) (listbox s) (stats_label s) (disk s) (dialogs s).

Definition set_search_var (q : string) (s : app) : app :=
  mkApp (heap s) (tasks s) (filtered_tasks s) (sort_mode s) q
        (entry_task s) (listbox s) (stats_label s) (disk s) (dialogs s).

Definition W (A : Type) : Type := window -> outcome A * window.

Definition wret {A} (a : A) : W A := fun w => (Done a, w).

Definition wbind {A B} (m : W A) (k : A -> W B) : W B :=
  fun w =>
    match m w with
    | (Done a, w') => k a w'
    | (Failed f, w') => (Failed f, w')
    end.

Notation "'let+' x ':=' m 'in' k" := (wbind m (fun x => k))
  (at level 10, x name, m at level 100, k at level 200).
Notation "m ';;+' k" := (wbind m (fun _ => k))
  (at level 100, k at level 200, right associativity).

Definition wfail {A} (f : failure) : W A := fun w => (Failed f, w).

(** A method of the store, run inside the window. *)
Definition lift_app {A} (m : M A) : W A :=
  fun w =>
    match m (win_app w) with
    | (Ok a, s') => (Done a, set_win_app s' w)
    | (Raise e, s') => (Failed (Exn e), set_win_app s' w)
    end.

Definition lift_res {A} (r : res A) : W A :=
  fun w =>
    match r with
    | Ok a => (Done a, w)
    | Raise e => (Failed (Exn e), w)
    end.

Definition wgets {A} (f : app -> A) : W A := fun w => (Done (f (win_app w)), w).

Definition notify (n : notice) : W unit :=
  fun w => (Done tt, set_win_notices (win_notices w ++ [n]) w).

(** The loop of [_get_selected_task]: the first task, from position [i]
    on, whose [id] equals the selected task's; both [id]s are read at
    every turn. *)
Fixpoint find_task (h : list obj) (task : loc) (i : nat) (ts : list loc)
  : res (option (nat * loc)) :=
  match ts with
  | [] => Ok None
  | t :: ts' =>
      let? a := getitem (dict_at h t) "id" in
      let? b := getitem (dict_at h task) "id" in
      if py_eq a b then Ok (Some (i, t)) else find_task h task (S i) ts'
  end.

(** [sel] is the first index of [self.listbox.curselection()], [None]
    when nothing is selected. *)
Definition _get_selected_task (sel : option nat) : W (option (nat * loc)) :=
  match sel with
  | None => wret None
  | Some idx =>
      let+ s := wgets (fun s => s) in
      match view_locs s !! idx with
      | None => wfail IndexError
      | Some task => lift_res (find_task (heap s) task 0 (task_locs s))
      end
  end.

(** [self.tasks[idx][k] = v] *)
Definition set_task_field (idx : nat) (k : string) (v : pyval) : W unit :=
  let+ s := wgets (fun s => s) in
  match task_locs s !! idx with
  | None => wfail IndexError
  | Some t =>
      lift_app (modify (set_heap
        (<[t := ODict (<[k := v]> (dict_at (heap s) t))]> (heap s))))
  end.

(** [self.tasks.pop(idx)]: the list object is updated in place. *)
Definition pop_task (idx : nat) : W unit :=
  let+ s := wgets (fun s => s) in
  if (idx <? length (task_locs s))%nat
  then lift_app (modify (set_heap
         (<[tasks s := OList (delete idx (task_locs s))]> (heap s))))
  else wfail IndexError.

Section Window.

Variable json_dumps : list dict -> string.
Variable json_loads : string -> res (list dict).

(** [answer] is what [askstring] returns ([None]: cancelled), [now] what
    [datetime.now().isoformat()] gives. *)
Definition edit_task (sel : option nat) (answer : option string)
  (now : string) : W unit :=
  let+ res := _get_selected_task sel in
  match res with
  | None => notify SelectFirst
  | Some (idx, task) =>
      let+ h := wgets heap in
      let+ initial := lift_res (getitem (dict_at h task) "title") in
      notify (AskNewTitle initial answer) ;;+
      match answer with
      | None => wret tt
      | Some new =>
          if negb (PyStr.nonempty (PyStr.strip new)) then
            notify TitleEmpty
          else
            set_task_field idx "title" (VStr (PyStr.strip new)) ;;+
            set_task_field idx "updated_at" (VStr now) ;;+
            lift_app (save_tasks json_dumps) ;;+
            lift_app refresh_listbox
      end
  end.

Definition delete_task (sel : option nat) (answer : bool) : W unit :=
  let+ res := _get_selected_task sel in
  match res with
  | None => notify SelectFirst
  | Some (idx, task) =>
      let+ h := wgets heap in
      let+ title := lift_res (getitem (dict_at h task) "title") in
      notify (ConfirmRemove title answer) ;;+
      if answer then
        pop_task idx ;;+
        lift_app (save_tasks json_dumps) ;;+
        lift_app refresh_listbox ;;+
        lift_app _update_stats
      else wret tt
  end.

Definition toggle_complete (sel : option nat) (now : string) : W unit :=
  let+ res := _get_selected_task sel in
  match res with
  | None => wret tt
  | Some (idx, task) =>
      let+ s := wgets (fun s => s) in
      match task_locs s !! idx with
      | None => wfail IndexError
      | Some t =>
          set_task_field idx "completed"
            (VBool (negb (is_completed (dict_at (heap s) t)))) ;;+
          set_task_field idx "updated_at" (VStr now) ;;+
          lift_app (save_tasks json_dumps) ;;+
          lift_app refresh_listbox ;;+
          lift_app _update_stats
      end
  end.

Definition _toggle_sort : W unit :=
  let+ md := wgets sort_mode in
  (match md with
   | Date =>
       lift_app (modify (set_sort_mode Alpha)) ;;+
       (fun w => (Done tt, set_win_sort_btn Alpha w))
   | Alpha =>
       lift_app (modify (set_sort_mode Date)) ;;+
       (fun w => (Done tt, set_win_sort_btn Date w))
   end) ;;+
  lift_app refresh_listbox.

Definition _on_search_changed : W unit := lift_app refresh_listbox.

(** The user writes [q] in the search field: the variable's write trace
    calls [_on_search_changed]. *)
Definition write_search (q : string) : W unit :=
  lift_app (modify (set_search_var q)) ;;+
  _on_search_changed.

Definition _manual_save : W unit :=
  lift_app (save_tasks json_dumps) ;;+
  notify SavedOk.

Definition on_close : W unit :=
  lift_app (save_tasks json_dumps) ;;+
  (fun w => (Done tt, set_win_open false w)).



End Window.

(** ** What the selection-driven methods rest on and leave

    A record is sound when it has what every method reads: a [str]
    title, a [created_at] that is absent or a [str], and an [id]. *)
Definition has_id (d : dict) : Prop := exists v, d !! "id" = Some v.

Definition record_sound (d : dict) : Prop :=
  has_title d /\ date_is_str d /\ has_id d.

(** The [id]s of the collection, in order. *)
Definition ids_of (s : app) : list (option pyval) :=
  map (fun d => d !! "id") (collection s).

(** The counters [_update_stats] shows for a collection. *)
Definition stats_of (c : list dict) : nat * nat * nat :=
  (length c,
   length c - length (List.filter is_completed c),
   length (List.filter is_completed c)).

(** The window between two calls: the store holds a list of sound
    records with distinct [id]s, and the view, the listbox and the
    counters are those of the store as it is. *)
Definition consistent (s : app) : Prop :=
  tasks_is_list s /\
  (forall t, In t (task_locs s) -> record_sound (dict_at (heap s) t)) /\
  NoDup (ids_of s) /\
  view_locs s = ordered s /\
  listbox s = rows (heap s) (view_locs s) /\
  stats_label s = stats_of (collection s).

(** [self.tasks[idx][k] = v] and [self.tasks.pop(idx)], as they leave
    the application object. *)
Definition updated (t : loc) (d : dict) (s : app) : app :=
  set_heap (<[t := ODict d]> (heap s)) s.

Definition popped (i : nat) (s : app) : app :=
  set_heap (<[tasks s := OList (delete i (task_locs s))]> (heap s)) s.

(** The record [toggle_complete] and [edit_task] leave in place of [d]. *)
Definition toggled (now : string) (d : dict) : dict :=
  <["updated_at" := VStr now]>
    (<["completed" := VBool (negb (is_completed d))]> d).

Definition retitled (title now : string) (d : dict) : dict :=
  <["updated_at" := VStr now]> (<["title" := VStr title]> d).

(** The three fruit tasks once the window has shown them: the view is
    Apple, banana, cherry over the store banana, Apple, cherry. *)
Definition ready_app : app := counted (refreshed stored_app).

Definition ready_window : window := mkWindow ready_app Alpha [] true.

(** The other sort mode, and a disk whose data file cannot be written. *)
Definition other_mode (md : mode) : mode :=
  match md with
  | Date => Alpha
  | Alpha => Date
  end.

Definition disk_readonly (txt : string) : fsys :=
  mkFs {[ DATA_FILE := mkFile (Some txt) true false ]} false.

Definition readonly_window : window :=
  mkWindow (set_disk (disk_readonly "[old]") ready_app) Alpha [] true.

(** [s'] is [s] but for new list objects, the view and the listbox: what
    a computation of the view may change. *)
Definition same_store (s s' : app) : Prop :=
  tasks s' = tasks s /\ disk s' = disk s /\ dialogs s' = dialogs s /\
  sort_mode s' = sort_mode s /\ search_var s' = search_var s /\
  entry_task s' = entry_task s /\ stats_label s' = stats_label s /\
  exists ls, heap s' = (heap s ++ map OList ls)%list.

(** A reader that also knows the text [titles_dumps] writes for the
    three fruit tasks. *)
Definition fruit_loads (txt : string) : res (list dict) :=
  if String.eqb txt (titles_dumps (collection fruit_app))
  then Ok (collection fruit_app)
  else empty_loads txt.

(** The fruit window with a title typed in the entry field, the chores
    once shown, and a disk holding the three fruit tasks as
    [titles_dumps] writes them. *)
Definition typed_ready_app : app := set_entry_task "  date " ready_app.

Definition chores_ready_app : app := counted (refreshed chores_app).


(** * Properties *)

(** ** Strings *)

Example strip_spaces : PyStr.strip "   " = "".
Proof. reflexivity. Qed.

Example strip_inner : PyStr.strip "  Buy  milk " = "Buy  milk".
Proof. reflexivity. Qed.

Example lower_mixed : PyStr.lower "Buy Milk" = "buy milk".
Proof. reflexivity. Qed.

Example contains_buy : PyStr.contains "buy" "i buy bread" = true.
Proof. reflexivity. Qed.

Lemma prefix_app (q s : string) :
  String.prefix q s = true <-> exists post, s = q ++ post.
Proof.
  revert s. induction q as [|c q IH]; intros s; simpl.
  - split; [intros _; exists s; reflexivity | intros _; destruct s; reflexivity].
  - destruct s as [|c' s]; simpl.
    + split; [discriminate | intros [post H]; discriminate].
    + destruct (ascii_dec c c') as [->|Hne].
      * rewrite IH. split; intros [post H]; exists post.
        -- rewrite H. reflexivity.
        -- change (String c' s = String c' (q ++ post)) in H. congruence.
      * split; [discriminate | intros [post H]].
        change (String c' s = String c (q ++ post)) in H. congruence.
Qed.

(** [contains q s] holds exactly when [q] is a substring of [s]. *)
Lemma contains_substring (q s : string) :
  PyStr.contains q s = true <-> exists pre post, s = pre ++ q ++ post.
Proof.
  induction s as [|c s IH]; cbn [PyStr.contains]; rewrite orb_true_iff, prefix_app.
  - split.
    + intros [[post H]|H]; [|discriminate]. exists "", post. exact H.
    + intros [pre [post H]]. left. destruct pre; simpl in H.
      * exists post. exact H.
      * discriminate.
  - rewrite IH. split.
    + intros [[post H]|[pre [post H]]].
      * exists "", post. exact H.
      * exists (String c pre), post. rewrite H. reflexivity.
    + intros [pre [post H]]. destruct pre as [|c' pre].
      * left. exists post. exact H.
      * right. exists pre, post.
        change (String c s = String c' (pre ++ q ++ post)) in H. congruence.
Qed.

Lemma lt_not_le (a b : string) : PyStr.lt a b = negb (String.leb b a).
Proof.
  unfold PyStr.lt, String.ltb, String.leb.
  rewrite (String.compare_antisym a b).
  destruct (String.compare b a); reflexivity.
Qed.

Lemma leb_refl (a : string) : String.leb a a = true.
Proof. destruct (String.leb_total a a); assumption. Qed.

Lemma leb_trans (a b c : string) :
  String.leb a b = true -> String.leb b c = true -> String.leb a c = true.
Proof.
  intros H1 H2.
  assert (H : String.le a c).
  { transitivity b; unfold String.le; [rewrite H1 | rewrite H2]; exact I. }
  unfold String.le in H. destruct (String.leb a c); [reflexivity | contradiction].
Qed.

Lemma leb_empty (a : string) : String.leb "" a = true.
Proof. destruct a; reflexivity. Qed.

Lemma leb_empty_inv (a : string) : String.leb a "" = true -> a = "".
Proof. destruct a; [reflexivity | discriminate]. Qed.

(** ** The stable sort *)

Section Sorting.

Context {A : Type} (k : A -> string).

Lemma insert_by_perm (x : A) (l : list A) :
  Permutation (insert_by k x l) (x :: l).
Proof.
  induction l as [|y l IH]; simpl.
  - reflexivity.
  - destruct (PyStr.lt (k y) (k x)).
    + rewrite IH. apply perm_swap.
    + reflexivity.
Qed.

Lemma isort_by_perm (l : list A) : Permutation (isort_by k l) l.
Proof.
  induction l as [|x l IH]; simpl.
  - reflexivity.
  - rewrite insert_by_perm. constructor. exact IH.
Qed.

Lemma sorted_by_perm (rv : bool) (l : list A) :
  Permutation (sorted_by k rv l) l.
Proof.
  unfold sorted_by. destruct rv.
  - rewrite <- Permutation_rev, isort_by_perm, <- Permutation_rev.
    reflexivity.
  - apply isort_by_perm.
Qed.

Lemma insert_by_sorted (x : A) (l : list A) :
  StronglySorted (asc k) l -> StronglySorted (asc k) (insert_by k x l).
Proof.
  induction l as [|y l IH]; intros Hs; simpl.
  - repeat constructor.
  - inversion Hs as [|? ? Hl Hy]; subst.
    destruct (PyStr.lt (k y) (k x)) eqn:Hlt.
    + constructor; [apply IH; exact Hl|].
      rewrite List.Forall_forall. intros z Hz.
      apply (Permutation_in _ (insert_by_perm x l)) in Hz.
      destruct Hz as [<-|Hz].
      * unfold asc. rewrite lt_not_le in Hlt.
        destruct (String.leb_total (k y) (k x)) as [H|H]; [exact H|].
        rewrite H in Hlt. discriminate.
      * rewrite List.Forall_forall in Hy. apply Hy. exact Hz.
    + assert (Hxy : asc k x y).
      { unfold asc. rewrite lt_not_le in Hlt.
        destruct (String.leb (k x) (k y)); [reflexivity | discriminate]. }
      constructor; [exact Hs|].
      constructor; [exact Hxy|].
      rewrite List.Forall_forall in Hy |- *. intros z Hz.
      unfold asc in *. eapply leb_trans; [exact Hxy | apply Hy, Hz].
Qed.

Lemma isort_by_sorted (l : list A) : StronglySorted (asc k) (isort_by k l).
Proof.
  induction l as [|x l IH]; simpl.
  - constructor.
  - apply insert_by_sorted, IH.
Qed.

Lemma StronglySorted_rev (R : A -> A -> Prop) (l : list A) :
  StronglySorted R l -> StronglySorted (fun x y => R y x) (rev l).
Proof.
  induction 1 as [|x l Hl IH Hx]; simpl.
  - constructor.
  - apply StronglySorted_app_2; [|exact IH | repeat constructor].
    intros y z Hy Hz. apply list_elem_of_In in Hy, Hz.
    destruct Hz as [<-|[]]. apply in_rev in Hy.
    rewrite List.Forall_forall in Hx. apply Hx, Hy.
Qed.

Lemma sorted_by_asc (l : list A) :
  StronglySorted (asc k) (sorted_by k false l).
Proof. apply isort_by_sorted. Qed.

Lemma sorted_by_desc (l : list A) :
  StronglySorted (desc k) (sorted_by k true l).
Proof.
  unfold sorted_by. apply (StronglySorted_rev (asc k)), isort_by_sorted.
Qed.

(** Stability: the sort moves no item across another of the same key. *)
Lemma insert_by_with_key (key : string) (x : A) (l : list A) :
  with_key k key (insert_by k x l) = with_key k key (x :: l).
Proof.
  unfold with_key. induction l as [|y l IH]; simpl.
  - reflexivity.
  - destruct (PyStr.lt (k y) (k x)) eqn:Hlt; [|reflexivity].
    simpl. rewrite IH. simpl.
    destruct (String.eqb (k x) key) eqn:Hx; [|reflexivity].
    destruct (String.eqb (k y) key) eqn:Hy; [|reflexivity].
    apply String.eqb_eq in Hx, Hy. rewrite Hx, Hy in Hlt.
    rewrite lt_not_le, leb_refl in Hlt. discriminate.
Qed.

Lemma isort_by_with_key (key : string) (l : list A) :
  with_key k key (isort_by k l) = with_key k key l.
Proof.
  induction l as [|x l IH]; simpl; [reflexivity|].
  rewrite insert_by_with_key. unfold with_key in *. simpl.
  rewrite IH. reflexivity.
Qed.

Lemma with_key_rev (key : string) (l : list A) :
  with_key k key (rev l) = rev (with_key k key l).
Proof.
  unfold with_key. induction l as [|x l IH]; simpl; [reflexivity|].
  rewrite List.filter_app, IH. simpl.
  destruct (String.eqb (k x) key); simpl; [reflexivity|].
  apply app_nil_r.
Qed.

Lemma sorted_by_with_key (key : string) (rv : bool) (l : list A) :
  with_key k key (sorted_by k rv l) = with_key k key l.
Proof.
  unfold sorted_by. destruct rv.
  - rewrite with_key_rev, isort_by_with_key, with_key_rev.
    apply rev_involutive.
  - apply isort_by_with_key.
Qed.

(** What strong sortedness says by positions. *)
Lemma StronglySorted_lookup (R : A -> A -> Prop) (l : list A) :
  StronglySorted R l ->
  forall (i j : nat) (x y : A),
    i < j -> l !! i = Some x -> l !! j = Some y -> R x y.
Proof.
  induction 1 as [|z l Hl IH Hz]; intros i j x y Hij Hi Hj.
  - discriminate.
  - destruct j as [|j]; [lia|]. simpl in Hj.
    destruct i as [|i]; simpl in Hi.
    + injection Hi as <-. rewrite List.Forall_forall in Hz.
      apply Hz. apply list_elem_of_In. eapply list_elem_of_lookup_2, Hj.
    + apply (IH i j); [lia | exact Hi | exact Hj].
Qed.

End Sorting.

(** ** The stable ascending order is unique

    Whatever stable sort the interpreter runs, on [str] keys its result
    is the list [isort_by] gives: a list in ascending key order that
    keeps, for every key, the items of that key in their given order is
    determined by these two facts. *)

Section StableUnique.

Context {A : Type} (k : A -> string).

Lemma with_key_in (key : string) (l : list A) (x : A) :
  In x (with_key k key l) <-> In x l /\ k x = key.
Proof.
  unfold with_key. rewrite filter_In, String.eqb_eq. reflexivity.
Qed.

Lemma stable_sorted_unique (r1 r2 : list A) :
  StronglySorted (asc k) r1 -> StronglySorted (asc k) r2 ->
  (forall key, with_key k key r1 = with_key k key r2) ->
  r1 = r2.
Proof.
  revert r2. induction r1 as [|x r1 IH]; intros r2 H1 H2 Hk.
  - destruct r2 as [|y r2]; [reflexivity|].
    specialize (Hk (k y)). unfold with_key in Hk. simpl in Hk.
    rewrite String.eqb_refl in Hk. discriminate.
  - destruct r2 as [|y r2].
    { specialize (Hk (k x)). unfold with_key in Hk. simpl in Hk.
      rewrite String.eqb_refl in Hk. discriminate. }
    inversion H1 as [|? ? Hs1 Hx]; subst.
    inversion H2 as [|? ? Hs2 Hy]; subst.
    rewrite List.Forall_forall in Hx, Hy.
    assert (Hxy : String.leb (k x) (k y) = true).
    { assert (Hin : In y (with_key k (k y) (x :: r1))).
      { rewrite Hk. apply with_key_in. split; [left|]; reflexivity. }
      apply with_key_in in Hin. destruct Hin as [[<-|Hin] _].
      - apply leb_refl.
      - apply Hx, Hin. }
    assert (Hyx : String.leb (k y) (k x) = true).
    { assert (Hin : In x (with_key k (k x) (y :: r2))).
      { rewrite <- Hk. apply with_key_in. split; [left|]; reflexivity. }
      apply with_key_in in Hin. destruct Hin as [[<-|Hin] _].
      - apply leb_refl.
      - apply Hy, Hin. }
    pose proof (String.leb_antisym _ _ Hxy Hyx) as Heq.
    assert (Hhead : x = y).
    { specialize (Hk (k x)). unfold with_key in Hk. simpl in Hk.
      rewrite <- Heq, String.eqb_refl in Hk. congruence. }
    subst y. f_equal. apply IH; [exact Hs1 | exact Hs2 |].
    intros key. specialize (Hk key). unfold with_key in *. simpl in Hk.
    destruct (String.eqb (k x) key); congruence.
Qed.

Lemma stable_sort_is_isort_by (l r : list A) :
  StronglySorted (asc k) r ->
  (forall key, with_key k key r = with_key k key l) ->
  r = isort_by k l.
Proof.
  intros Hs Hk. apply stable_sorted_unique.
  - exact Hs.
  - apply isort_by_sorted.
  - intros key. rewrite isort_by_with_key. apply Hk.
Qed.

End StableUnique.

(** ** [sorted] on [str] keys is [sorted_by] *)

Lemma map_res_ok {B C} (f : B -> res C) (g : B -> C) (l : list B) :
  (forall x, In x l -> f x = Ok (g x)) -> map_res f l = Ok (map g l).
Proof.
  induction l as [|x l IH]; intros H; simpl.
  - reflexivity.
  - rewrite (H x (or_introl eq_refl)). simpl.
    rewrite IH by (intros y Hy; apply H; right; exact Hy).
    reflexivity.
Qed.

Section SortedStr.

Context {A : Type} (k : A -> string).

Lemma insert_keyed_str (x : A) (l : list A) :
  insert_keyed (keyed k x) (map (keyed k) l)
  = Ok (map (keyed k) (insert_by k x l)).
Proof.
  induction l as [|y l IH]; simpl.
  - reflexivity.
  - destruct (PyStr.lt (k y) (k x)); simpl.
    + rewrite IH. reflexivity.
    + reflexivity.
Qed.

Lemma sort_keyed_str (l : list A) :
  sort_keyed (map (keyed k) l) = Ok (map (keyed k) (isort_by k l)).
Proof.
  induction l as [|x l IH]; simpl.
  - reflexivity.
  - rewrite IH. simpl. apply insert_keyed_str.
Qed.

Lemma combine_keyed (l : list A) :
  combine (map (fun x => VStr (k x)) l) l = map (keyed k) l.
Proof.
  induction l as [|x l IH]; simpl; [reflexivity|].
  rewrite IH. reflexivity.
Qed.

Lemma map_snd_keyed (l : list A) : map snd (map (keyed k) l) = l.
Proof.
  induction l as [|x l IH]; simpl; [reflexivity|].
  rewrite IH. reflexivity.
Qed.

Lemma sorted_str (key : A -> res pyval) (rv : bool) (l : list A) :
  (forall x, In x l -> key x = Ok (VStr (k x))) ->
  sorted key rv l = Ok (sorted_by k rv l).
Proof.
  intros H. unfold sorted, sorted_by.
  rewrite (map_res_ok key (fun x => VStr (k x)) l H). simpl.
  rewrite combine_keyed. destruct rv.
  - rewrite <- map_rev, sort_keyed_str. simpl.
    rewrite <- map_rev, map_snd_keyed. reflexivity.
  - rewrite sort_keyed_str. simpl. rewrite map_snd_keyed. reflexivity.
Qed.

End SortedStr.

(** ** The heap under allocation of lists *)

Lemma dict_at_app_list (h : list obj) (xs : list loc) (t : loc) :
  dict_at (h ++ [OList xs]) t = dict_at h t.
Proof.
  unfold dict_at.
  destruct (decide (t < length h)) as [Hlt|Hge].
  - rewrite lookup_app_l by exact Hlt. reflexivity.
  - rewrite lookup_app_r by lia.
    replace (h !! t) with (@None obj)
      by (symmetry; apply lookup_ge_None_2; lia).
    destruct (t - length h) as [|n]; simpl; [reflexivity|].
    destruct n; reflexivity.
Qed.

Lemma list_at_app_old (h h' : list obj) (l : loc) :
  l < length h -> list_at (h ++ h') l = list_at h l.
Proof.
  intros Hlt. unfold list_at. rewrite lookup_app_l by exact Hlt. reflexivity.
Qed.

Lemma list_at_app_new (h : list obj) (xs : list loc) :
  list_at (h ++ [OList xs]) (length h) = xs.
Proof.
  unfold list_at. rewrite lookup_app_r by lia.
  rewrite Nat.sub_diag. reflexivity.
Qed.

(** ** What [refresh_listbox] computes *)

Lemma has_title_getitem (d : dict) :
  has_title d -> getitem d "title" = Ok (VStr (title_of d)).
Proof.
  intros [s H]. unfold getitem, title_of. rewrite H. reflexivity.
Qed.

Lemma title_key_ok (h : list obj) (t : loc) :
  has_title (dict_at h t) -> title_key h t = Ok (VStr (title_lower h t)).
Proof.
  intros H. unfold title_key. rewrite (has_title_getitem _ H). reflexivity.
Qed.

Lemma date_key_ok (h : list obj) (t : loc) :
  date_is_str (dict_at h t) -> date_key h t = Ok (VStr (created_at h t)).
Proof.
  intros H. unfold date_key, get_default, created_at, created_at_of.
  destruct (dict_at h t !! "created_at") as [[s|b]|] eqn:E; simpl.
  - reflexivity.
  - destruct (H b E).
  - reflexivity.
Qed.

Lemma matches_ok (q : string) (h : list obj) (t : loc) :
  has_title (dict_at h t) ->
  matches q h t = Ok (PyStr.contains q (title_lower h t)).
Proof.
  intros H. unfold matches. rewrite (has_title_getitem _ H). reflexivity.
Qed.

Lemma filter_res_ok {B} (p : B -> res bool) (g : B -> bool) (l : list B) :
  (forall x, In x l -> p x = Ok (g x)) ->
  filter_res p l = Ok (List.filter g l).
Proof.
  induction l as [|x l IH]; intros H; simpl.
  - reflexivity.
  - rewrite (H x (or_introl eq_refl)). simpl.
    rewrite IH by (intros y Hy; apply H; right; exact Hy). simpl.
    destruct (g x); reflexivity.
Qed.

Lemma render_ok (ts : list loc) (s : app) :
  (forall t, In t ts -> has_title (dict_at (heap s) t)) ->
  render ts s = (Ok tt, set_listbox (listbox s ++ rows (heap s) ts) s).
Proof.
  revert s. induction ts as [|t ts IH]; intros s H; simpl.
  - unfold ret. rewrite app_nil_r. destruct s; reflexivity.
  - unfold bind, gets, lift, modify, render_row. simpl.
    rewrite (has_title_getitem _ (H t (or_introl eq_refl))). simpl.
    rewrite IH by (intros u Hu; apply H; right; exact Hu). simpl.
    rewrite <- app_assoc. reflexivity.
Qed.

Lemma filtered_incl (s : app) (t : loc) :
  In t (filtered s) -> In t (list_at (heap s) (tasks s)).
Proof.
  unfold filtered. destruct (PyStr.nonempty (search_term s)).
  - intros H. apply filter_In in H. apply H.
  - intros H. exact H.
Qed.

Lemma ordered_perm (s : app) : Permutation (ordered s) (filtered s).
Proof.
  unfold ordered, sort_by_mode. destruct (sort_mode s); apply sorted_by_perm.
Qed.

Lemma sort_tasks_run (s : app) (l : loc) (h0 : list obj) :
  (forall t, dict_at (heap s) t = dict_at h0 t) ->
  (forall t, In t (list_at (heap s) l) ->
     record_ok (sort_mode s) (dict_at h0 t)) ->
  _sort_tasks l s
  = (Ok (length (heap s)),
     set_heap (heap s ++ [OList (sort_by_mode (sort_mode s) h0
                                   (list_at (heap s) l))]) s).
Proof.
  intros Hd Hwf. unfold _sort_tasks, bind, gets, lift, alloc, sort_by_mode.
  destruct (sort_mode s).
  - rewrite (sorted_str (title_lower h0)); [reflexivity|].
    intros t Ht. unfold title_key. rewrite Hd.
    apply (title_key_ok h0), Hwf, Ht.
  - rewrite (sorted_str (created_at h0)); [reflexivity|].
    intros t Ht. unfold date_key. rewrite Hd.
    apply (date_key_ok h0). apply (Hwf t Ht). reflexivity.
Qed.

Lemma refresh_listbox_run (s : app) :
  tasks_well_formed s -> refresh_listbox s = (Ok tt, refreshed s).
Proof.
  intros Hwf. unfold refresh_listbox, bind, gets, modify, lift, alloc. simpl.
  set (h := heap s). set (q := PyStr.lower (PyStr.strip (search_var s))).
  assert (Hf : (if PyStr.nonempty q
                then filter_res (matches q h) (list_at h (tasks s))
                else Ok (list_at h (tasks s))) = Ok (filtered s)).
  { unfold filtered, search_term. fold q h. destruct (PyStr.nonempty q).
    - apply filter_res_ok. intros t Ht. apply matches_ok, Hwf, Ht.
    - reflexivity. }
  set (s1 := set_filtered_tasks (length h)
               (set_heap (h ++ [OList (filtered s)]) s)).
  match goal with
  | |- (let (_, _) := ?c in _) = _ => assert (Hc : c = (Ok tt, s1))
  end.
  { destruct (PyStr.nonempty q).
    - rewrite Hf. reflexivity.
    - injection Hf as Hf. unfold s1. rewrite <- Hf. reflexivity. }
  rewrite Hc. clear Hc.
  assert (Hl : list_at (heap s1) (filtered_tasks s1) = filtered s).
  { apply list_at_app_new. }
  rewrite (sort_tasks_run s1 (filtered_tasks s1) h).
  2: { intros t. apply dict_at_app_list. }
  2: { intros t Ht. rewrite Hl in Ht. apply Hwf, filtered_incl, Ht. }
  rewrite Hl.
  change (sort_by_mode (sort_mode s1) h (filtered s)) with (ordered s).
  change (heap (set_heap (heap s1 ++ [OList (ordered s)]) s1))
    with (heap s1 ++ [OList (ordered s)])%list.
  rewrite list_at_app_new.
  rewrite render_ok.
  - unfold refreshed, s1. simpl. fold h.
    rewrite <- app_assoc. simpl.
    assert (Hr : rows (h ++ [OList (filtered s); OList (ordered s)])%list
                      (ordered s)
                 = rows h (ordered s)).
    { unfold rows. apply map_ext. intros t.
      change (h ++ [OList (filtered s); OList (ordered s)])%list
        with (h ++ [OList (filtered s)] ++ [OList (ordered s)])%list.
      rewrite app_assoc, !dict_at_app_list. reflexivity. }
    rewrite Hr. rewrite length_app. simpl.
    replace (length h + 1) with (S (length h)) by lia. reflexivity.
  - intros t Ht. simpl. rewrite !dict_at_app_list.
    apply Hwf, filtered_incl.
    apply (Permutation_in _ (ordered_perm s)), Ht.
Qed.

Lemma view_locs_refreshed (s : app) : view_locs (refreshed s) = ordered s.
Proof.
  unfold view_locs, refreshed. simpl.
  change (heap s ++ [OList (filtered s); OList (ordered s)])%list
    with (heap s ++ [OList (filtered s)] ++ [OList (ordered s)])%list.
  rewrite app_assoc.
  replace (S (length (heap s)))
    with (length (heap s ++ [OList (filtered s)])%list)
    by (rewrite length_app; simpl; lia).
  apply list_at_app_new.
Qed.

Ltac record_ok_by_computation :=
  intros t Ht; vm_compute in Ht;
  repeat (destruct Ht as [<-|Ht]; [split; [eexists; vm_compute; reflexivity
                                          | intros _ b; vm_compute; discriminate]|]);
  destruct Ht.

Lemma fruit_app_well_formed : tasks_well_formed fruit_app.
Proof. record_ok_by_computation. Qed.

Lemma shop_app_well_formed : tasks_well_formed shop_app.
Proof. record_ok_by_computation. Qed.

Lemma dated_app_well_formed : tasks_well_formed dated_app.
Proof. record_ok_by_computation. Qed.

(** ** The view: filtering and ordering *)

(** C7. In alphabetical mode the view is ordered ascending by the
    lower-cased title, and tasks whose lower-cased titles are equal keep
    the order they have among the tasks the search kept; the tasks
    banana, Apple, cherry come out as Apple, banana, cherry. *)
Theorem alphabetical_view_sorted_stable :
  (forall s : app,
      tasks_well_formed s -> sort_mode s = Alpha ->
      exists s', refresh_listbox s = (Ok tt, s') /\
        Permutation (view_locs s') (filtered s) /\
        (forall (i j : nat) (x y : loc),
            i < j -> view_locs s' !! i = Some x -> view_locs s' !! j = Some y ->
            String.leb (PyStr.lower (title_of (dict_at (heap s) x)))
                       (PyStr.lower (title_of (dict_at (heap s) y))) = true) /\
        (forall key : string,
            with_key (title_lower (heap s)) key (view_locs s')
            = with_key (title_lower (heap s)) key (filtered s)))
  /\ search_term fruit_app = ""
  /\ map title_of (collection fruit_app) = ["banana"; "Apple"; "cherry"]
  /\ map title_of (view (snd (refresh_listbox fruit_app)))
     = ["Apple"; "banana"; "cherry"].
Proof.
  split; [|repeat split; vm_compute; reflexivity].
  intros s Hwf Hmode. exists (refreshed s).
  split; [apply refresh_listbox_run, Hwf|].
  rewrite view_locs_refreshed. unfold ordered, sort_by_mode. rewrite Hmode.
  split; [apply sorted_by_perm|]. split.
  - intros i j x y Hij Hi Hj.
    exact (StronglySorted_lookup _ _ (sorted_by_asc (title_lower (heap s)) _)
             i j x y Hij Hi Hj).
  - intros key. apply sorted_by_with_key.
Qed.

Lemma alphabetical_view_sorted_stable_witness :
  tasks_well_formed fruit_app /\ sort_mode fruit_app = Alpha /\
  exists s', refresh_listbox fruit_app = (Ok tt, s') /\
    Permutation (view_locs s') (filtered fruit_app).
Proof.
  split; [exact fruit_app_well_formed|]. split; [reflexivity|].
  destruct (proj1 alphabetical_view_sorted_stable fruit_app
              fruit_app_well_formed eq_refl) as [s' [Hrun [Hperm _]]].
  exists s'. split; [exact Hrun | exact Hperm].
Defined.

Lemma filter_all {B} (l : list B) : List.filter (fun _ => true) l = l.
Proof. induction l as [|x l IH]; simpl; [reflexivity | rewrite IH; reflexivity]. Qed.

Lemma nonempty_false (q : string) : PyStr.nonempty q = false <-> q = "".
Proof. destruct q; simpl; split; intros H; try reflexivity; discriminate. Qed.

(** C8. The view holds exactly the tasks whose lower-cased title has the
    trimmed, lower-cased search term as a substring, and every task when
    that term is empty; with the titles Buy milk, Walk dog, Buy bread and
    the search term [buy], in date mode, it holds the two Buy tasks. *)
Theorem view_keeps_matching_titles :
  (forall s : app,
      tasks_well_formed s ->
      let q := PyStr.lower (PyStr.strip (search_var s)) in
      exists s', refresh_listbox s = (Ok tt, s') /\
        Permutation (view_locs s')
          (List.filter
             (fun t => negb (PyStr.nonempty q)
                       || PyStr.contains q
                            (PyStr.lower (title_of (dict_at (heap s) t))))
             (task_locs s)) /\
        (forall t : loc,
            In t (view_locs s') <->
            In t (task_locs s) /\
            (q = "" \/
             exists pre post,
               PyStr.lower (title_of (dict_at (heap s) t)) = pre ++ q ++ post)))
  /\ search_var shop_app = "buy" /\ sort_mode shop_app = Date
  /\ map title_of (collection shop_app) = ["Buy milk"; "Walk dog"; "Buy bread"]
  /\ map title_of (view (snd (refresh_listbox shop_app)))
     = ["Buy milk"; "Buy bread"].
Proof.
  split; [|repeat split; vm_compute; reflexivity].
  intros s Hwf q. exists (refreshed s).
  split; [apply refresh_listbox_run, Hwf|].
  rewrite view_locs_refreshed.
  assert (Hf : filtered s
               = List.filter
                   (fun t => negb (PyStr.nonempty q)
                             || PyStr.contains q
                                  (PyStr.lower (title_of (dict_at (heap s) t))))
                   (task_locs s)).
  { unfold filtered, search_term, task_locs, title_lower. fold q.
    destruct (PyStr.nonempty q); simpl.
    - reflexivity.
    - symmetry. apply filter_all. }
  split.
  - rewrite <- Hf. apply ordered_perm.
  - intros t. split.
    + intros Ht. apply (Permutation_in _ (ordered_perm s)) in Ht.
      rewrite Hf in Ht. apply filter_In in Ht. destruct Ht as [Hin Hk].
      split; [exact Hin|].
      apply orb_true_iff in Hk. destruct Hk as [Hk|Hk].
      * left. apply nonempty_false. apply negb_true_iff. exact Hk.
      * right. apply contains_substring. exact Hk.
    + intros [Hin Hk].
      apply (Permutation_in _ (Permutation_sym (ordered_perm s))).
      rewrite Hf. apply filter_In. split; [exact Hin|].
      apply orb_true_iff. destruct Hk as [Hk|Hk].
      * left. apply negb_true_iff, nonempty_false. exact Hk.
      * right. apply contains_substring. exact Hk.
Qed.

Lemma view_keeps_matching_titles_witness :
  tasks_well_formed shop_app /\
  exists s', refresh_listbox shop_app = (Ok tt, s') /\
    forall t : loc,
      In t (view_locs s') <->
      In t (task_locs shop_app) /\
      ("buy" = "" \/
       exists pre post,
         PyStr.lower (title_of (dict_at (heap shop_app) t))
         = pre ++ "buy" ++ post).
Proof.
  split; [exact shop_app_well_formed|].
  destruct (proj1 view_keeps_matching_titles shop_app shop_app_well_formed)
    as [s' [Hrun [_ Hin]]].
  exists s'. split; [exact Hrun | exact Hin].
Defined.

(** C9. In date mode the view is ordered descending by [created_at], the
    most recently created first, and tasks with equal [created_at] keep
    the order they have among the tasks the search kept. *)
Theorem date_view_sorted_stable :
  (forall s : app,
      tasks_well_formed s -> sort_mode s = Date ->
      exists s', refresh_listbox s = (Ok tt, s') /\
        Permutation (view_locs s') (filtered s) /\
        (forall (i j : nat) (x y : loc),
            i < j -> view_locs s' !! i = Some x -> view_locs s' !! j = Some y ->
            String.leb (created_at_of (dict_at (heap s) y))
                       (created_at_of (dict_at (heap s) x)) = true) /\
        (forall key : string,
            with_key (created_at (heap s)) key (view_locs s')
            = with_key (created_at (heap s)) key (filtered s)))
  /\ map title_of (collection dated_app)
     = ["undated"; "early"; "late a"; "late b"]
  /\ map title_of (view (snd (refresh_listbox dated_app)))
     = ["late a"; "late b"; "early"; "undated"].
Proof.
  split; [|repeat split; vm_compute; reflexivity].
  intros s Hwf Hmode. exists (refreshed s).
  split; [apply refresh_listbox_run, Hwf|].
  rewrite view_locs_refreshed. unfold ordered, sort_by_mode. rewrite Hmode.
  split; [apply sorted_by_perm|]. split.
  - intros i j x y Hij Hi Hj.
    exact (StronglySorted_lookup _ _ (sorted_by_desc (created_at (heap s)) _)
             i j x y Hij Hi Hj).
  - intros key. apply sorted_by_with_key.
Qed.

Lemma date_view_sorted_stable_witness :
  tasks_well_formed dated_app /\ sort_mode dated_app = Date /\
  exists s', refresh_listbox dated_app = (Ok tt, s') /\
    Permutation (view_locs s') (filtered dated_app).
Proof.
  split; [exact dated_app_well_formed|]. split; [reflexivity|].
  destruct (proj1 date_view_sorted_stable dated_app
              dated_app_well_formed eq_refl) as [s' [Hrun [Hperm _]]].
  exists s'. split; [exact Hrun | exact Hperm].
Defined.

(** C10. In date mode a record without a [created_at] key is sorted under
    the key [''], and the view, which holds exactly the tasks the search
    kept, has it after every task whose [created_at] is a non-empty
    string: every kept task of the one kind and of the other is in the
    view, at a position, and each undated one stands at a later position
    than each dated one. In the example, the undated record is first in
    the store and last in the view. *)
Theorem undated_tasks_come_last (s : app) :
  tasks_well_formed s -> sort_mode s = Date ->
  (forall t : loc,
      dict_at (heap s) t !! "created_at" = None ->
      date_key (heap s) t = Ok (VStr "")) /\
  (exists s', refresh_listbox s = (Ok tt, s') /\
    Permutation (view_locs s') (filtered s) /\
    (forall x : loc, In x (filtered s) ->
       exists i, view_locs s' !! i = Some x) /\
    forall (i j : nat) (x y : loc) (c : string),
      view_locs s' !! i = Some x -> view_locs s' !! j = Some y ->
      dict_at (heap s) x !! "created_at" = None ->
      dict_at (heap s) y !! "created_at" = Some (VStr c) -> c <> "" ->
      j < i) /\
  map title_of (collection dated_app)
  = ["undated"; "early"; "late a"; "late b"] /\
  map (fun d => d !! "created_at") (collection dated_app) !! 0 = Some None /\
  map title_of (view (snd (refresh_listbox dated_app)))
  = ["late a"; "late b"; "early"; "undated"].
Proof.
  intros Hwf Hmode. split.
  { intros t Ht. unfold date_key, get_default. rewrite Ht. reflexivity. }
  split; [|repeat split; vm_compute; reflexivity].
  exists (refreshed s).
  split; [apply refresh_listbox_run, Hwf|].
  rewrite view_locs_refreshed. unfold ordered, sort_by_mode. rewrite Hmode.
  assert (Hperm : Permutation
                    (sorted_by (created_at (heap s)) true (filtered s))
                    (filtered s)) by apply sorted_by_perm.
  split; [exact Hperm|].
  split.
  { intros x Hx.
    apply (Permutation_in _ (Permutation_sym Hperm)) in Hx.
    apply list_elem_of_In, list_elem_of_lookup_1 in Hx. exact Hx. }
  intros i j x y c Hi Hj Hx Hy Hc.
  destruct (Nat.lt_trichotomy i j) as [Hlt|[Heq|Hgt]]; [| |exact Hgt].
  - pose proof (StronglySorted_lookup _ _
                  (sorted_by_desc (created_at (heap s)) (filtered s))
                  i j x y Hlt Hi Hj) as Hd.
    unfold desc, created_at, created_at_of in Hd. rewrite Hx, Hy in Hd.
    apply leb_empty_inv in Hd. contradiction.
  - subst j. rewrite Hi in Hj. injection Hj as <-.
    rewrite Hx in Hy. discriminate.
Qed.

Lemma undated_tasks_come_last_witness :
  tasks_well_formed dated_app /\ sort_mode dated_app = Date /\
  exists s', refresh_listbox dated_app = (Ok tt, s') /\
    Permutation (view_locs s') (filtered dated_app) /\
    forall (i j : nat) (x y : loc) (c : string),
      view_locs s' !! i = Some x -> view_locs s' !! j = Some y ->
      dict_at (heap dated_app) x !! "created_at" = None ->
      dict_at (heap dated_app) y !! "created_at" = Some (VStr c) -> c <> "" ->
      j < i.
Proof.
  split; [exact dated_app_well_formed|]. split; [reflexivity|].
  destruct (proj1 (proj2 (undated_tasks_come_last dated_app
                            dated_app_well_formed eq_refl)))
    as [s' [Hrun [Hperm [_ Hlast]]]].
  exists s'. split; [exact Hrun|]. split; [exact Hperm | exact Hlast].
Defined.

(** ** Saving *)

Lemma data_backup_distinct : DATA_FILE <> BACKUP_FILE.
Proof. discriminate. Qed.

Section Saving.

Variable json_dumps : list dict -> string.

Lemma backup_copy_run (s : app) :
  try_except backup_copy (fun _ => ret tt) s
  = (Ok tt, set_disk (backup_fs (disk s)) s).
Proof.
  unfold backup_copy, try_except, bind, m_open_read, m_open_write, m_write,
    lift, modify, ret, backup_fs.
  destruct (open_read (disk s) DATA_FILE) as [d|e]; cbn.
  - destruct (open_write (disk s) BACKUP_FILE) as [fs'|e]; cbn.
    + destruct (read_text d) as [txt|e]; cbn; reflexivity.
    + destruct s as [? ? ? ? ? ? ? ? [? ?] ?]; reflexivity.
  - destruct s as [? ? ? ? ? ? ? ? [? ?] ?]; reflexivity.
Qed.

Lemma save_tasks_run (s : app) :
  save_tasks json_dumps s = (Ok tt, saved json_dumps s).
Proof.
  unfold save_tasks, saved, try_except at 1, bind at 1, gets at 1.
  destruct (path_exists (disk s) DATA_FILE).
  - unfold bind at 1. rewrite backup_copy_run.
    unfold bind, m_open_write, gets, m_write, modify, messagebox. cbn.
    destruct (open_write (backup_fs (disk s)) DATA_FILE); reflexivity.
  - unfold bind, ret, m_open_write, gets, m_write, modify, messagebox. cbn.
    destruct (open_write (disk s) DATA_FILE) as [fs2|e]; [reflexivity|].
    destruct s as [? ? ? ? ? ? ? ? [? ?] ?]; reflexivity.
Qed.

End Saving.

(** ** The disk under [open], [write] and the backup copy *)

Lemma open_write_ok (fs : fsys) (p : string) :
  can_write fs p = true ->
  exists fs2, open_write fs p = Ok fs2 /\
    fs_creatable fs2 = fs_creatable fs /\
    (exists f, fs_files fs2 !! p = Some f) /\
    (forall p', p' <> p -> fs_files fs2 !! p' = fs_files fs !! p').
Proof.
  unfold can_write, open_write. intros H.
  destruct (fs_files fs !! p) as [f|]; rewrite H; eexists;
    (split; [reflexivity|]); simpl;
    (split; [reflexivity|]);
    (split; [eexists; apply lookup_insert_eq|]);
    intros p' Hp; apply lookup_insert_ne; congruence.
Qed.

Lemma open_write_fail (fs : fsys) (p : string) :
  can_write fs p = false -> open_write fs p = Raise OSError.
Proof.
  unfold can_write, open_write. intros H.
  destruct (fs_files fs !! p) as [f|]; rewrite H; reflexivity.
Qed.

Lemma write_text_same (fs : fsys) (p txt : string) (f : file) :
  fs_files fs !! p = Some f -> file_text (write_text fs p txt) p = Some txt.
Proof.
  intros H. unfold file_text, write_text. simpl.
  rewrite lookup_alter_eq, H. reflexivity.
Qed.

Lemma write_text_other (fs : fsys) (p p' txt : string) :
  p' <> p -> fs_files (write_text fs p txt) !! p' = fs_files fs !! p'.
Proof.
  intros H. unfold write_text. simpl. apply lookup_alter_ne. congruence.
Qed.

Lemma backup_fs_other (fs : fsys) (p : string) :
  p <> BACKUP_FILE -> fs_files (backup_fs fs) !! p = fs_files fs !! p.
Proof.
  intros Hp. unfold backup_fs.
  destruct (open_read fs DATA_FILE) as [d|e]; [|reflexivity].
  destruct (can_write fs BACKUP_FILE) eqn:Hw.
  - destruct (open_write_ok fs BACKUP_FILE Hw) as [fs2 [-> [_ [_ Ho]]]].
    destruct (read_text d) as [txt|e].
    + rewrite write_text_other by exact Hp. apply Ho, Hp.
    + apply Ho, Hp.
  - rewrite (open_write_fail fs BACKUP_FILE Hw). reflexivity.
Qed.

Lemma backup_fs_creatable (fs : fsys) :
  fs_creatable (backup_fs fs) = fs_creatable fs.
Proof.
  unfold backup_fs.
  destruct (open_read fs DATA_FILE) as [d|e]; [|reflexivity].
  destruct (can_write fs BACKUP_FILE) eqn:Hw.
  - destruct (open_write_ok fs BACKUP_FILE Hw) as [fs2 [-> [Hc _]]].
    destruct (read_text d) as [txt|e]; simpl; exact Hc.
  - rewrite (open_write_fail fs BACKUP_FILE Hw). reflexivity.
Qed.

Lemma backup_fs_copies (fs : fsys) (old : string) :
  file_text fs DATA_FILE = Some old ->
  can_read fs DATA_FILE = true ->
  can_write fs BACKUP_FILE = true ->
  file_text (backup_fs fs) BACKUP_FILE = Some old.
Proof.
  unfold file_text at 1, can_read, backup_fs, open_read. intros Ht Hr Hw.
  destruct (fs_files fs !! DATA_FILE) as [f|]; [|discriminate].
  simpl in Ht. rewrite Hr, Ht.
  destruct (open_write_ok fs BACKUP_FILE Hw) as [fs2 [-> [_ [[f' Hf'] _]]]].
  simpl. eapply write_text_same, Hf'.
Qed.

Lemma can_write_backup_fs (fs : fsys) :
  can_write (backup_fs fs) DATA_FILE = can_write fs DATA_FILE.
Proof.
  unfold can_write.
  rewrite backup_fs_other by exact data_backup_distinct.
  rewrite backup_fs_creatable. reflexivity.
Qed.

Section SavedDisk.

Variable json_dumps : list dict -> string.

Lemma saved_writes (s : app) :
  can_write (disk s) DATA_FILE = true ->
  file_text (disk (saved json_dumps s)) DATA_FILE
  = Some (json_dumps (collection s))
  /\ dialogs (saved json_dumps s) = dialogs s.
Proof.
  intros Hw. unfold saved.
  set (fs1 := if path_exists (disk s) DATA_FILE
              then backup_fs (disk s) else disk s).
  assert (Hw1 : can_write fs1 DATA_FILE = true).
  { unfold fs1. destruct (path_exists (disk s) DATA_FILE); [|exact Hw].
    rewrite can_write_backup_fs. exact Hw. }
  destruct (open_write_ok fs1 DATA_FILE Hw1) as [fs2 [-> [_ [[f Hf] _]]]].
  split; [|reflexivity]. cbn [disk set_disk]. eapply write_text_same, Hf.
Qed.

Lemma saved_backup (s : app) (old : string) :
  file_text (disk s) DATA_FILE = Some old ->
  can_read (disk s) DATA_FILE = true ->
  can_write (disk s) BACKUP_FILE = true ->
  file_text (disk (saved json_dumps s)) BACKUP_FILE = Some old.
Proof.
  intros Ht Hr Hw. unfold saved.
  assert (Hex : path_exists (disk s) DATA_FILE = true).
  { unfold path_exists. unfold file_text in Ht.
    destruct (fs_files (disk s) !! DATA_FILE); [reflexivity | discriminate]. }
  rewrite Hex.
  pose proof (backup_fs_copies (disk s) old Ht Hr Hw) as Hb.
  destruct (can_write (backup_fs (disk s)) DATA_FILE) eqn:Hw1.
  - destruct (open_write_ok _ _ Hw1) as [fs2 [-> [_ [_ Ho]]]].
    cbn [disk set_disk]. unfold file_text in *.
    rewrite write_text_other by (intros E; symmetry in E; revert E;
                                 exact data_backup_distinct).
    rewrite Ho by (intros E; symmetry in E; revert E;
                   exact data_backup_distinct).
    exact Hb.
  - rewrite (open_write_fail _ _ Hw1). cbn [disk set_disk set_dialogs].
    exact Hb.
Qed.

Lemma saved_no_backup (s : app) :
  path_exists (disk s) DATA_FILE = false ->
  fs_files (disk (saved json_dumps s)) !! BACKUP_FILE
  = fs_files (disk s) !! BACKUP_FILE.
Proof.
  intros Hex. unfold saved. rewrite Hex.
  destruct (can_write (disk s) DATA_FILE) eqn:Hw1.
  - destruct (open_write_ok _ _ Hw1) as [fs2 [-> [_ [_ Ho]]]].
    cbn [disk set_disk].
    rewrite write_text_other by (intros E; symmetry in E; revert E;
                                 exact data_backup_distinct).
    apply Ho. intros E; symmetry in E; revert E. exact data_backup_distinct.
  - rewrite (open_write_fail _ _ Hw1). reflexivity.
Qed.

Lemma saved_heap (s : app) :
  heap (saved json_dumps s) = heap s /\ tasks (saved json_dumps s) = tasks s.
Proof.
  unfold saved.
  destruct (open_write _ DATA_FILE); split; reflexivity.
Qed.

(** C3. A save never raises. When the data file exists and can be read,
    and the backup file can be written, the backup file then holds the
    text the data file held before this save. Whatever became of the
    copy (no hypothesis is made on it), when the data file can be
    written it then holds the serialized collection and no error is
    shown. No backup is touched when there was no data file. *)
Theorem save_copies_backup_then_writes (s : app) :
  let s' := snd (save_tasks json_dumps s) in
  fst (save_tasks json_dumps s) = Ok tt /\
  (forall old : string,
      file_text (disk s) DATA_FILE = Some old ->
      can_read (disk s) DATA_FILE = true ->
      can_write (disk s) BACKUP_FILE = true ->
      file_text (disk s') BACKUP_FILE = Some old) /\
  (can_write (disk s) DATA_FILE = true ->
      file_text (disk s') DATA_FILE = Some (json_dumps (collection s)) /\
      dialogs s' = dialogs s) /\
  (path_exists (disk s) DATA_FILE = false ->
      fs_files (disk s') !! BACKUP_FILE = fs_files (disk s) !! BACKUP_FILE).
Proof.
  rewrite save_tasks_run. simpl. split; [reflexivity|].
  split; [apply saved_backup|].
  split; [apply saved_writes | apply saved_no_backup].
Qed.

End SavedDisk.

Lemma save_copies_backup_then_writes_witness :
  (file_text (disk stored_app) DATA_FILE = Some "[old]" /\
   can_read (disk stored_app) DATA_FILE = true /\
   can_write (disk stored_app) BACKUP_FILE = true /\
   can_write (disk stored_app) DATA_FILE = true) /\
  file_text (disk (snd (save_tasks titles_dumps stored_app))) BACKUP_FILE
  = Some "[old]" /\
  file_text (disk (snd (save_tasks titles_dumps stored_app))) DATA_FILE
  = Some "[banana,Apple,cherry]".
Proof.
  assert (H : (file_text (disk stored_app) DATA_FILE = Some "[old]" /\
               can_read (disk stored_app) DATA_FILE = true /\
               can_write (disk stored_app) BACKUP_FILE = true /\
               can_write (disk stored_app) DATA_FILE = true))
    by (repeat split; vm_compute; reflexivity).
  split; [exact H|].
  destruct H as [Ht [Hr [Hb Hw]]].
  destruct (save_copies_backup_then_writes titles_dumps stored_app)
    as [_ [Hbak [Hprim _]]].
  split.
  - exact (Hbak "[old]" Ht Hr Hb).
  - exact (proj1 (Hprim Hw)).
Defined.

(** ** Loading *)

Lemma reset_tasks_run (s : app) : reset_tasks s = (Ok tt, reset s).
Proof. reflexivity. Qed.

Lemma collection_reset (s : app) : collection (reset s) = [].
Proof.
  unfold collection, reset. cbn [heap tasks set_tasks set_heap].
  rewrite list_at_app_new. reflexivity.
Qed.

Lemma alloc_dicts_run (ds : list dict) (s : app) :
  alloc_dicts ds s
  = (Ok (seq (length (heap s)) (length ds)),
     set_heap (heap s ++ map ODict ds) s).
Proof.
  revert s. induction ds as [|d ds IH]; intros s; simpl.
  - unfold ret. rewrite app_nil_r. destruct s; reflexivity.
  - unfold bind, alloc. rewrite IH. unfold ret.
    cbn [heap set_heap]. rewrite length_app, <- app_assoc. simpl.
    replace (length (heap s) + 1) with (S (length (heap s))) by lia.
    reflexivity.
Qed.

Lemma dict_at_new_dicts (h : list obj) (ds : list dict) (xs : list loc) :
  map (dict_at ((h ++ map ODict ds) ++ [OList xs]))
      (seq (length h) (length ds)) = ds.
Proof.
  revert h. induction ds as [|d ds IH]; intros h; simpl; [reflexivity|].
  f_equal.
  - unfold dict_at. rewrite <- app_assoc, lookup_app_r by lia.
    rewrite Nat.sub_diag. reflexivity.
  - specialize (IH (h ++ [ODict d])%list).
    rewrite length_app in IH. simpl in IH.
    replace (length h + 1) with (S (length h)) in IH by lia.
    rewrite <- (app_assoc h [ODict d]) in IH. exact IH.
Qed.

Lemma collection_loaded (recs : list dict) (s : app) :
  collection (loaded recs s) = recs.
Proof.
  unfold collection, loaded. cbn [heap tasks set_tasks set_heap].
  replace (length (heap s) + length recs)
    with (length (heap s ++ map ODict recs)%list)
    by (rewrite length_app, length_map; reflexivity).
  rewrite list_at_app_new.
  apply dict_at_new_dicts.
Qed.

Lemma open_read_text (fs : fsys) (p txt : string) :
  can_read fs p = true -> file_text fs p = Some txt ->
  open_read fs p = Ok (Some txt) /\ path_exists fs p = true.
Proof.
  unfold can_read, file_text, open_read, path_exists.
  destruct (fs_files fs !! p) as [f|]; [|discriminate].
  simpl. intros -> ->. split; reflexivity.
Qed.

Lemma open_read_fails (fs : fsys) (p : string) :
  path_exists fs p = true ->
  can_read fs p = false \/ file_text fs p = None ->
  exists e, (let? d := open_read fs p in read_text d) = Raise e
            /\ e <> JSONDecodeError.
Proof.
  unfold can_read, file_text, open_read, path_exists.
  destruct (fs_files fs !! p) as [f|]; [|discriminate].
  simpl. intros _ H. destruct (f_readable f).
  - destruct H as [H|H]; [discriminate|]. rewrite H.
    exists UnicodeDecodeError. split; [reflexivity | discriminate].
  - exists OSError. split; [reflexivity | discriminate].
Qed.

Section Loading.

Variable json_dumps : list dict -> string.
Variable json_loads : string -> res (list dict).

Lemma load_absent (s : app) :
  path_exists (disk s) DATA_FILE = false ->
  load_tasks json_dumps json_loads s
  = (Ok tt, saved json_dumps (reset s)).
Proof.
  intros H. unfold load_tasks, bind at 1, gets. rewrite H. simpl.
  unfold bind. rewrite reset_tasks_run. apply save_tasks_run.
Qed.

Lemma load_corrupt (s : app) (txt : string) :
  can_read (disk s) DATA_FILE = true ->
  file_text (disk s) DATA_FILE = Some txt ->
  json_loads txt = Raise JSONDecodeError ->
  load_tasks json_dumps json_loads s
  = (Ok tt, saved json_dumps (reset (shown (ShowError MsgCorrupt) s))).
Proof.
  intros Hr Ht Hj. destruct (open_read_text _ _ _ Hr Ht) as [Ho Hex].
  unfold load_tasks, bind at 1, gets. rewrite Hex. simpl.
  unfold try_except, bind at 1, m_open_read. rewrite Ho.
  unfold bind at 1, lift at 1. simpl.
  unfold bind at 1, lift at 1. rewrite Hj.
  unfold bind, messagebox, modify. rewrite reset_tasks_run.
  apply save_tasks_run.
Qed.

Lemma load_failed (s : app) :
  path_exists (disk s) DATA_FILE = true ->
  can_read (disk s) DATA_FILE = false
  \/ file_text (disk s) DATA_FILE = None ->
  exists e, load_tasks json_dumps json_loads s
            = (Ok tt, reset (shown (ShowError (MsgLoadFailed e)) s)).
Proof.
  intros Hex H. destruct (open_read_fails _ _ Hex H) as [e [He Hne]].
  exists e. unfold load_tasks, bind at 1, gets. rewrite Hex. simpl.
  unfold try_except, bind at 1, m_open_read.
  unfold res_bind in He.
  destruct (open_read (disk s) DATA_FILE) as [d|e'].
  - unfold bind at 1, lift at 1. rewrite He.
    destruct e; try reflexivity. contradiction.
  - injection He as ->. destruct e; try reflexivity. contradiction.
Qed.

Lemma load_gave_up (s : app) (txt : string) (e : exn) :
  can_read (disk s) DATA_FILE = true ->
  file_text (disk s) DATA_FILE = Some txt ->
  json_loads txt = Raise e -> e <> JSONDecodeError ->
  load_tasks json_dumps json_loads s
  = (Ok tt, reset (shown (ShowError (MsgLoadFailed e)) s)).
Proof.
  intros Hr Ht Hj Hne. destruct (open_read_text _ _ _ Hr Ht) as [Ho Hex].
  unfold load_tasks, bind at 1, gets. rewrite Hex. simpl.
  unfold try_except, bind at 1, m_open_read. rewrite Ho.
  unfold bind at 1, lift at 1. simpl.
  unfold bind at 1, lift at 1. rewrite Hj.
  destruct e; try reflexivity. contradiction.
Qed.

Lemma load_valid (s : app) (txt : string) (recs : list dict) :
  can_read (disk s) DATA_FILE = true ->
  file_text (disk s) DATA_FILE = Some txt ->
  json_loads txt = Ok recs ->
  load_tasks json_dumps json_loads s = (Ok tt, loaded recs s).
Proof.
  intros Hr Ht Hj. destruct (open_read_text _ _ _ Hr Ht) as [Ho Hex].
  unfold load_tasks, bind at 1, gets. rewrite Hex. simpl.
  unfold try_except, bind at 1, m_open_read. rewrite Ho.
  unfold bind at 1, lift at 1. simpl.
  unfold bind at 1, lift at 1. rewrite Hj.
  unfold bind at 1. rewrite alloc_dicts_run.
  unfold bind, alloc, modify, loaded. cbn [heap set_heap].
  rewrite length_app, length_map. reflexivity.
Qed.

End Loading.

Section LoadOutcomes.

Variable json_dumps : list dict -> string.
Variable json_loads : string -> res (list dict).

Lemma collection_saved (s : app) :
  collection (saved json_dumps s) = collection s.
Proof.
  unfold collection.
  destruct (saved_heap json_dumps s) as [-> ->]. reflexivity.
Qed.

Lemma saved_dialogs (s : app) :
  exists rest, dialogs (saved json_dumps s) = (dialogs s ++ rest)%list.
Proof.
  unfold saved. destruct (open_write _ DATA_FILE) as [fs2|e].
  - exists []. rewrite app_nil_r. reflexivity.
  - eexists. reflexivity.
Qed.

(** C2. A load never raises, and ends in one of these ways. No data
    file: the collection is empty and is written out at once (when the
    file can be created). A data file on which the decoder raises
    [JSONDecodeError], its text being no valid JSON: an error is shown,
    the collection is empty, and the file is overwritten with the empty
    collection (when it can be written). Any other failure of the read,
    a file that cannot be read or another exception of the decoder
    ([RecursionError] on text nested too deep, valid JSON or not): an
    error is shown, the collection is empty, and the disk is left as it
    was. Otherwise the decoder gives the collection the file holds. *)
Theorem load_outcomes (s : app) :
  let s' := snd (load_tasks json_dumps json_loads s) in
  fst (load_tasks json_dumps json_loads s) = Ok tt /\
  (path_exists (disk s) DATA_FILE = false ->
     collection s' = [] /\
     (can_write (disk s) DATA_FILE = true ->
        file_text (disk s') DATA_FILE = Some (json_dumps []) /\
        dialogs s' = dialogs s)) /\
  (forall txt : string,
     can_read (disk s) DATA_FILE = true ->
     file_text (disk s) DATA_FILE = Some txt ->
     json_loads txt = Raise JSONDecodeError ->
     collection s' = [] /\
     (exists rest,
         dialogs s' = (dialogs s ++ ShowError MsgCorrupt :: rest)%list) /\
     (can_write (disk s) DATA_FILE = true ->
        file_text (disk s') DATA_FILE = Some (json_dumps []))) /\
  (path_exists (disk s) DATA_FILE = true ->
   can_read (disk s) DATA_FILE = false
   \/ file_text (disk s) DATA_FILE = None ->
     collection s' = [] /\
     (exists e, dialogs s' = (dialogs s ++ [ShowError (MsgLoadFailed e)])%list) /\
     disk s' = disk s) /\
  (forall (txt : string) (e : exn),
     can_read (disk s) DATA_FILE = true ->
     file_text (disk s) DATA_FILE = Some txt ->
     json_loads txt = Raise e -> e <> JSONDecodeError ->
     collection s' = [] /\
     dialogs s' = (dialogs s ++ [ShowError (MsgLoadFailed e)])%list /\
     disk s' = disk s) /\
  (forall (txt : string) (recs : list dict),
     can_read (disk s) DATA_FILE = true ->
     file_text (disk s) DATA_FILE = Some txt ->
     json_loads txt = Ok recs ->
     collection s' = recs /\ dialogs s' = dialogs s /\ disk s' = disk s).
Proof.
  cbv zeta. split; [|split; [|split; [|split; [|split]]]].
  - destruct (path_exists (disk s) DATA_FILE) eqn:Hex.
    + destruct (can_read (disk s) DATA_FILE) eqn:Hr.
      * destruct (file_text (disk s) DATA_FILE) as [txt|] eqn:Ht.
        -- destruct (json_loads txt) as [recs|e] eqn:Hj.
           ++ rewrite (load_valid _ _ s txt recs Hr Ht Hj). reflexivity.
           ++ assert (Hd : e = JSONDecodeError \/ e <> JSONDecodeError)
                by (destruct e; (left; reflexivity) || (right; discriminate)).
              destruct Hd as [->|Hne].
              ** rewrite (load_corrupt _ _ s txt Hr Ht Hj). reflexivity.
              ** rewrite (load_gave_up _ _ s txt e Hr Ht Hj Hne).
                 reflexivity.
        -- destruct (load_failed json_dumps json_loads s Hex (or_intror Ht))
             as [e ->]. reflexivity.
      * destruct (load_failed json_dumps json_loads s Hex (or_introl Hr))
          as [e ->]. reflexivity.
    + rewrite (load_absent _ _ s Hex). reflexivity.
  - intros Hex. rewrite (load_absent _ _ s Hex). cbn [snd].
    split.
    + rewrite collection_saved. apply collection_reset.
    + intros Hw.
      destruct (saved_writes json_dumps (reset s) Hw) as [Hf Hd].
      rewrite collection_reset in Hf. split; [exact Hf | exact Hd].
  - intros txt Hr Ht Hj. rewrite (load_corrupt _ _ s txt Hr Ht Hj). cbn [snd].
    split; [|split].
    + rewrite collection_saved. apply collection_reset.
    + destruct (saved_dialogs (reset (shown (ShowError MsgCorrupt) s)))
        as [rest Hd].
      exists rest. rewrite Hd. cbn [dialogs reset shown set_dialogs
                                  set_tasks set_heap].
      rewrite <- app_assoc. reflexivity.
    + intros Hw.
      destruct (saved_writes json_dumps
                  (reset (shown (ShowError MsgCorrupt) s)) Hw) as [Hf _].
      rewrite collection_reset in Hf. exact Hf.
  - intros Hex H.
    destruct (load_failed json_dumps json_loads s Hex H) as [e ->].
    cbn [snd]. split; [apply collection_reset|].
    split; [exists e; reflexivity | reflexivity].
  - intros txt e Hr Ht Hj Hne.
    rewrite (load_gave_up _ _ s txt e Hr Ht Hj Hne).
    cbn [snd]. split; [apply collection_reset|].
    split; reflexivity.
  - intros txt recs Hr Ht Hj. rewrite (load_valid _ _ s txt recs Hr Ht Hj).
    cbn [snd]. split; [apply collection_loaded|].
    split; reflexivity.
Qed.

End LoadOutcomes.

Lemma load_outcomes_witness :
  (path_exists (disk (new_app (mkFs ∅ true))) DATA_FILE = false /\
   collection (snd (load_tasks titles_dumps empty_loads
                      (new_app (mkFs ∅ true)))) = [])
  /\
  ((can_read (disk (new_app (disk_with "{oops"))) DATA_FILE = true /\
    file_text (disk (new_app (disk_with "{oops"))) DATA_FILE = Some "{oops" /\
    empty_loads "{oops" = Raise JSONDecodeError /\
    can_write (disk (new_app (disk_with "{oops"))) DATA_FILE = true) /\
   file_text (disk (snd (load_tasks titles_dumps empty_loads
                           (new_app (disk_with "{oops"))))) DATA_FILE
   = Some "[]")
  /\
  ((path_exists (disk (new_app (disk_unreadable "[x]"))) DATA_FILE = true /\
    can_read (disk (new_app (disk_unreadable "[x]"))) DATA_FILE = false) /\
   disk (snd (load_tasks titles_dumps empty_loads
                (new_app (disk_unreadable "[x]"))))
   = disk (new_app (disk_unreadable "[x]")))
  /\
  ((can_read (disk (new_app (disk_with (opens 1000)))) DATA_FILE = true /\
    file_text (disk (new_app (disk_with (opens 1000)))) DATA_FILE
    = Some (opens 1000) /\
    deep_loads (opens 1000) = Raise RecursionError /\
    RecursionError <> JSONDecodeError) /\
   disk (snd (load_tasks titles_dumps deep_loads
                (new_app (disk_with (opens 1000)))))
   = disk (new_app (disk_with (opens 1000)))).
Proof.
  split; [|split; [|split]].
  - split; [reflexivity|].
    exact (proj1 (proj1 (proj2 (load_outcomes titles_dumps empty_loads
                                  (new_app (mkFs ∅ true)))) eq_refl)).
  - assert (H : can_read (disk (new_app (disk_with "{oops"))) DATA_FILE = true /\
                file_text (disk (new_app (disk_with "{oops"))) DATA_FILE
                = Some "{oops" /\
                empty_loads "{oops" = Raise JSONDecodeError /\
                can_write (disk (new_app (disk_with "{oops"))) DATA_FILE = true)
      by (repeat split; vm_compute; reflexivity).
    split; [exact H|]. destruct H as [Hr [Ht [Hj Hw]]].
    destruct (load_outcomes titles_dumps empty_loads
                (new_app (disk_with "{oops"))) as [_ [_ [Hc _]]].
    exact (proj2 (proj2 (Hc "{oops" Hr Ht Hj)) Hw).
  - assert (H : path_exists (disk (new_app (disk_unreadable "[x]"))) DATA_FILE
                = true /\
                can_read (disk (new_app (disk_unreadable "[x]"))) DATA_FILE
                = false)
      by (split; vm_compute; reflexivity).
    split; [exact H|]. destruct H as [Hex Hr].
    destruct (load_outcomes titles_dumps empty_loads
                (new_app (disk_unreadable "[x]"))) as [_ [_ [_ [Hf _]]]].
    exact (proj2 (proj2 (Hf Hex (or_introl Hr)))).
  - assert (Hr : can_read (disk (new_app (disk_with (opens 1000)))) DATA_FILE
                 = true) by (vm_compute; reflexivity).
    assert (Ht : file_text (disk (new_app (disk_with (opens 1000)))) DATA_FILE
                 = Some (opens 1000)) by (vm_compute; reflexivity).
    assert (Hj : deep_loads (opens 1000) = Raise RecursionError)
      by (vm_compute; reflexivity).
    assert (Hne : RecursionError <> JSONDecodeError) by discriminate.
    split; [repeat split; assumption|].
    destruct (load_outcomes titles_dumps deep_loads
                (new_app (disk_with (opens 1000)))) as [_ [_ [_ [_ [Hg _]]]]].
    exact (proj2 (proj2 (Hg (opens 1000) RecursionError Hr Ht Hj Hne))).
Defined.

(** C2, as stated, fails: a data file of 3000 opening brackets and
    nothing else holds no valid JSON, no array of it being closed, and
    yet is not overwritten. The decoder gives up with [RecursionError]
    before it reaches the end of the text, the handler for any other
    exception takes it, and the file is left as it was, still holding
    the text: nothing has been written over it, nor to a backup. *)
Lemma deep_nesting_is_not_overwritten :
  let txt := opens 3000 in
  let s := new_app (disk_with txt) in
  let s' := snd (load_tasks titles_dumps deep_loads s) in
  String.length txt = 3000 /\ leading_opens txt = 3000 /\
  can_read (disk s) DATA_FILE = true /\
  can_write (disk s) DATA_FILE = true /\
  file_text (disk s) DATA_FILE = Some txt /\
  deep_loads txt = Raise RecursionError /\
  fst (load_tasks titles_dumps deep_loads s) = Ok tt /\
  collection s' = [] /\
  dialogs s' = [ShowError (MsgLoadFailed RecursionError)] /\
  file_text (disk s') DATA_FILE = Some txt /\
  file_text (disk s') DATA_FILE <> Some (titles_dumps []) /\
  disk s' = disk s.
Proof.
  cbv zeta.
  assert (Hr : can_read (disk (new_app (disk_with (opens 3000)))) DATA_FILE
               = true) by (vm_compute; reflexivity).
  assert (Ht : file_text (disk (new_app (disk_with (opens 3000)))) DATA_FILE
               = Some (opens 3000)) by (vm_compute; reflexivity).
  assert (Hj : deep_loads (opens 3000) = Raise RecursionError)
    by (vm_compute; reflexivity).
  assert (Hne : RecursionError <> JSONDecodeError) by discriminate.
  rewrite (load_gave_up titles_dumps deep_loads _ _ _ Hr Ht Hj Hne).
  cbn [fst snd].
  split; [vm_compute; reflexivity|].
  split; [vm_compute; reflexivity|].
  split; [exact Hr|].
  split; [vm_compute; reflexivity|].
  split; [exact Ht|].
  split; [exact Hj|].
  split; [reflexivity|].
  split; [apply collection_reset|].
  split; [reflexivity|].
  split; [exact Ht|].
  split; [|reflexivity].
  change (file_text (disk (new_app (disk_with (opens 3000)))) DATA_FILE
          <> Some (titles_dumps [])).
  rewrite Ht. vm_compute. discriminate.
Qed.

(** ** Adding a task *)

Lemma update_stats_run (s : app) : _update_stats s = (Ok tt, counted s).
Proof. reflexivity. Qed.

Lemma has_title_allocated (h : list obj) (t : loc) :
  has_title (dict_at h t) -> exists d, h !! t = Some (ODict d).
Proof.
  unfold dict_at. intros [x Hx].
  destruct (h !! t) as [[xs|d]|]; try (rewrite lookup_empty in Hx; discriminate).
  exists d. reflexivity.
Qed.

Lemma collection_refreshed (s : app) :
  tasks_is_list s -> collection (refreshed s) = collection s.
Proof.
  intros [xs Hxs]. unfold collection, refreshed.
  cbn [heap tasks set_listbox set_filtered_tasks set_heap].
  rewrite list_at_app_old by (eapply lookup_lt_Some, Hxs).
  apply map_ext. intros t.
  change (heap s ++ [OList (filtered s); OList (ordered s)])%list
    with (heap s ++ [OList (filtered s)] ++ [OList (ordered s)])%list.
  rewrite app_assoc, !dict_at_app_list. reflexivity.
Qed.

Lemma collection_counted (s : app) : collection (counted s) = collection s.
Proof. reflexivity. Qed.

Lemma new_task_ok (md : mode) (uuid title now : string) :
  record_ok md (new_task uuid title now).
Proof.
  split.
  - exists title. reflexivity.
  - intros _ b. discriminate.
Qed.

Section Inserted.

Variables (d : dict) (s : app).
Hypothesis Hlist : tasks_is_list s.
Hypothesis Hwf : tasks_well_formed s.

Lemma task_locs_inserted :
  list_at (heap (inserted d s)) (tasks (inserted d s))
  = length (heap s) :: list_at (heap s) (tasks s).
Proof.
  destruct Hlist as [xs Hxs].
  pose proof (lookup_lt_Some _ _ _ Hxs) as Hlt.
  unfold inserted. cbn [heap tasks set_entry_task set_heap].
  unfold list_at at 1.
  rewrite list_lookup_insert_eq by (rewrite length_app; lia).
  rewrite list_at_app_old by exact Hlt. reflexivity.
Qed.

Lemma dict_at_inserted_new : dict_at (heap (inserted d s)) (length (heap s)) = d.
Proof.
  destruct Hlist as [xs Hxs].
  pose proof (lookup_lt_Some _ _ _ Hxs) as Hlt.
  unfold inserted, dict_at. cbn [heap set_entry_task set_heap].
  rewrite list_lookup_insert_ne by lia.
  rewrite lookup_app_r by lia. rewrite Nat.sub_diag. reflexivity.
Qed.

Lemma dict_at_inserted_old (t : loc) :
  In t (list_at (heap s) (tasks s)) ->
  dict_at (heap (inserted d s)) t = dict_at (heap s) t.
Proof.
  intros Ht. destruct Hlist as [xs Hxs].
  destruct (has_title_allocated _ _ (proj1 (Hwf t Ht))) as [dt Hdt].
  unfold inserted, dict_at. cbn [heap set_entry_task set_heap].
  rewrite list_lookup_insert_ne by (intros E; rewrite E in Hxs; congruence).
  rewrite lookup_app_l by (eapply lookup_lt_Some, Hdt). reflexivity.
Qed.

Lemma collection_inserted : collection (inserted d s) = d :: collection s.
Proof.
  unfold collection. rewrite task_locs_inserted. cbn [map].
  rewrite dict_at_inserted_new. f_equal.
  apply map_ext_in. intros t Ht. apply dict_at_inserted_old, Ht.
Qed.

Lemma inserted_is_list : tasks_is_list (inserted d s).
Proof.
  destruct Hlist as [xs Hxs].
  pose proof (lookup_lt_Some _ _ _ Hxs) as Hlt.
  eexists. unfold inserted. cbn [heap tasks set_entry_task set_heap].
  apply list_lookup_insert_eq. rewrite length_app. lia.
Qed.

Lemma inserted_well_formed :
  record_ok (sort_mode s) d -> tasks_well_formed (inserted d s).
Proof.
  intros Hd t Ht. rewrite task_locs_inserted in Ht.
  change (sort_mode (inserted d s)) with (sort_mode s).
  destruct Ht as [<-|Ht].
  - rewrite dict_at_inserted_new. exact Hd.
  - rewrite dict_at_inserted_old by exact Ht. apply Hwf, Ht.
Qed.

End Inserted.

Section AddTask.

Variable json_dumps : list dict -> string.

Lemma saved_fields (s : app) :
  heap (saved json_dumps s) = heap s /\
  tasks (saved json_dumps s) = tasks s /\
  sort_mode (saved json_dumps s) = sort_mode s /\
  search_var (saved json_dumps s) = search_var s.
Proof.
  unfold saved. destruct (open_write _ DATA_FILE); repeat split.
Qed.

Lemma saved_well_formed (s : app) :
  tasks_well_formed s -> tasks_well_formed (saved json_dumps s).
Proof.
  unfold tasks_well_formed.
  destruct (saved_fields s) as [-> [-> [-> _]]]. intros H. exact H.
Qed.

Lemma saved_is_list (s : app) :
  tasks_is_list s -> tasks_is_list (saved json_dumps s).
Proof.
  unfold tasks_is_list.
  destruct (saved_fields s) as [-> [-> _]]. intros H. exact H.
Qed.

Lemma saved_fails (s : app) :
  can_write (disk s) DATA_FILE = false ->
  dialogs (saved json_dumps s)
  = (dialogs s ++ [ShowError (MsgSaveFailed OSError)])%list.
Proof.
  intros Hw. unfold saved.
  set (fs1 := if path_exists (disk s) DATA_FILE
              then backup_fs (disk s) else disk s).
  assert (Hw1 : can_write fs1 DATA_FILE = false).
  { unfold fs1. destruct (path_exists (disk s) DATA_FILE); [|exact Hw].
    rewrite can_write_backup_fs. exact Hw. }
  rewrite (open_write_fail fs1 DATA_FILE Hw1). reflexivity.
Qed.

Lemma saved_unwritable (s : app) :
  can_write (disk s) DATA_FILE = false ->
  fs_files (disk (saved json_dumps s)) !! DATA_FILE
  = fs_files (disk s) !! DATA_FILE.
Proof.
  intros Hw. unfold saved.
  set (fs1 := if path_exists (disk s) DATA_FILE
              then backup_fs (disk s) else disk s).
  assert (Hw1 : can_write fs1 DATA_FILE = false).
  { unfold fs1. destruct (path_exists (disk s) DATA_FILE); [|exact Hw].
    rewrite can_write_backup_fs. exact Hw. }
  rewrite (open_write_fail fs1 DATA_FILE Hw1).
  cbn [disk set_disk set_dialogs]. unfold fs1.
  destruct (path_exists (disk s) DATA_FILE); [|reflexivity].
  apply backup_fs_other. exact data_backup_distinct.
Qed.

Lemma add_task_run (uuid now : string) (s : app) :
  tasks_is_list s -> tasks_well_formed s ->
  PyStr.nonempty (PyStr.strip (entry_task s)) = true ->
  add_task json_dumps uuid now s
  = (Ok tt,
     counted (refreshed (saved json_dumps
       (inserted (new_task uuid (PyStr.strip (entry_task s)) now) s)))).
Proof.
  intros Hlist Hwf Hne.
  unfold add_task, bind at 1, gets at 1. rewrite Hne. cbn [negb].
  unfold bind at 1, alloc at 1. unfold bind at 1, modify at 1.
  unfold bind at 1, modify at 1.
  match goal with
  | |- _ ?x = _ =>
      change x
        with (inserted (new_task uuid (PyStr.strip (entry_task s)) now) s)
  end.
  unfold bind at 1. rewrite save_tasks_run.
  unfold bind at 1. rewrite refresh_listbox_run.
  - apply update_stats_run.
  - apply saved_well_formed, inserted_well_formed;
      [exact Hlist | exact Hwf | apply new_task_ok].
Qed.


(** C5. For an entry that strips to the empty string, [add_task] shows
    the warning and does nothing else: the heap, and with it the
    collection, and the disk are as before. Both [""] and ["   "] strip
    to the empty string. *)
Theorem add_task_rejects_blank_title (uuid now : string) (s : app) :
  (PyStr.strip (entry_task s) = "" ->
   add_task json_dumps uuid now s
   = (Ok tt, shown (ShowWarning MsgEmptyTask) s) /\
   collection (snd (add_task json_dumps uuid now s)) = collection s /\
   heap (snd (add_task json_dumps uuid now s)) = heap s /\
   tasks (snd (add_task json_dumps uuid now s)) = tasks s /\
   disk (snd (add_task json_dumps uuid now s)) = disk s /\
   dialogs (snd (add_task json_dumps uuid now s))
   = (dialogs s ++ [ShowWarning MsgEmptyTask])%list)
  /\ PyStr.strip "" = "" /\ PyStr.strip "   " = "".
Proof.
  split; [|split; reflexivity].
  intros H.
  assert (Hrun : add_task json_dumps uuid now s
                 = (Ok tt, shown (ShowWarning MsgEmptyTask) s)).
  { unfold add_task, bind, gets. rewrite H. reflexivity. }
  rewrite Hrun. repeat split.
Qed.

End AddTask.







Lemma add_task_rejects_blank_title_witness :
  PyStr.strip (entry_task blank_app) = "" /\
  collection (snd (add_task titles_dumps "id-4" "2024-05-04T10:00:00" blank_app))
  = collection blank_app /\
  disk (snd (add_task titles_dumps "id-4" "2024-05-04T10:00:00" blank_app))
  = disk blank_app.
Proof.
  split; [reflexivity|].
  destruct (proj1 (add_task_rejects_blank_title titles_dumps
                     "id-4" "2024-05-04T10:00:00" blank_app) eq_refl)
    as [_ [Hc [_ [_ [Hd _]]]]].
  split; [exact Hc | exact Hd].
Defined.

(** ** Clearing the completed tasks *)

Lemma filter_map_comm {B C} (f : C -> bool) (g : B -> C) (l : list B) :
  List.filter f (map g l) = map g (List.filter (fun x => f (g x)) l).
Proof.
  induction l as [|x l IH]; simpl; [reflexivity|].
  rewrite IH. destruct (f (g x)); reflexivity.
Qed.

Lemma collection_cleared (s : app) :
  collection (cleared s)
  = List.filter (fun d => negb (is_completed d)) (collection s).
Proof.
  unfold collection, cleared. cbn [heap tasks set_tasks set_heap].
  rewrite list_at_app_new, filter_map_comm.
  apply map_ext. intros t. apply dict_at_app_list.
Qed.

Lemma cleared_is_list (s : app) : tasks_is_list (cleared s).
Proof.
  eexists. unfold cleared. cbn [heap tasks set_tasks set_heap].
  rewrite lookup_app_r by lia. rewrite Nat.sub_diag. reflexivity.
Qed.

Lemma cleared_well_formed (s : app) :
  tasks_well_formed s -> tasks_well_formed (cleared s).
Proof.
  intros Hwf t Ht. unfold cleared in *.
  cbn [heap tasks sort_mode set_tasks set_heap] in *.
  rewrite list_at_app_new in Ht. apply filter_In in Ht.
  rewrite dict_at_app_list. apply Hwf, Ht.
Qed.

Section ClearCompleted.

Variable json_dumps : list dict -> string.

Lemma clear_nothing (answer : bool) (s : app) :
  length (List.filter is_completed (collection s)) = 0 ->
  clear_completed json_dumps answer s
  = (Ok tt, shown (ShowInfo MsgNothingToClear) s).
Proof.
  intros H. unfold clear_completed, bind, gets. rewrite H. reflexivity.
Qed.

Lemma clear_declined (s : app) :
  length (List.filter is_completed (collection s)) <> 0 ->
  clear_completed json_dumps false s
  = (Ok tt,
     shown (AskYesNo (MsgConfirmClear
              (length (List.filter is_completed (collection s)))) false) s).
Proof.
  intros H. unfold clear_completed, bind at 1, gets at 1.
  apply Nat.eqb_neq in H. rewrite H. reflexivity.
Qed.

Lemma clear_confirmed (s : app) :
  tasks_is_list s -> tasks_well_formed s ->
  length (List.filter is_completed (collection s)) <> 0 ->
  clear_completed json_dumps true s
  = (Ok tt,
     shown (ShowInfo (MsgCleared
              (length (List.filter is_completed (collection s)))))
       (counted (refreshed (saved json_dumps (cleared
          (shown (AskYesNo (MsgConfirmClear
              (length (List.filter is_completed (collection s)))) true)
             s)))))).
Proof.
  intros Hlist Hwf H. unfold clear_completed, bind at 1, gets at 1.
  apply Nat.eqb_neq in H. rewrite H.
  unfold bind at 1, messagebox at 1, modify at 1.
  unfold bind at 1, gets at 1. unfold bind at 1, gets at 1.
  unfold bind at 1, alloc at 1. unfold bind at 1, modify at 1.
  match goal with
  | |- _ ?x = _ =>
      change x
        with (cleared (shown (AskYesNo (MsgConfirmClear
                (length (List.filter is_completed (collection s)))) true) s))
  end.
  unfold bind at 1. rewrite save_tasks_run.
  unfold bind at 1. rewrite refresh_listbox_run.
  - reflexivity.
  - apply saved_well_formed, cleared_well_formed. exact Hwf.
Qed.

(** C6. [clear_completed] counts the tasks whose [completed] is true
    (an absent [completed] counts as false). With none, it reports that
    there is nothing to clear and changes neither the collection nor
    the disk. With some, once the user has confirmed, the collection is
    the former one without the completed tasks, the number reported is
    the number removed, and the new collection has been saved; when the
    user declines, nothing is removed or written. *)
Theorem clear_completed_removes_and_counts (answer : bool) (s : app) :
  tasks_is_list s -> tasks_well_formed s ->
  let n := length (List.filter is_completed (collection s)) in
  let s' := snd (clear_completed json_dumps answer s) in
  fst (clear_completed json_dumps answer s) = Ok tt /\
  (forall (d : dict) (b : bool),
      d !! "completed" = Some (VBool b) -> is_completed d = b) /\
  (forall d : dict, d !! "completed" = None -> is_completed d = false) /\
  (n = 0 ->
     collection s' = collection s /\ disk s' = disk s /\
     dialogs s' = (dialogs s ++ [ShowInfo MsgNothingToClear])%list) /\
  (n <> 0 -> answer = true ->
     collection s'
     = List.filter (fun d => negb (is_completed d)) (collection s) /\
     length (collection s) - length (collection s') = n /\
     (exists ds, dialogs s' = (ds ++ [ShowInfo (MsgCleared n)])%list) /\
     (can_write (disk s) DATA_FILE = true ->
        file_text (disk s') DATA_FILE
        = Some (json_dumps (collection s')))) /\
  (n <> 0 -> answer = false ->
     collection s' = collection s /\ disk s' = disk s).
Proof.
  intros Hlist Hwf n s'.
  assert (Hcases : n = 0 \/ n <> 0) by lia.
  split; [|split; [|split; [|split; [|split]]]].
  - subst s'. destruct Hcases as [H0|Hn].
    + rewrite (clear_nothing answer s H0). reflexivity.
    + destruct answer.
      * rewrite (clear_confirmed s Hlist Hwf Hn). reflexivity.
      * rewrite (clear_declined s Hn). reflexivity.
  - intros d b Hd. unfold is_completed, get_default. rewrite Hd. reflexivity.
  - intros d Hd. unfold is_completed, get_default. rewrite Hd. reflexivity.
  - intros H0. subst s'. rewrite (clear_nothing answer s H0).
    repeat split.
  - intros Hn ->. subst s'. rewrite (clear_confirmed s Hlist Hwf Hn).
    cbn [snd]. fold n.
    set (s1 := cleared (shown (AskYesNo (MsgConfirmClear n) true) s)).
    assert (Hc : collection (shown (ShowInfo (MsgCleared n))
                   (counted (refreshed (saved json_dumps s1))))
                 = List.filter (fun d => negb (is_completed d)) (collection s)).
    { change (collection (shown (ShowInfo (MsgCleared n))
                (counted (refreshed (saved json_dumps s1)))))
        with (collection (refreshed (saved json_dumps s1))).
      rewrite collection_refreshed, collection_saved.
      - apply (collection_cleared (shown (AskYesNo (MsgConfirmClear n) true) s)).
      - apply saved_is_list, cleared_is_list. }
    split; [exact Hc|]. split; [|split].
    + rewrite Hc. subst n.
      rewrite <- (filter_length is_completed (collection s)) at 1. lia.
    + eexists. reflexivity.
    + intros Hw. rewrite Hc.
      change (disk (shown (ShowInfo (MsgCleared n))
                (counted (refreshed (saved json_dumps s1)))))
        with (disk (saved json_dumps s1)).
      destruct (saved_writes json_dumps s1 Hw) as [Hf _].
      rewrite Hf. f_equal. f_equal.
      apply (collection_cleared (shown (AskYesNo (MsgConfirmClear n) true) s)).
  - intros Hn ->. subst s'. rewrite (clear_declined s Hn).
    split; reflexivity.
Qed.

End ClearCompleted.

Lemma chores_app_well_formed : tasks_well_formed chores_app.
Proof. record_ok_by_computation. Qed.

Lemma chores_app_is_list : tasks_is_list chores_app.
Proof. eexists. reflexivity. Qed.

Lemma clear_completed_removes_and_counts_witness :
  (tasks_is_list chores_app /\ tasks_well_formed chores_app /\
   length (List.filter is_completed (collection chores_app)) = 2 /\
   can_write (disk chores_app) DATA_FILE = true) /\
  map title_of (collection (snd (clear_completed titles_dumps true chores_app)))
  = ["cook"] /\
  file_text (disk (snd (clear_completed titles_dumps true chores_app))) DATA_FILE
  = Some "[cook]".
Proof.
  assert (Hn : length (List.filter is_completed (collection chores_app)) = 2)
    by (vm_compute; reflexivity).
  assert (Hw : can_write (disk chores_app) DATA_FILE = true)
    by (vm_compute; reflexivity).
  split.
  - split; [exact chores_app_is_list|].
    split; [exact chores_app_well_formed|]. split; [exact Hn | exact Hw].
  - destruct (clear_completed_removes_and_counts titles_dumps true chores_app
                chores_app_is_list chores_app_well_formed)
      as [_ [_ [_ [_ [Hyes _]]]]].
    assert (Hn0 : length (List.filter is_completed (collection chores_app)) <> 0)
      by (rewrite Hn; discriminate).
    destruct (Hyes Hn0 eq_refl) as [Hc [_ [_ Hf]]].
    split.
    + rewrite Hc. vm_compute. reflexivity.
    + rewrite (Hf Hw), Hc. vm_compute. reflexivity.
Defined.

(** ** The view and the store's own storage *)

Lemma fruit_app_is_list : tasks_is_list fruit_app.
Proof. eexists. reflexivity. Qed.

Lemma refreshed_heap_length (s : app) :
  length (heap (refreshed s)) = S (S (length (heap s))).
Proof.
  unfold refreshed. cbn [heap set_listbox set_filtered_tasks set_heap].
  rewrite length_app. simpl. lia.
Qed.

Lemma task_locs_refreshed (s : app) :
  tasks_is_list s -> task_locs (refreshed s) = task_locs s.
Proof.
  intros [xs Hxs]. unfold task_locs, refreshed.
  cbn [heap tasks set_listbox set_filtered_tasks set_heap].
  apply list_at_app_old. eapply lookup_lt_Some, Hxs.
Qed.

Lemma view_locs_in_tasks (s : app) (t : loc) :
  tasks_is_list s ->
  In t (view_locs (refreshed s)) -> In t (task_locs (refreshed s)).
Proof.
  intros Hlist Ht. rewrite task_locs_refreshed by exact Hlist.
  rewrite view_locs_refreshed in Ht.
  apply filtered_incl. apply (Permutation_in _ (ordered_perm s)), Ht.
Qed.

(** C1, as the code has it. Each call of [refresh_listbox] leaves in
    [self.filtered_tasks] a list object that did not exist before the
    call and is not the store's list, so whatever is done to that
    sequence itself leaves the store's list and collection as they are.
    The items of the sequence are the store's own records: a field set
    through the view is set in the store's record. *)
Theorem view_is_new_list_of_shared_records (s : app) :
  tasks_is_list s -> tasks_well_formed s ->
  exists s', refresh_listbox s = (Ok tt, s') /\
    tasks s' = tasks s /\
    length (heap s) <= filtered_tasks s' /\
    filtered_tasks s' <> tasks s' /\
    (forall items : list loc,
        task_locs (mutate_view (SetItems items) s') = task_locs s' /\
        collection (mutate_view (SetItems items) s') = collection s') /\
    (forall t : loc, In t (view_locs s') -> In t (task_locs s')) /\
    (forall (i : nat) (k : string) (v : pyval) (t : loc),
        view_locs s' !! i = Some t ->
        dict_at (heap (mutate_view (SetField i k v) s')) t !! k = Some v).
Proof.
  intros Hlist Hwf. exists (refreshed s).
  split; [apply refresh_listbox_run, Hwf|].
  destruct Hlist as [xs Hxs].
  pose proof (lookup_lt_Some _ _ _ Hxs) as Hlt.
  assert (Hf : filtered_tasks (refreshed s) = S (length (heap s)))
    by reflexivity.
  assert (Ht : tasks (refreshed s) = tasks s) by reflexivity.
  split; [exact Ht|]. split; [rewrite Hf; lia|].
  split; [rewrite Hf, Ht; lia|]. split; [|split].
  - intros items.
    assert (Hl : task_locs (mutate_view (SetItems items) (refreshed s))
                 = task_locs (refreshed s)).
    { unfold task_locs, mutate_view, list_at.
      cbn [heap tasks set_heap]. rewrite Hf, Ht.
      rewrite list_lookup_insert_ne by lia. reflexivity. }
    split; [exact Hl|].
    unfold collection. fold (task_locs (mutate_view (SetItems items) (refreshed s))).
    fold (task_locs (refreshed s)). rewrite Hl.
    apply map_ext. intros t. unfold mutate_view, dict_at.
    cbn [heap set_heap]. rewrite Hf.
    destruct (decide (t = S (length (heap s)))) as [->|Hne].
    + rewrite list_lookup_insert_eq
        by (rewrite refreshed_heap_length; lia).
      unfold refreshed. cbn [heap set_listbox set_filtered_tasks set_heap].
      rewrite lookup_app_r by lia.
      replace (S (length (heap s)) - length (heap s)) with 1 by lia.
      reflexivity.
    + rewrite list_lookup_insert_ne by congruence. reflexivity.
  - intros t. apply view_locs_in_tasks. exists xs. exact Hxs.
  - intros i k v t Hi. unfold mutate_view. rewrite Hi.
    cbn [heap set_heap]. unfold dict_at at 1.
    assert (Hin : In t (task_locs s)).
    { rewrite <- (task_locs_refreshed s) by (exists xs; exact Hxs).
      apply view_locs_in_tasks; [exists xs; exact Hxs|].
      apply list_elem_of_In. eapply list_elem_of_lookup_2, Hi. }
    destruct (has_title_allocated _ _ (proj1 (Hwf t Hin))) as [d Hd].
    rewrite list_lookup_insert_eq.
    + apply lookup_insert_eq.
    + rewrite refreshed_heap_length.
      pose proof (lookup_lt_Some _ _ _ Hd). lia.
Qed.

Lemma view_is_new_list_of_shared_records_witness :
  (tasks_is_list fruit_app /\ tasks_well_formed fruit_app) /\
  exists s', refresh_listbox fruit_app = (Ok tt, s') /\
    filtered_tasks s' <> tasks s' /\
    forall items : list loc,
      collection (mutate_view (SetItems items) s') = collection s'.
Proof.
  split; [split; [exact fruit_app_is_list | exact fruit_app_well_formed]|].
  destruct (view_is_new_list_of_shared_records fruit_app
              fruit_app_is_list fruit_app_well_formed)
    as [s' [Hrun [_ [_ [Hne [Hitems _]]]]]].
  exists s'. split; [exact Hrun|]. split; [exact Hne|].
  intros items. exact (proj2 (Hitems items)).
Defined.

(** C1, as stated, fails: on the three fruit tasks the view is Apple,
    banana, cherry; setting the title of its first record changes the
    title of the store's second task. *)
Lemma view_record_mutation_reaches_store :
  tasks_is_list fruit_app /\ tasks_well_formed fruit_app /\
  map title_of (view (snd (refresh_listbox fruit_app)))
  = ["Apple"; "banana"; "cherry"] /\
  map title_of (collection (snd (refresh_listbox fruit_app)))
  = ["banana"; "Apple"; "cherry"] /\
  map title_of
    (collection (mutate_view (SetField 0 "title" (VStr "changed"))
                   (snd (refresh_listbox fruit_app))))
  = ["banana"; "changed"; "cherry"] /\
  collection (mutate_view (SetField 0 "title" (VStr "changed"))
                (snd (refresh_listbox fruit_app)))
  <> collection (snd (refresh_listbox fruit_app)).
Proof.
  split; [exact fruit_app_is_list|]. split; [exact fruit_app_well_formed|].
  split; [vm_compute; reflexivity|]. split; [vm_compute; reflexivity|].
  split; [vm_compute; reflexivity|].
  intros H. apply (f_equal (map title_of)) in H.
  vm_compute in H. discriminate.
Qed.

(** ** The store's invariant

    [self.tasks] refers to a list object from [__init__] on, and the
    methods above keep it so; they also keep the records well formed. *)

Lemma new_app_is_list (fs : fsys) : tasks_is_list (new_app fs).
Proof. eexists. reflexivity. Qed.


Lemma refreshed_is_list (s : app) :
  tasks_is_list s -> tasks_is_list (refreshed s).
Proof.
  intros [xs Hxs]. exists xs. unfold refreshed.
  cbn [heap tasks set_listbox set_filtered_tasks set_heap].
  rewrite lookup_app_l by (eapply lookup_lt_Some, Hxs). exact Hxs.
Qed.

Lemma refreshed_well_formed (s : app) :
  tasks_is_list s -> tasks_well_formed s -> tasks_well_formed (refreshed s).
Proof.
  intros Hlist Hwf t Ht.
  change (list_at (heap (refreshed s)) (tasks (refreshed s)))
    with (task_locs (refreshed s)) in Ht.
  rewrite task_locs_refreshed in Ht by exact Hlist.
  change (sort_mode (refreshed s)) with (sort_mode s).
  unfold refreshed. cbn [heap set_listbox set_filtered_tasks set_heap].
  change (heap s ++ [OList (filtered s); OList (ordered s)])%list
    with (heap s ++ [OList (filtered s)] ++ [OList (ordered s)])%list.
  rewrite app_assoc, !dict_at_app_list. apply Hwf, Ht.
Qed.

Section Invariant.

Variable json_dumps : list dict -> string.

Lemma add_task_keeps_invariant (uuid now : string) (s : app) :
  tasks_is_list s -> tasks_well_formed s ->
  tasks_is_list (snd (add_task json_dumps uuid now s)) /\
  tasks_well_formed (snd (add_task json_dumps uuid now s)).
Proof.
  intros Hlist Hwf.
  destruct (PyStr.nonempty (PyStr.strip (entry_task s))) eqn:Hne.
  - rewrite (add_task_run json_dumps uuid now s Hlist Hwf Hne). cbn [snd].
    assert (H1 : tasks_is_list (saved json_dumps
              (inserted (new_task uuid (PyStr.strip (entry_task s)) now) s)))
      by (apply saved_is_list, inserted_is_list, Hlist).
    assert (H2 : tasks_well_formed (saved json_dumps
              (inserted (new_task uuid (PyStr.strip (entry_task s)) now) s)))
      by (apply saved_well_formed, inserted_well_formed;
          [exact Hlist | exact Hwf | apply new_task_ok]).
    split.
    + exact (refreshed_is_list _ H1).
    + exact (refreshed_well_formed _ H1 H2).
  - assert (Hrun : add_task json_dumps uuid now s
                   = (Ok tt, shown (ShowWarning MsgEmptyTask) s)).
    { unfold add_task, bind, gets. rewrite Hne. reflexivity. }
    rewrite Hrun. split; [exact Hlist | exact Hwf].
Qed.

Lemma clear_completed_keeps_invariant (answer : bool) (s : app) :
  tasks_is_list s -> tasks_well_formed s ->
  tasks_is_list (snd (clear_completed json_dumps answer s)) /\
  tasks_well_formed (snd (clear_completed json_dumps answer s)).
Proof.
  intros Hlist Hwf.
  destruct (Nat.eq_dec (length (List.filter is_completed (collection s))) 0)
    as [H0|Hn].
  - rewrite (clear_nothing json_dumps answer s H0).
    split; [exact Hlist | exact Hwf].
  - destruct answer.
    + rewrite (clear_confirmed json_dumps s Hlist Hwf Hn). cbn [snd].
      set (s0 := shown (AskYesNo (MsgConfirmClear
                   (length (List.filter is_completed (collection s)))) true) s).
      assert (H1 : tasks_is_list (saved json_dumps (cleared s0)))
        by (apply saved_is_list, cleared_is_list).
      assert (H2 : tasks_well_formed (saved json_dumps (cleared s0)))
        by (apply saved_well_formed, cleared_well_formed; exact Hwf).
      split.
      * exact (refreshed_is_list _ H1).
      * exact (refreshed_well_formed _ H1 H2).
    + rewrite (clear_declined json_dumps s Hn).
      split; [exact Hlist | exact Hwf].
Qed.

End Invariant.

(** * The rest of the window *)

(** ** Records updated in place *)

Lemma py_eq_eq (a b : pyval) : py_eq a b = true <-> a = b.
Proof.
  destruct a as [x|x], b as [y|y]; simpl.
  - rewrite String.eqb_eq. split; [intros ->; reflexivity | congruence].
  - split; [discriminate | discriminate].
  - split; [discriminate | discriminate].
  - rewrite Bool.eqb_true_iff. split; [intros ->; reflexivity | congruence].
Qed.

Lemma sound_allocated (h : list obj) (t : loc) :
  record_sound (dict_at h t) -> exists d, h !! t = Some (ODict d).
Proof. intros [H _]. apply has_title_allocated, H. Qed.

Lemma task_locs_updated (t : loc) (d : dict) (s : app) :
  tasks_is_list s -> tasks s <> t ->
  task_locs (updated t d s) = task_locs s.
Proof.
  intros _ Hne. unfold task_locs, updated, list_at.
  cbn [heap tasks set_heap].
  rewrite list_lookup_insert_ne by congruence. reflexivity.
Qed.

Lemma dict_at_updated_same (t : loc) (d : dict) (s : app) :
  t < length (heap s) -> dict_at (heap (updated t d s)) t = d.
Proof.
  intros Hlt. unfold updated, dict_at. cbn [heap set_heap].
  rewrite list_lookup_insert_eq by exact Hlt. reflexivity.
Qed.

Lemma dict_at_updated_other (t u : loc) (d : dict) (s : app) :
  u <> t -> dict_at (heap (updated t d s)) u = dict_at (heap s) u.
Proof.
  intros Hne. unfold updated, dict_at. cbn [heap set_heap].
  rewrite list_lookup_insert_ne by congruence. reflexivity.
Qed.

Lemma map_insert_nodup {B} (f g : loc -> B) (l : list loc) (i : nat)
      (t : loc) (x : B) :
  NoDup l -> l !! i = Some t -> g t = x ->
  (forall u, u <> t -> g u = f u) ->
  map g l = <[i := x]> (map f l).
Proof.
  intros Hnd. revert i. induction Hnd as [|a l Ha Hnd IH]; intros i Hi Hx Ho.
  - discriminate.
  - destruct i as [|i]; simpl in *.
    + injection Hi as ->. rewrite Hx. f_equal.
      apply map_ext_in. intros u Hu. apply Ho. intros ->. apply Ha.
      apply list_elem_of_In. exact Hu.
    + f_equal.
      * apply Ho. intros ->. apply Ha.
        eapply list_elem_of_lookup_2, Hi.
      * apply IH; assumption.
Qed.

Lemma collection_updated (t : loc) (d : dict) (s : app) (i : nat) :
  tasks_is_list s -> NoDup (task_locs s) ->
  task_locs s !! i = Some t ->
  (exists d0, heap s !! t = Some (ODict d0)) ->
  collection (updated t d s) = <[i := d]> (collection s).
Proof.
  intros Hlist Hnd Hi [d0 Hd0].
  assert (Hne : tasks s <> t).
  { destruct Hlist as [xs Hxs]. intros E. rewrite E in Hxs. congruence. }
  unfold collection.
  change (list_at (heap (updated t d s)) (tasks (updated t d s)))
    with (task_locs (updated t d s)).
  rewrite task_locs_updated by assumption.
  apply (map_insert_nodup _ _ _ i t); [exact Hnd | exact Hi | |].
  - apply dict_at_updated_same. eapply lookup_lt_Some, Hd0.
  - intros u Hu. apply dict_at_updated_other, Hu.
Qed.

(** ** A task removed in place *)

Lemma task_locs_popped (i : nat) (s : app) :
  tasks_is_list s -> task_locs (popped i s) = delete i (task_locs s).
Proof.
  intros [xs Hxs]. unfold popped. unfold task_locs at 1, list_at.
  cbn [heap tasks set_heap].
  rewrite list_lookup_insert_eq by (eapply lookup_lt_Some, Hxs).
  reflexivity.
Qed.

Lemma dict_at_popped (i : nat) (s : app) (u : loc) :
  tasks_is_list s -> dict_at (heap (popped i s)) u = dict_at (heap s) u.
Proof.
  intros [xs Hxs]. unfold popped, dict_at. cbn [heap set_heap].
  destruct (decide (u = tasks s)) as [->|Hne].
  - rewrite list_lookup_insert_eq by (eapply lookup_lt_Some, Hxs).
    rewrite Hxs. reflexivity.
  - rewrite list_lookup_insert_ne by congruence. reflexivity.
Qed.

Lemma map_delete {B C} (f : B -> C) (i : nat) (l : list B) :
  map f (delete i l) = delete i (map f l).
Proof.
  revert i. induction l as [|x l IH]; intros [|i]; simpl; try reflexivity.
  rewrite IH. reflexivity.
Qed.

Lemma collection_popped (i : nat) (s : app) :
  tasks_is_list s -> collection (popped i s) = delete i (collection s).
Proof.
  intros Hlist. unfold collection.
  change (list_at (heap (popped i s)) (tasks (popped i s)))
    with (task_locs (popped i s)).
  rewrite task_locs_popped by exact Hlist.
  fold (task_locs s). rewrite <- map_delete.
  apply map_ext. intros u. apply dict_at_popped, Hlist.
Qed.

(** ** The search for the selected task *)

Lemma find_task_first (h : list obj) (task : loc) (ts : list loc) (i : nat) :
  (forall t, In t ts -> has_id (dict_at h t)) ->
  has_id (dict_at h task) ->
  (exists (k : nat) (t : loc),
      find_task h task i ts = Ok (Some (i + k, t)) /\
      ts !! k = Some t /\
      dict_at h t !! "id" = dict_at h task !! "id" /\
      forall (j : nat) (u : loc), j < k -> ts !! j = Some u ->
        dict_at h u !! "id" <> dict_at h task !! "id")
  \/ (find_task h task i ts = Ok None /\
      forall u, In u ts -> dict_at h u !! "id" <> dict_at h task !! "id").
Proof.
  intros Hids [b Hb]. revert i.
  induction ts as [|t ts IH]; intros i.
  - right. split; [reflexivity | intros u []].
  - destruct (Hids t (or_introl eq_refl)) as [a Ha].
    assert (Hrest : forall u, In u ts -> has_id (dict_at h u))
      by (intros u Hu; apply Hids; right; exact Hu).
    assert (Hstep : find_task h task i (t :: ts)
                    = if py_eq a b then Ok (Some (i, t))
                      else find_task h task (S i) ts).
    { simpl. unfold getitem. rewrite Ha, Hb. reflexivity. }
    rewrite Hstep. clear Hstep.
    destruct (py_eq a b) eqn:Heq.
    + left. exists 0, t. rewrite Nat.add_0_r.
      split; [reflexivity|]. split; [reflexivity|].
      apply py_eq_eq in Heq. subst b.
      split; [congruence | intros j u Hj; lia].
    + assert (Hne : dict_at h t !! "id" <> dict_at h task !! "id").
      { rewrite Ha, Hb. intros E. injection E as ->.
        assert (py_eq b b = true) by (apply py_eq_eq; reflexivity).
        congruence. }
      destruct (IH Hrest (S i)) as [[k [t' [Hf [Hk [Hid Hmin]]]]]|[Hf Hno]].
      * left. exists (S k), t'.
        replace (i + S k) with (S i + k) by lia.
        split; [exact Hf|]. split; [exact Hk|]. split; [exact Hid|].
        intros [|j] u Hj Hu; simpl in Hu.
        -- injection Hu as <-. exact Hne.
        -- apply (Hmin j u); [lia | exact Hu].
      * right. split; [exact Hf|].
        intros u [<-|Hu]; [exact Hne | apply Hno, Hu].
Qed.

Lemma map_lookup {B C} (f : B -> C) (l : list B) (i : nat) :
  map f l !! i = f <$> (l !! i).
Proof.
  revert i. induction l as [|x l IH]; intros [|i]; simpl; try reflexivity.
  apply IH.
Qed.

Lemma find_task_selected (h : list obj) (task : loc) (ts : list loc) (k : nat) :
  (forall t, In t ts -> has_id (dict_at h t)) ->
  NoDup (map (fun t => dict_at h t !! "id") ts) ->
  ts !! k = Some task ->
  find_task h task 0 ts = Ok (Some (k, task)).
Proof.
  intros Hids Hnd Hk.
  assert (Hin : In task ts)
    by (apply list_elem_of_In; eapply list_elem_of_lookup_2, Hk).
  destruct (find_task_first h task ts 0 Hids (Hids task Hin))
    as [[k' [t' [Hf [Hk' [Hid _]]]]]|[_ Hno]].
  - assert (Hkk : k' = k).
    { apply (NoDup_lookup _ k' k (dict_at h task !! "id") Hnd).
      - rewrite map_lookup, Hk'. simpl. f_equal. exact Hid.
      - rewrite map_lookup, Hk. reflexivity. }
    subst k'. rewrite Hk in Hk'. injection Hk' as <-.
    exact Hf.
  - exfalso. apply (Hno task Hin). reflexivity.
Qed.

Lemma ids_of_locs (s : app) :
  ids_of s = map (fun t => dict_at (heap s) t !! "id") (task_locs s).
Proof. unfold ids_of, collection, task_locs. apply map_map. Qed.

Lemma nodup_ids_locs (s : app) : NoDup (ids_of s) -> NoDup (task_locs s).
Proof.
  rewrite ids_of_locs. intros H.
  apply (NoDup_fmap_1 (fun t => dict_at (heap s) t !! "id")).
  exact H.
Qed.

(** ** How the methods run on a consistent window *)

Lemma get_selected_run (w : window) (idx k : nat) (t : loc) :
  consistent (win_app w) ->
  view_locs (win_app w) !! idx = Some t ->
  task_locs (win_app w) !! k = Some t ->
  _get_selected_task (Some idx) w = (Done (Some (k, t)), w).
Proof.
  intros [_ [Hs [Hnd _]]] Hv Hk.
  unfold _get_selected_task, wbind, wgets. rewrite Hv. unfold lift_res.
  rewrite (find_task_selected _ t _ k); [reflexivity | | | exact Hk].
  - intros u Hu. apply (Hs u Hu).
  - rewrite <- ids_of_locs. exact Hnd.
Qed.

Lemma selected_in_store (s : app) (idx : nat) (t : loc) :
  consistent s -> view_locs s !! idx = Some t ->
  exists k, task_locs s !! k = Some t.
Proof.
  intros [_ [_ [_ [Hv _]]]] Hi.
  assert (Hin : In t (view_locs s))
    by (apply list_elem_of_In; eapply list_elem_of_lookup_2, Hi).
  rewrite Hv in Hin. apply (Permutation_in _ (ordered_perm s)) in Hin.
  apply filtered_incl in Hin. apply list_elem_of_In in Hin.
  apply list_elem_of_lookup_1 in Hin. exact Hin.
Qed.

Lemma set_task_field_run (w : window) (i : nat) (t : loc) (k : string)
      (v : pyval) :
  task_locs (win_app w) !! i = Some t ->
  set_task_field i k v w
  = (Done tt,
     set_win_app (updated t (<[k := v]> (dict_at (heap (win_app w)) t))
                    (win_app w)) w).
Proof.
  intros Hi. unfold set_task_field, wbind, wgets. rewrite Hi. reflexivity.
Qed.

Lemma updated_twice (t : loc) (d1 d2 : dict) (s : app) :
  updated t d2 (updated t d1 s) = updated t d2 s.
Proof.
  unfold updated. cbn [heap set_heap].
  rewrite list_insert_insert_eq. reflexivity.
Qed.

Lemma set_two_fields_run (w : window) (i : nat) (t : loc) (d : dict)
      (k1 k2 : string) (v1 v2 : pyval) :
  tasks_is_list (win_app w) ->
  task_locs (win_app w) !! i = Some t ->
  heap (win_app w) !! t = Some (ODict d) ->
  (set_task_field i k1 v1 ;;+ set_task_field i k2 v2) w
  = (Done tt,
     set_win_app (updated t (<[k2 := v2]> (<[k1 := v1]> d)) (win_app w)) w).
Proof.
  intros Hlist Hi Hd.
  assert (Hne : tasks (win_app w) <> t).
  { destruct Hlist as [xs Hxs]. intros E. rewrite E in Hxs. congruence. }
  assert (Hdt : dict_at (heap (win_app w)) t = d)
    by (unfold dict_at; rewrite Hd; reflexivity).
  unfold wbind at 1. rewrite (set_task_field_run w i t k1 v1 Hi).
  rewrite set_task_field_run with (t := t).
  - cbn [win_app set_win_app].
    rewrite dict_at_updated_same by (eapply lookup_lt_Some, Hd).
    rewrite updated_twice, Hdt. reflexivity.
  - cbn [win_app set_win_app]. rewrite task_locs_updated; assumption.
Qed.

(** ** The view depends on the titles and dates only *)

Section SortExt.

Context {A : Type} (k k' : A -> string).

Lemma insert_by_ext (x : A) (l : list A) :
  (forall y, In y (x :: l) -> k y = k' y) ->
  insert_by k x l = insert_by k' x l.
Proof.
  induction l as [|y l IH]; intros H; simpl; [reflexivity|].
  rewrite (H x (or_introl eq_refl)), (H y (or_intror (or_introl eq_refl))).
  rewrite IH; [reflexivity|].
  intros z [<-|Hz]; apply H; [left | right; right]; auto.
Qed.

Lemma isort_by_ext (l : list A) :
  (forall y, In y l -> k y = k' y) -> isort_by k l = isort_by k' l.
Proof.
  induction l as [|x l IH]; intros H; simpl; [reflexivity|].
  rewrite <- IH by (intros y Hy; apply H; right; exact Hy).
  apply insert_by_ext. intros y [<-|Hy]; apply H; [left; reflexivity|].
  right. apply (Permutation_in _ (isort_by_perm k l)), Hy.
Qed.

Lemma sorted_by_ext (rv : bool) (l : list A) :
  (forall y, In y l -> k y = k' y) -> sorted_by k rv l = sorted_by k' rv l.
Proof.
  intros H. unfold sorted_by. destruct rv.
  - rewrite isort_by_ext; [reflexivity|].
    intros y Hy. apply H, in_rev, Hy.
  - apply isort_by_ext, H.
Qed.

End SortExt.

Lemma filtered_eq (s s' : app) :
  search_var s' = search_var s -> task_locs s' = task_locs s ->
  (forall t, In t (task_locs s) ->
     title_of (dict_at (heap s') t) = title_of (dict_at (heap s) t)) ->
  filtered s' = filtered s.
Proof.
  intros Hq Hl Ht. unfold filtered, search_term. rewrite Hq.
  fold (task_locs s') (task_locs s). rewrite Hl.
  destruct (PyStr.nonempty _); [|reflexivity].
  apply filter_ext_in. intros t Hin. unfold title_lower.
  rewrite (Ht t Hin). reflexivity.
Qed.

Lemma ordered_eq (s s' : app) :
  sort_mode s' = sort_mode s ->
  search_var s' = search_var s -> task_locs s' = task_locs s ->
  (forall t, In t (task_locs s) ->
     title_of (dict_at (heap s') t) = title_of (dict_at (heap s) t)) ->
  (forall t, In t (task_locs s) ->
     created_at_of (dict_at (heap s') t) = created_at_of (dict_at (heap s) t)) ->
  ordered s' = ordered s.
Proof.
  intros Hm Hq Hl Ht Hc. unfold ordered, sort_by_mode.
  rewrite Hm, (filtered_eq s s' Hq Hl Ht).
  destruct (sort_mode s); apply sorted_by_ext; intros t Hin;
    apply filtered_incl in Hin; fold (task_locs s) in Hin.
  - unfold title_lower. rewrite (Ht t Hin). reflexivity.
  - unfold created_at. apply Hc, Hin.
Qed.

Lemma dict_at_refreshed (s : app) (t : loc) :
  dict_at (heap (refreshed s)) t = dict_at (heap s) t.
Proof.
  unfold refreshed. cbn [heap set_listbox set_filtered_tasks set_heap].
  change (heap s ++ [OList (filtered s); OList (ordered s)])%list
    with (heap s ++ [OList (filtered s)] ++ [OList (ordered s)])%list.
  rewrite app_assoc, !dict_at_app_list. reflexivity.
Qed.

Lemma ordered_refreshed (s : app) :
  tasks_is_list s -> ordered (refreshed s) = ordered s.
Proof.
  intros Hlist. apply ordered_eq; try reflexivity.
  - apply task_locs_refreshed, Hlist.
  - intros t _. rewrite dict_at_refreshed. reflexivity.
  - intros t _. rewrite dict_at_refreshed. reflexivity.
Qed.

Lemma rows_refreshed (s : app) (ts : list loc) :
  rows (heap (refreshed s)) ts = rows (heap s) ts.
Proof.
  unfold rows. apply map_ext. intros t. rewrite dict_at_refreshed. reflexivity.
Qed.

Lemma ids_of_eq (s s' : app) :
  collection s' = collection s -> ids_of s' = ids_of s.
Proof. unfold ids_of. intros ->. reflexivity. Qed.

(** A refresh makes the view, the listbox and (with [_update_stats]) the
    counters those of the store as it is. *)
Lemma refreshed_consistent (s : app) :
  tasks_is_list s ->
  (forall t, In t (task_locs s) -> record_sound (dict_at (heap s) t)) ->
  NoDup (ids_of s) ->
  stats_label s = stats_of (collection s) ->
  consistent (refreshed s).
Proof.
  intros Hlist Hs Hnd Hst.
  split; [apply refreshed_is_list, Hlist|].
  split.
  { intros t Ht. rewrite task_locs_refreshed in Ht by exact Hlist.
    rewrite dict_at_refreshed. apply Hs, Ht. }
  split.
  { rewrite (ids_of_eq s) by (apply collection_refreshed, Hlist). exact Hnd. }
  split.
  { rewrite view_locs_refreshed, ordered_refreshed by exact Hlist.
    reflexivity. }
  split.
  { rewrite view_locs_refreshed, rows_refreshed. reflexivity. }
  rewrite collection_refreshed by exact Hlist. exact Hst.
Qed.

Lemma counted_consistent (s : app) : 
  consistent s -> consistent (counted s).
Proof.
  intros [H1 [H2 [H3 [H4 [H5 _]]]]].
  split; [exact H1|]. split; [exact H2|]. split; [exact H3|].
  split; [exact H4|]. split; [exact H5 | reflexivity].
Qed.

Lemma counted_refreshed_consistent (s : app) :
  tasks_is_list s ->
  (forall t, In t (task_locs s) -> record_sound (dict_at (heap s) t)) ->
  NoDup (ids_of s) ->
  consistent (counted (refreshed s)).
Proof.
  intros Hlist Hs Hnd.
  split; [apply refreshed_is_list, Hlist|].
  split.
  { intros t Ht.
    change (task_locs (counted (refreshed s))) with (task_locs (refreshed s)) in Ht.
    rewrite task_locs_refreshed in Ht by exact Hlist.
    change (heap (counted (refreshed s))) with (heap (refreshed s)).
    rewrite dict_at_refreshed. apply Hs, Ht. }
  split.
  { change (ids_of (counted (refreshed s))) with (ids_of (refreshed s)).
    rewrite (ids_of_eq s) by (apply collection_refreshed, Hlist). exact Hnd. }
  split.
  { change (view_locs (counted (refreshed s))) with (view_locs (refreshed s)).
    change (ordered (counted (refreshed s))) with (ordered (refreshed s)).
    rewrite view_locs_refreshed, ordered_refreshed by exact Hlist.
    reflexivity. }
  split.
  { change (listbox (counted (refreshed s))) with (listbox (refreshed s)).
    change (heap (counted (refreshed s))) with (heap (refreshed s)).
    change (view_locs (counted (refreshed s))) with (view_locs (refreshed s)).
    rewrite view_locs_refreshed, rows_refreshed. reflexivity. }
  reflexivity.
Qed.

Lemma sound_well_formed (s : app) :
  (forall t, In t (task_locs s) -> record_sound (dict_at (heap s) t)) ->
  tasks_well_formed s.
Proof.
  intros Hs t Ht. destruct (Hs t Ht) as [H1 [H2 _]].
  split; [exact H1 | intros _; exact H2].
Qed.

Lemma two_fields_then {B} (rest : W B) (w : window) (i : nat) (t : loc)
      (d : dict) (k1 k2 : string) (v1 v2 : pyval) :
  tasks_is_list (win_app w) ->
  task_locs (win_app w) !! i = Some t ->
  heap (win_app w) !! t = Some (ODict d) ->
  (set_task_field i k1 v1 ;;+ set_task_field i k2 v2 ;;+ rest) w
  = rest (set_win_app
            (updated t (<[k2 := v2]> (<[k1 := v1]> d)) (win_app w)) w).
Proof.
  intros Hlist Hi Hd.
  pose proof (set_two_fields_run w i t d k1 k2 v1 v2 Hlist Hi Hd) as H.
  unfold wbind in *.
  destruct (set_task_field i k1 v1 w) as [[[]|f] w1].
  - destruct (set_task_field i k2 v2 w1) as [[[]|f] w2].
    + injection H as ->. reflexivity.
    + discriminate.
  - discriminate.
Qed.

Section WindowRuns.

Variable json_dumps : list dict -> string.

Lemma saved_rest (s : app) :
  filtered_tasks (saved json_dumps s) = filtered_tasks s /\
  listbox (saved json_dumps s) = listbox s /\
  stats_label (saved json_dumps s) = stats_label s /\
  entry_task (saved json_dumps s) = entry_task s.
Proof.
  unfold saved. destruct (open_write _ DATA_FILE); repeat split.
Qed.

Lemma task_locs_saved (s : app) :
  task_locs (saved json_dumps s) = task_locs s.
Proof.
  unfold task_locs. destruct (saved_fields json_dumps s) as [-> [-> _]].
  reflexivity.
Qed.

Lemma saved_sound (s : app) :
  (forall t, In t (task_locs s) -> record_sound (dict_at (heap s) t)) ->
  forall t, In t (task_locs (saved json_dumps s)) ->
    record_sound (dict_at (heap (saved json_dumps s)) t).
Proof.
  intros Hs t Ht. rewrite task_locs_saved in Ht.
  destruct (saved_fields json_dumps s) as [-> _]. apply Hs, Ht.
Qed.

Lemma save_refresh_stats_run (s1 : app) (w : window) :
  tasks_well_formed s1 ->
  (lift_app (save_tasks json_dumps) ;;+ lift_app refresh_listbox ;;+
   lift_app _update_stats) (set_win_app s1 w)
  = (Done tt, set_win_app (counted (refreshed (saved json_dumps s1))) w).
Proof.
  intros Hwf. unfold wbind, lift_app. cbn [win_app set_win_app].
  rewrite save_tasks_run. cbn [win_app set_win_app].
  rewrite refresh_listbox_run by (apply saved_well_formed, Hwf).
  cbn [win_app set_win_app]. rewrite update_stats_run. reflexivity.
Qed.

Lemma save_refresh_run (s1 : app) (w : window) :
  tasks_well_formed s1 ->
  (lift_app (save_tasks json_dumps) ;;+ lift_app refresh_listbox)
    (set_win_app s1 w)
  = (Done tt, set_win_app (refreshed (saved json_dumps s1)) w).
Proof.
  intros Hwf. unfold wbind, lift_app. cbn [win_app set_win_app].
  rewrite save_tasks_run. cbn [win_app set_win_app].
  rewrite refresh_listbox_run by (apply saved_well_formed, Hwf).
  reflexivity.
Qed.

(** The record at [t] replaced by one with the same title, date and id
    keeps the store sound, with the same [id]s. *)
Lemma updated_sound (s : app) (t : loc) (d' : dict) (i : nat) :
  consistent s -> task_locs s !! i = Some t ->
  record_sound d' -> d' !! "id" = dict_at (heap s) t !! "id" ->
  tasks_is_list (updated t d' s) /\
  (forall u, In u (task_locs (updated t d' s)) ->
     record_sound (dict_at (heap (updated t d' s)) u)) /\
  NoDup (ids_of (updated t d' s)) /\
  collection (updated t d' s) = <[i := d']> (collection s).
Proof.
  intros [Hlist [Hs [Hnd _]]] Hi Hd' Hid.
  assert (Hin : In t (task_locs s))
    by (apply list_elem_of_In; eapply list_elem_of_lookup_2, Hi).
  destruct (sound_allocated _ _ (Hs t Hin)) as [d0 Hd0].
  assert (Hne : tasks s <> t).
  { destruct Hlist as [xs Hxs]. intros E. rewrite E in Hxs. congruence. }
  assert (Hc : collection (updated t d' s) = <[i := d']> (collection s)).
  { apply collection_updated;
      [exact Hlist | apply nodup_ids_locs, Hnd | exact Hi | exists d0; exact Hd0]. }
  split.
  { destruct Hlist as [xs Hxs]. exists xs. unfold updated.
    cbn [heap tasks set_heap].
    rewrite list_lookup_insert_ne by congruence. exact Hxs. }
  split.
  { intros u Hu. rewrite task_locs_updated in Hu by assumption.
    destruct (decide (u = t)) as [->|Hut].
    - rewrite dict_at_updated_same by (eapply lookup_lt_Some, Hd0). exact Hd'.
    - rewrite dict_at_updated_other by exact Hut. apply Hs, Hu. }
  split; [|exact Hc].
  unfold ids_of. rewrite Hc.
  replace (map (fun d => d !! "id") (<[i := d']> (collection s)))
    with (ids_of s); [exact Hnd|].
  unfold ids_of. rewrite <- (list_insert_id (map _ (collection s)) i (d' !! "id")).
  - clear. revert i. induction (collection s) as [|x l IH]; intros [|i];
      simpl; try reflexivity. rewrite IH. reflexivity.
  - rewrite map_lookup. unfold collection. fold (task_locs s).
    rewrite map_lookup, Hi. simpl. rewrite Hid. reflexivity.
Qed.

End WindowRuns.

(** ** The records the methods write *)

Lemma toggled_other (now k : string) (d : dict) :
  k <> "completed" -> k <> "updated_at" -> toggled now d !! k = d !! k.
Proof.
  intros H1 H2. unfold toggled.
  rewrite lookup_insert_ne by congruence.
  rewrite lookup_insert_ne by congruence. reflexivity.
Qed.

Lemma toggled_completed (now : string) (d : dict) :
  toggled now d !! "completed" = Some (VBool (negb (is_completed d))).
Proof.
  unfold toggled. rewrite lookup_insert_ne by discriminate.
  apply lookup_insert_eq.
Qed.

Lemma is_completed_toggled (now : string) (d : dict) :
  is_completed (toggled now d) = negb (is_completed d).
Proof.
  unfold is_completed at 1, get_default. rewrite toggled_completed.
  reflexivity.
Qed.

Lemma toggled_sound (now : string) (d : dict) :
  record_sound d -> record_sound (toggled now d).
Proof.
  intros [[x Hx] [Hd [v Hv]]]. split; [|split].
  - exists x. rewrite toggled_other by discriminate. exact Hx.
  - intros b. rewrite toggled_other by discriminate. apply Hd.
  - exists v. rewrite toggled_other by discriminate. exact Hv.
Qed.

Lemma retitled_other (title now k : string) (d : dict) :
  k <> "title" -> k <> "updated_at" -> retitled title now d !! k = d !! k.
Proof.
  intros H1 H2. unfold retitled.
  rewrite lookup_insert_ne by congruence.
  rewrite lookup_insert_ne by congruence. reflexivity.
Qed.

Lemma retitled_title (title now : string) (d : dict) :
  retitled title now d !! "title" = Some (VStr title).
Proof.
  unfold retitled. rewrite lookup_insert_ne by discriminate.
  apply lookup_insert_eq.
Qed.

Lemma retitled_sound (title now : string) (d : dict) :
  record_sound d -> record_sound (retitled title now d).
Proof.
  intros [_ [Hd [v Hv]]]. split; [|split].
  - exists title. apply retitled_title.
  - intros b. rewrite retitled_other by discriminate. apply Hd.
  - exists v. rewrite retitled_other by discriminate. exact Hv.
Qed.

Lemma is_completed_retitled (title now : string) (d : dict) :
  is_completed (retitled title now d) = is_completed d.
Proof.
  unfold is_completed, get_default.
  rewrite retitled_other by discriminate. reflexivity.
Qed.

Lemma stored_app_sound :
  forall t, In t (task_locs stored_app) ->
    record_sound (dict_at (heap stored_app) t).
Proof.
  intros t Ht. vm_compute in Ht.
  repeat (destruct Ht as [<-|Ht];
          [split; [eexists; vm_compute; reflexivity|];
           split; [intros b; vm_compute; discriminate
                  | eexists; vm_compute; reflexivity]|]).
  destruct Ht.
Qed.

Lemma stored_app_ids : NoDup (ids_of stored_app).
Proof.
  vm_compute.
  repeat (apply NoDup_cons_2;
          [rewrite ?elem_of_cons, elem_of_nil; intuition discriminate|]).
  apply NoDup_nil_2.
Qed.

Lemma ready_app_consistent : consistent ready_app.
Proof.
  apply counted_refreshed_consistent.
  - eexists. reflexivity.
  - exact stored_app_sound.
  - exact stored_app_ids.
Qed.

(** ** [toggle_complete] *)

Section Toggle.

Variable json_dumps : list dict -> string.

Lemma toggle_complete_run (w : window) (idx i : nat) (t : loc) (now : string) :
  consistent (win_app w) ->
  view_locs (win_app w) !! idx = Some t ->
  task_locs (win_app w) !! i = Some t ->
  toggle_complete json_dumps (Some idx) now w
  = (Done tt,
     set_win_app
       (counted (refreshed (saved json_dumps
          (updated t (toggled now (dict_at (heap (win_app w)) t))
             (win_app w))))) w).
Proof.
  intros Hc Hv Hi.
  pose proof Hc as [Hlist [Hs [Hnd _]]].
  assert (Hin : In t (task_locs (win_app w)))
    by (apply list_elem_of_In; eapply list_elem_of_lookup_2, Hi).
  destruct (sound_allocated _ _ (Hs t Hin)) as [d Hd].
  assert (Hdt : dict_at (heap (win_app w)) t = d)
    by (unfold dict_at; rewrite Hd; reflexivity).
  unfold toggle_complete, wbind at 1.
  rewrite (get_selected_run w idx i t Hc Hv Hi).
  unfold wbind at 1, wgets at 1. rewrite Hi.
  rewrite (two_fields_then _ w i t d) by assumption.
  rewrite Hdt. fold (toggled now d).
  apply save_refresh_stats_run, sound_well_formed.
  apply (updated_sound (win_app w) t (toggled now d) i); try assumption.
  - apply toggled_sound. rewrite <- Hdt. apply Hs, Hin.
  - rewrite Hdt. apply toggled_other; discriminate.
Qed.

(** X1. On a consistent window, [toggle_complete] on the selected row
    replaces the record of the task shown there, and no other: in it
    [completed] is flipped (an absent [completed] becomes true),
    [updated_at] is the time of the call, and every other field is as
    before. [save_tasks] then runs on the new collection: when the
    data file can be written it holds the new collection and no dialog
    is shown; when it cannot, the data file is as it was and the error
    dialog of [save_tasks] is shown. The method shows no notice of its
    own, and the window is consistent again. *)
Theorem toggle_complete_flips_selected (w : window) (idx i : nat) (t : loc)
        (now : string) :
  consistent (win_app w) ->
  view_locs (win_app w) !! idx = Some t ->
  task_locs (win_app w) !! i = Some t ->
  let d := dict_at (heap (win_app w)) t in
  exists w', toggle_complete json_dumps (Some idx) now w = (Done tt, w') /\
    collection (win_app w') = <[i := toggled now d]> (collection (win_app w)) /\
    toggled now d !! "completed" = Some (VBool (negb (is_completed d))) /\
    toggled now d !! "updated_at" = Some (VStr now) /\
    (forall k, k <> "completed" -> k <> "updated_at" ->
       toggled now d !! k = d !! k) /\
    consistent (win_app w') /\
    win_notices w' = win_notices w /\
    (can_write (disk (win_app w)) DATA_FILE = true ->
       file_text (disk (win_app w')) DATA_FILE
       = Some (json_dumps (collection (win_app w'))) /\
       dialogs (win_app w') = dialogs (win_app w)) /\
    (can_write (disk (win_app w)) DATA_FILE = false ->
       fs_files (disk (win_app w')) !! DATA_FILE
       = fs_files (disk (win_app w)) !! DATA_FILE /\
       dialogs (win_app w')
       = (dialogs (win_app w) ++ [ShowError (MsgSaveFailed OSError)])%list).
Proof.
  intros Hc Hv Hi d.
  pose proof Hc as [Hlist [Hs [Hnd _]]].
  assert (Hin : In t (task_locs (win_app w)))
    by (apply list_elem_of_In; eapply list_elem_of_lookup_2, Hi).
  destruct (updated_sound (win_app w) t (toggled now d) i Hc Hi)
    as [Hlist1 [Hs1 [Hnd1 Hc1]]].
  { apply toggled_sound, Hs, Hin. }
  { apply toggled_other; discriminate. }
  set (s1 := updated t (toggled now d) (win_app w)) in *.
  eexists. split; [apply (toggle_complete_run w idx i t now Hc Hv Hi)|].
  fold d. fold s1. cbn [win_app set_win_app win_notices].
  assert (Hcol : collection (counted (refreshed (saved json_dumps s1)))
                 = <[i := toggled now d]> (collection (win_app w))).
  { rewrite collection_counted, collection_refreshed, collection_saved.
    - exact Hc1.
    - apply saved_is_list, Hlist1. }
  split; [exact Hcol|].
  split; [apply toggled_completed|].
  split; [apply lookup_insert_eq|].
  split; [intros k; apply toggled_other|].
  split.
  { apply counted_refreshed_consistent.
    - apply saved_is_list, Hlist1.
    - apply saved_sound, Hs1.
    - rewrite (ids_of_eq s1) by apply collection_saved. exact Hnd1. }
  split; [reflexivity|].
  change (disk (counted (refreshed (saved json_dumps s1))))
    with (disk (saved json_dumps s1)).
  change (dialogs (counted (refreshed (saved json_dumps s1))))
    with (dialogs (saved json_dumps s1)).
  assert (Hdisk : disk s1 = disk (win_app w)) by reflexivity.
  assert (Hdial : dialogs s1 = dialogs (win_app w)) by reflexivity.
  split.
  - intros Hw. rewrite <- Hdisk in Hw. rewrite Hcol, <- Hc1, <- Hdial.
    apply (saved_writes json_dumps s1). exact Hw.
  - intros Hw. rewrite <- Hdisk in Hw. rewrite <- Hdisk, <- Hdial.
    split; [apply saved_unwritable, Hw | apply saved_fails, Hw].
Qed.

End Toggle.

Lemma toggle_complete_flips_selected_witness :
  (consistent (win_app ready_window) /\
   view_locs (win_app ready_window) !! 0 = Some 3 /\
   task_locs (win_app ready_window) !! 1 = Some 3) /\
  exists w',
    toggle_complete titles_dumps (Some 0) "2024-05-05T10:00:00" ready_window
    = (Done tt, w') /\
    map is_completed (collection (win_app w')) = [false; true; false].
Proof.
  assert (Hv : view_locs (win_app ready_window) !! 0 = Some 3)
    by (vm_compute; reflexivity).
  assert (Hi : task_locs (win_app ready_window) !! 1 = Some 3)
    by (vm_compute; reflexivity).
  split; [split; [exact ready_app_consistent | split; [exact Hv | exact Hi]]|].
  destruct (toggle_complete_flips_selected titles_dumps ready_window 0 1 3
              "2024-05-05T10:00:00" ready_app_consistent Hv Hi)
    as [w' [Hrun [Hc _]]].
  exists w'. split; [exact Hrun|]. rewrite Hc. vm_compute. reflexivity.
Defined.

(** ** [edit_task] *)

Lemma stats_of_insert (c : list dict) (i : nat) (d d' : dict) :
  c !! i = Some d -> is_completed d' = is_completed d ->
  stats_of (<[i := d']> c) = stats_of c.
Proof.
  intros Hi Hd. unfold stats_of. rewrite length_insert.
  assert (Hf : length (List.filter is_completed (<[i := d']> c))
               = length (List.filter is_completed c)).
  { revert i Hi. induction c as [|x c IH]; intros [|i] Hi; simpl in *.
    - discriminate.
    - discriminate.
    - injection Hi as ->. rewrite Hd. destruct (is_completed d); reflexivity.
    - specialize (IH i Hi). destruct (is_completed x); simpl; rewrite IH;
        reflexivity. }
  rewrite Hf. reflexivity.
Qed.

Section Edit.

Variable json_dumps : list dict -> string.

Lemma edit_task_run (w : window) (idx i : nat) (t : loc)
      (new now : string) :
  consistent (win_app w) ->
  view_locs (win_app w) !! idx = Some t ->
  task_locs (win_app w) !! i = Some t ->
  PyStr.nonempty (PyStr.strip new) = true ->
  let d := dict_at (heap (win_app w)) t in
  edit_task json_dumps (Some idx) (Some new) now w
  = (Done tt,
     set_win_app
       (refreshed (saved json_dumps
          (updated t (retitled (PyStr.strip new) now d) (win_app w))))
       (set_win_notices
          (win_notices w ++ [AskNewTitle (VStr (title_of d)) (Some new)]) w)).
Proof.
  intros Hc Hv Hi Hne d.
  pose proof Hc as [Hlist [Hs [Hnd _]]].
  assert (Hin : In t (task_locs (win_app w)))
    by (apply list_elem_of_In; eapply list_elem_of_lookup_2, Hi).
  destruct (sound_allocated _ _ (Hs t Hin)) as [d0 Hd0].
  assert (Hdt : d = d0) by (unfold d, dict_at; rewrite Hd0; reflexivity).
  unfold edit_task, wbind at 1.
  rewrite (get_selected_run w idx i t Hc Hv Hi).
  unfold wbind at 1, wgets at 1. unfold wbind at 1, lift_res at 1.
  fold d. rewrite (has_title_getitem d (proj1 (Hs t Hin))).
  unfold wbind at 1, notify at 1. rewrite Hne. cbn [negb].
  rewrite (two_fields_then _ _ i t d0) by assumption.
  rewrite <- Hdt. fold (retitled (PyStr.strip new) now d).
  cbn [win_app set_win_notices].
  change (set_win_app ?a (set_win_notices ?n w))
    with (set_win_app a (set_win_notices n w)).
  apply (save_refresh_run json_dumps
           (updated t (retitled (PyStr.strip new) now d) (win_app w))
           (set_win_notices _ w)).
  apply sound_well_formed.
  apply (updated_sound (win_app w) t _ i); try assumption.
  - apply retitled_sound, Hs, Hin.
  - apply retitled_other; discriminate.
Qed.

(** X2. On a consistent window, [edit_task] with an answer that strips
    to a non-empty title replaces the record of the selected task, and
    no other: its [title] is the stripped answer, [updated_at] the time
    of the call, and every other field ([id], [created_at], [completed])
    is as before. The collection is saved and the window is consistent
    again. *)
Theorem edit_task_retitles_selected (w : window) (idx i : nat) (t : loc)
        (new now : string) :
  consistent (win_app w) ->
  view_locs (win_app w) !! idx = Some t ->
  task_locs (win_app w) !! i = Some t ->
  PyStr.strip new <> "" ->
  let d := dict_at (heap (win_app w)) t in
  let d' := retitled (PyStr.strip new) now d in
  exists w', edit_task json_dumps (Some idx) (Some new) now w = (Done tt, w') /\
    collection (win_app w') = <[i := d']> (collection (win_app w)) /\
    d' !! "title" = Some (VStr (PyStr.strip new)) /\
    d' !! "updated_at" = Some (VStr now) /\
    (forall k, k <> "title" -> k <> "updated_at" -> d' !! k = d !! k) /\
    consistent (win_app w') /\
    (can_write (disk (win_app w)) DATA_FILE = true ->
       file_text (disk (win_app w')) DATA_FILE
       = Some (json_dumps (collection (win_app w')))).
Proof.
  intros Hc Hv Hi Hne d d'.
  assert (Hne' : PyStr.nonempty (PyStr.strip new) = true).
  { destruct (PyStr.strip new); [contradiction | reflexivity]. }
  pose proof Hc as [Hlist [Hs [Hnd [_ [_ Hst]]]]].
  assert (Hin : In t (task_locs (win_app w)))
    by (apply list_elem_of_In; eapply list_elem_of_lookup_2, Hi).
  destruct (updated_sound (win_app w) t d' i Hc Hi)
    as [Hlist1 [Hs1 [Hnd1 Hc1]]].
  { apply retitled_sound, Hs, Hin. }
  { apply retitled_other; discriminate. }
  set (s1 := updated t d' (win_app w)) in *.
  eexists. split; [apply (edit_task_run w idx i t new now Hc Hv Hi Hne')|].
  fold d. fold d'. fold s1. cbn [win_app set_win_app].
  assert (Hcol : collection (refreshed (saved json_dumps s1))
                 = <[i := d']> (collection (win_app w))).
  { rewrite collection_refreshed, collection_saved.
    - exact Hc1.
    - apply saved_is_list, Hlist1. }
  split; [exact Hcol|].
  split; [apply retitled_title|].
  split; [apply lookup_insert_eq|].
  split; [intros k; apply retitled_other|].
  split.
  { apply refreshed_consistent.
    - apply saved_is_list, Hlist1.
    - apply saved_sound, Hs1.
    - rewrite (ids_of_eq s1) by apply collection_saved. exact Hnd1.
    - destruct (saved_rest json_dumps s1) as [_ [_ [-> _]]].
      rewrite collection_saved, Hc1.
      change (stats_label s1) with (stats_label (win_app w)). rewrite Hst.
      symmetry. apply (stats_of_insert _ i d).
      + unfold collection. fold (task_locs (win_app w)).
        rewrite map_lookup, Hi. reflexivity.
      + apply is_completed_retitled. }
  intros Hw. rewrite Hcol, <- Hc1.
  apply (saved_writes json_dumps s1). exact Hw.
Qed.

(** X3. [edit_task] changes nothing of the application object, and
    saves nothing, when no row is selected (it asks to select one), when
    the user cancels the prompt, and when the answer is blank after
    stripping (it warns that the title cannot be empty). *)
Theorem edit_task_leaves_store (w : window) (now : string) :
  (forall (answer : option string),
     exists w', edit_task json_dumps None answer now w = (Done tt, w') /\
       win_app w' = win_app w /\
       win_notices w' = (win_notices w ++ [SelectFirst])%list) /\
  (forall (idx i : nat) (t : loc),
     consistent (win_app w) ->
     view_locs (win_app w) !! idx = Some t ->
     task_locs (win_app w) !! i = Some t ->
     (exists w', edit_task json_dumps (Some idx) None now w = (Done tt, w') /\
        win_app w' = win_app w) /\
     (forall new, PyStr.strip new = "" ->
        exists w', edit_task json_dumps (Some idx) (Some new) now w
                   = (Done tt, w') /\
          win_app w' = win_app w /\
          exists ns, win_notices w' = (ns ++ [TitleEmpty])%list)).
Proof.
  split; [intros answer; eexists; split; [reflexivity|]; split; reflexivity|].
  intros idx i t Hc Hv Hi.
  pose proof Hc as [Hlist [Hs _]].
  assert (Hin : In t (task_locs (win_app w)))
    by (apply list_elem_of_In; eapply list_elem_of_lookup_2, Hi).
  split.
  - eexists. split.
    + unfold edit_task, wbind at 1.
      rewrite (get_selected_run w idx i t Hc Hv Hi).
      unfold wbind at 1, wgets at 1. unfold wbind at 1, lift_res at 1.
      rewrite (has_title_getitem _ (proj1 (Hs t Hin))).
      unfold wbind, notify, wret. reflexivity.
    + reflexivity.
  - intros new Hb. eexists. split; [|split].
    + unfold edit_task, wbind at 1.
      rewrite (get_selected_run w idx i t Hc Hv Hi).
      unfold wbind at 1, wgets at 1. unfold wbind at 1, lift_res at 1.
      rewrite (has_title_getitem _ (proj1 (Hs t Hin))).
      unfold wbind at 1, notify at 1. rewrite Hb. reflexivity.
    + reflexivity.
    + cbn [win_notices set_win_notices]. eexists. reflexivity.
Qed.

End Edit.

Lemma ready_window_selection :
  view_locs (win_app ready_window) !! 0 = Some 3 /\
  task_locs (win_app ready_window) !! 1 = Some 3.
Proof. split; vm_compute; reflexivity. Qed.

Lemma edit_task_retitles_selected_witness :
  (consistent (win_app ready_window) /\
   view_locs (win_app ready_window) !! 0 = Some 3 /\
   task_locs (win_app ready_window) !! 1 = Some 3 /\
   PyStr.strip "  Apricot " <> "") /\
  exists w',
    edit_task titles_dumps (Some 0) (Some "  Apricot ") "2024-05-05T10:00:00"
      ready_window = (Done tt, w') /\
    map title_of (collection (win_app w')) = ["banana"; "Apricot"; "cherry"].
Proof.
  destruct ready_window_selection as [Hv Hi].
  assert (Hne : PyStr.strip "  Apricot " <> "") by (vm_compute; discriminate).
  split.
  - split; [exact ready_app_consistent|].
    split; [exact Hv|]. split; [exact Hi | exact Hne].
  - destruct (edit_task_retitles_selected titles_dumps ready_window 0 1 3
                "  Apricot " "2024-05-05T10:00:00"
                ready_app_consistent Hv Hi Hne) as [w' [Hrun [Hc _]]].
    exists w'. split; [exact Hrun|]. rewrite Hc. vm_compute. reflexivity.
Defined.

Lemma edit_task_leaves_store_witness :
  (consistent (win_app ready_window) /\
   view_locs (win_app ready_window) !! 0 = Some 3 /\
   task_locs (win_app ready_window) !! 1 = Some 3 /\
   PyStr.strip "   " = "") /\
  exists w',
    edit_task titles_dumps (Some 0) (Some "   ") "2024-05-05T10:00:00"
      ready_window = (Done tt, w') /\
    win_app w' = win_app ready_window.
Proof.
  destruct ready_window_selection as [Hv Hi].
  split.
  - split; [exact ready_app_consistent|].
    split; [exact Hv|]. split; [exact Hi | reflexivity].
  - destruct (proj2 (proj2 (edit_task_leaves_store titles_dumps ready_window
                              "2024-05-05T10:00:00")
                       0 1 3 ready_app_consistent Hv Hi) "   " eq_refl)
      as [w' [Hrun [Happ _]]].
    exists w'. split; [exact Hrun | exact Happ].
Defined.

(** ** [delete_task] *)

Lemma pop_task_run (w : window) (i : nat) :
  i < length (task_locs (win_app w)) ->
  pop_task i w = (Done tt, set_win_app (popped i (win_app w)) w).
Proof.
  intros Hlt. unfold pop_task, wbind, wgets.
  apply Nat.ltb_lt in Hlt. rewrite Hlt. reflexivity.
Qed.

Lemma popped_sound (s : app) (i : nat) :
  consistent s ->
  tasks_is_list (popped i s) /\
  (forall u, In u (task_locs (popped i s)) ->
     record_sound (dict_at (heap (popped i s)) u)) /\
  NoDup (ids_of (popped i s)) /\
  collection (popped i s) = delete i (collection s).
Proof.
  intros [Hlist [Hs [Hnd _]]].
  pose proof (collection_popped i s Hlist) as Hc.
  split.
  { destruct Hlist as [xs Hxs]. eexists. unfold popped.
    cbn [heap tasks set_heap].
    apply list_lookup_insert_eq. eapply lookup_lt_Some, Hxs. }
  split.
  { intros u Hu. rewrite task_locs_popped in Hu by exact Hlist.
    rewrite dict_at_popped by exact Hlist. apply Hs.
    apply list_elem_of_In. eapply list_elem_of_delete_inv.
    apply list_elem_of_In. exact Hu. }
  split; [|exact Hc].
  unfold ids_of. rewrite Hc, map_delete.
  eapply sublist_NoDup; [exact Hnd | apply sublist_delete].
Qed.

Section Delete.

Variable json_dumps : list dict -> string.

Lemma delete_task_run (w : window) (idx i : nat) (t : loc) :
  consistent (win_app w) ->
  view_locs (win_app w) !! idx = Some t ->
  task_locs (win_app w) !! i = Some t ->
  delete_task json_dumps (Some idx) true w
  = (Done tt,
     set_win_app
       (counted (refreshed (saved json_dumps (popped i (win_app w)))))
       (set_win_notices
          (win_notices w
           ++ [ConfirmRemove
                 (VStr (title_of (dict_at (heap (win_app w)) t))) true]) w)).
Proof.
  intros Hc Hv Hi.
  pose proof Hc as [Hlist [Hs _]].
  assert (Hin : In t (task_locs (win_app w)))
    by (apply list_elem_of_In; eapply list_elem_of_lookup_2, Hi).
  unfold delete_task, wbind at 1.
  rewrite (get_selected_run w idx i t Hc Hv Hi).
  unfold wbind at 1, wgets at 1. unfold wbind at 1, lift_res at 1.
  rewrite (has_title_getitem _ (proj1 (Hs t Hin))).
  unfold wbind at 1, notify at 1. unfold wbind at 1.
  rewrite pop_task_run
    by (cbn [win_app set_win_notices]; eapply lookup_lt_Some, Hi).
  cbn [win_app set_win_notices].
  apply (save_refresh_stats_run json_dumps (popped i (win_app w))
           (set_win_notices _ w)).
  apply sound_well_formed. apply (popped_sound (win_app w) i Hc).
Qed.

(** X4. On a consistent window, [delete_task] asks for confirmation
    naming the selected task. Confirmed, it removes the record of that
    task from the collection, and no other (the rest keep their order),
    saves, and leaves the window consistent; the [id] removed is no
    longer in the collection. Declined, it changes nothing of the
    application object and saves nothing. *)
Theorem delete_task_removes_selected (w : window) (idx i : nat) (t : loc) :
  consistent (win_app w) ->
  view_locs (win_app w) !! idx = Some t ->
  task_locs (win_app w) !! i = Some t ->
  (exists w', delete_task json_dumps (Some idx) true w = (Done tt, w') /\
     collection (win_app w') = delete i (collection (win_app w)) /\
     length (collection (win_app w')) = pred (length (collection (win_app w))) /\
     ~ In (dict_at (heap (win_app w)) t !! "id") (ids_of (win_app w')) /\
     consistent (win_app w') /\
     (can_write (disk (win_app w)) DATA_FILE = true ->
        file_text (disk (win_app w')) DATA_FILE
        = Some (json_dumps (collection (win_app w'))))) /\
  (exists w', delete_task json_dumps (Some idx) false w = (Done tt, w') /\
     win_app w' = win_app w /\
     win_notices w'
     = (win_notices w
        ++ [ConfirmRemove (VStr (title_of (dict_at (heap (win_app w)) t)))
              false])%list).
Proof.
  intros Hc Hv Hi.
  pose proof Hc as [Hlist [Hs [Hnd _]]].
  assert (Hin : In t (task_locs (win_app w)))
    by (apply list_elem_of_In; eapply list_elem_of_lookup_2, Hi).
  split.
  - destruct (popped_sound (win_app w) i Hc) as [Hlist1 [Hs1 [Hnd1 Hc1]]].
    set (s1 := popped i (win_app w)) in *.
    eexists. split; [apply (delete_task_run w idx i t Hc Hv Hi)|].
    fold s1. cbn [win_app set_win_app].
    assert (Hcol : collection (counted (refreshed (saved json_dumps s1)))
                   = delete i (collection (win_app w))).
    { rewrite collection_counted, collection_refreshed, collection_saved.
      - exact Hc1.
      - apply saved_is_list, Hlist1. }
    split; [exact Hcol|].
    split.
    { rewrite Hcol, length_delete; [lia|].
      unfold collection. fold (task_locs (win_app w)).
      rewrite map_lookup, Hi. eexists. reflexivity. }
    split.
    { unfold ids_of. rewrite Hcol, map_delete. fold (ids_of (win_app w)).
      intros Hmem. apply list_elem_of_In in Hmem.
      assert (Hid : ids_of (win_app w) !! i
                    = Some (dict_at (heap (win_app w)) t !! "id")).
      { rewrite ids_of_locs, map_lookup, Hi. reflexivity. }
      rewrite delete_take_drop in Hmem.
      rewrite <- (take_drop_middle _ _ _ Hid) in Hnd.
      apply NoDup_app in Hnd. destruct Hnd as [_ [Hd1 Hd2]].
      apply NoDup_cons in Hd2. destruct Hd2 as [Hd2 _].
      apply elem_of_app in Hmem. destruct Hmem as [Hm|Hm].
      - apply (Hd1 _ Hm). left.
      - exact (Hd2 Hm). }
    split.
    { apply counted_refreshed_consistent.
      - apply saved_is_list, Hlist1.
      - apply saved_sound, Hs1.
      - rewrite (ids_of_eq s1) by apply collection_saved. exact Hnd1. }
    intros Hw. rewrite Hcol, <- Hc1.
    change (disk (counted (refreshed (saved json_dumps s1))))
      with (disk (saved json_dumps s1)).
    apply (saved_writes json_dumps s1). exact Hw.
  - eexists. split.
    + unfold delete_task, wbind at 1.
      rewrite (get_selected_run w idx i t Hc Hv Hi).
      unfold wbind at 1, wgets at 1. unfold wbind at 1, lift_res at 1.
      rewrite (has_title_getitem _ (proj1 (Hs t Hin))).
      unfold wbind, notify, wret. reflexivity.
    + split; reflexivity.
Qed.

End Delete.

Lemma delete_task_removes_selected_witness :
  (consistent (win_app ready_window) /\
   view_locs (win_app ready_window) !! 0 = Some 3 /\
   task_locs (win_app ready_window) !! 1 = Some 3) /\
  exists w',
    delete_task titles_dumps (Some 0) true ready_window = (Done tt, w') /\
    map title_of (collection (win_app w')) = ["banana"; "cherry"].
Proof.
  destruct ready_window_selection as [Hv Hi].
  split; [split; [exact ready_app_consistent | split; [exact Hv | exact Hi]]|].
  destruct (proj1 (delete_task_removes_selected titles_dumps ready_window
                     0 1 3 ready_app_consistent Hv Hi))
    as [w' [Hrun [Hc _]]].
  exists w'. split; [exact Hrun|]. rewrite Hc. vm_compute. reflexivity.
Defined.

(** ** [_get_selected_task] *)

(** X5. [_get_selected_task] never changes the window. Without a
    selection it returns [None]; a selected position outside the view
    raises [IndexError]. When the selected record and every task have an
    [id], it returns the first task in store order whose [id] equals the
    selected record's, with its position (so, with a duplicated [id],
    not always the task selected), or [None] when there is none. When
    the first task of the store, or the selected record, has no [id], it
    raises [KeyError]. *)
Theorem get_selected_task_finds_first_id (w : window) :
  _get_selected_task None w = (Done None, w) /\
  (forall idx : nat,
     view_locs (win_app w) !! idx = None ->
     _get_selected_task (Some idx) w = (Failed IndexError, w)) /\
  (forall (idx : nat) (t : loc),
     view_locs (win_app w) !! idx = Some t ->
     (forall u, In u (task_locs (win_app w)) ->
        has_id (dict_at (heap (win_app w)) u)) ->
     has_id (dict_at (heap (win_app w)) t) ->
     (exists (k : nat) (t' : loc),
         _get_selected_task (Some idx) w = (Done (Some (k, t')), w) /\
         task_locs (win_app w) !! k = Some t' /\
         dict_at (heap (win_app w)) t' !! "id"
         = dict_at (heap (win_app w)) t !! "id" /\
         forall (j : nat) (u : loc),
           j < k -> task_locs (win_app w) !! j = Some u ->
           dict_at (heap (win_app w)) u !! "id"
           <> dict_at (heap (win_app w)) t !! "id")
     \/ (_get_selected_task (Some idx) w = (Done None, w) /\
         forall u, In u (task_locs (win_app w)) ->
           dict_at (heap (win_app w)) u !! "id"
           <> dict_at (heap (win_app w)) t !! "id")) /\
  (forall (idx : nat) (t u : loc) (rest : list loc),
     view_locs (win_app w) !! idx = Some t ->
     task_locs (win_app w) = u :: rest ->
     dict_at (heap (win_app w)) u !! "id" = None
     \/ dict_at (heap (win_app w)) t !! "id" = None ->
     _get_selected_task (Some idx) w = (Failed (Exn (KeyError "id")), w)).
Proof.
  split; [reflexivity|]. split; [|split].
  - intros idx Hv. unfold _get_selected_task, wbind, wgets. rewrite Hv.
    reflexivity.
  - intros idx t Hv Hids Ht.
    unfold _get_selected_task, wbind, wgets. rewrite Hv. unfold lift_res.
    destruct (find_task_first (heap (win_app w)) t (task_locs (win_app w)) 0
                Hids Ht) as [[k [t' [Hf [Hk [Hid Hmin]]]]]|[Hf Hno]].
    + left. exists k, t'. rewrite Hf. simpl.
      split; [reflexivity|]. split; [exact Hk|]. split; [exact Hid|exact Hmin].
    + right. rewrite Hf. split; [reflexivity | exact Hno].
  - intros idx t u rest Hv Hl Hno.
    unfold _get_selected_task, wbind, wgets. rewrite Hv, Hl. unfold lift_res.
    simpl. unfold getitem.
    destruct (dict_at (heap (win_app w)) u !! "id") as [a|]; [|reflexivity].
    destruct Hno as [Hno|Hno]; [discriminate|]. rewrite Hno. reflexivity.
Qed.

Lemma get_selected_task_finds_first_id_witness :
  (view_locs (win_app ready_window) !! 0 = Some 3 /\
   (forall u, In u (task_locs (win_app ready_window)) ->
      has_id (dict_at (heap (win_app ready_window)) u)) /\
   has_id (dict_at (heap (win_app ready_window)) 3)) /\
  _get_selected_task (Some 0) ready_window = (Done (Some (1, 3)), ready_window).
Proof.
  assert (Hv : view_locs (win_app ready_window) !! 0 = Some 3)
    by (vm_compute; reflexivity).
  assert (Hids : forall u, In u (task_locs (win_app ready_window)) ->
                   has_id (dict_at (heap (win_app ready_window)) u)).
  { intros u Hu. destruct ready_app_consistent as [_ [Hs _]].
    apply (Hs u Hu). }
  assert (Ht : has_id (dict_at (heap (win_app ready_window)) 3)).
  { apply Hids. vm_compute. right. left. reflexivity. }
  split; [split; [exact Hv | split; [exact Hids | exact Ht]]|].
  destruct (proj1 (proj2 (proj2 (get_selected_task_finds_first_id ready_window)))
              0 3 Hv Hids Ht) as [[k [t' [Hrun _]]]|[Hrun _]].
  - assert (E : _get_selected_task (Some 0) ready_window
                = (Done (Some (1, 3)), ready_window))
      by (vm_compute; reflexivity).
    rewrite Hrun. rewrite Hrun in E. exact E.
  - assert (E : _get_selected_task (Some 0) ready_window
                = (Done (Some (1, 3)), ready_window))
      by (vm_compute; reflexivity).
    rewrite Hrun in E. discriminate.
Defined.

(** ** [_toggle_sort] and the search field *)

Lemma other_mode_twice (md : mode) : other_mode (other_mode md) = md.
Proof. destruct md; reflexivity. Qed.

Lemma toggle_sort_run (w : window) :
  consistent (win_app w) ->
  _toggle_sort w
  = (Done tt,
     set_win_app
       (refreshed (set_sort_mode (other_mode (sort_mode (win_app w)))
                     (win_app w)))
       (set_win_sort_btn (other_mode (sort_mode (win_app w))) w)).
Proof.
  intros [_ [Hs _]].
  assert (Hwf : forall md, tasks_well_formed (set_sort_mode md (win_app w))).
  { intros md. apply sound_well_formed. exact Hs. }
  unfold _toggle_sort, wbind at 1, wgets at 1.
  destruct (sort_mode (win_app w)) eqn:Hm; cbn [other_mode];
    unfold wbind, lift_app, modify; cbn [win_app set_win_app set_win_sort_btn];
    rewrite refresh_listbox_run by apply Hwf; reflexivity.
Qed.

Lemma mode_changed_consistent (s : app) (md : mode) :
  consistent s -> consistent (refreshed (set_sort_mode md s)).
Proof.
  intros [Hlist [Hs [Hnd [_ [_ Hst]]]]].
  apply refreshed_consistent; assumption.
Qed.

Lemma search_changed_consistent (s : app) (q : string) :
  consistent s -> consistent (refreshed (set_search_var q s)).
Proof.
  intros [Hlist [Hs [Hnd [_ [_ Hst]]]]].
  apply refreshed_consistent; assumption.
Qed.

(** X6. On a consistent window, [_toggle_sort] takes the sort mode to
    the other one and the button's text with it, leaves the collection
    and the disk alone, and shows the same tasks in the order of the new
    mode; the window stays consistent. Toggling again brings back the
    former mode and the former view. *)
Theorem toggle_sort_switches_and_returns (w : window) :
  consistent (win_app w) ->
  exists w', _toggle_sort w = (Done tt, w') /\
    sort_mode (win_app w') = other_mode (sort_mode (win_app w)) /\
    win_sort_btn w' = sort_mode (win_app w') /\
    collection (win_app w') = collection (win_app w) /\
    disk (win_app w') = disk (win_app w) /\
    Permutation (view_locs (win_app w')) (view_locs (win_app w)) /\
    consistent (win_app w') /\
    exists w'', _toggle_sort w' = (Done tt, w'') /\
      sort_mode (win_app w'') = sort_mode (win_app w) /\
      view_locs (win_app w'') = view_locs (win_app w).
Proof.
  intros Hc. pose proof Hc as [Hlist [Hs [Hnd [Hv _]]]].
  set (md' := other_mode (sort_mode (win_app w))).
  set (s1 := refreshed (set_sort_mode md' (win_app w))).
  assert (Hc1 : consistent s1) by (apply mode_changed_consistent, Hc).
  eexists. split; [apply toggle_sort_run, Hc|].
  fold md'. fold s1. cbn [win_app set_win_app win_sort_btn set_win_sort_btn].
  split; [reflexivity|]. split; [reflexivity|].
  split; [apply (collection_refreshed (set_sort_mode md' (win_app w))), Hlist|].
  split; [reflexivity|].
  split.
  { unfold s1. rewrite view_locs_refreshed, Hv.
    rewrite (ordered_perm (set_sort_mode md' (win_app w))).
    rewrite (ordered_perm (win_app w)). reflexivity. }
  split; [exact Hc1|].
  eexists. split.
  { apply (toggle_sort_run (set_win_app s1 (set_win_sort_btn md' w))). exact Hc1. }
  cbn [win_app set_win_app].
  change (sort_mode s1) with md'. unfold md' at 1 2.
  rewrite other_mode_twice.
  split; [reflexivity|].
  rewrite view_locs_refreshed, Hv.
  apply ordered_eq; try reflexivity.
  - change (task_locs (set_sort_mode (sort_mode (win_app w)) s1))
      with (task_locs s1).
    unfold s1. apply (task_locs_refreshed (set_sort_mode md' (win_app w))), Hlist.
  - intros t _.
    change (heap (set_sort_mode (sort_mode (win_app w)) s1)) with (heap s1).
    unfold s1. rewrite dict_at_refreshed. reflexivity.
  - intros t _.
    change (heap (set_sort_mode (sort_mode (win_app w)) s1)) with (heap s1).
    unfold s1. rewrite dict_at_refreshed. reflexivity.
Qed.

Lemma toggle_sort_switches_and_returns_witness :
  consistent (win_app ready_window) /\
  exists w', _toggle_sort ready_window = (Done tt, w') /\
    sort_mode (win_app w') = Date /\
    Permutation (view_locs (win_app w')) (view_locs (win_app ready_window)).
Proof.
  split; [exact ready_app_consistent|].
  destruct (toggle_sort_switches_and_returns ready_window ready_app_consistent)
    as [w' [Hrun [Hm [_ [_ [_ [Hp _]]]]]]].
  exists w'. split; [exact Hrun|]. split; [exact Hm | exact Hp].
Defined.

Lemma write_search_run (w : window) (q : string) :
  consistent (win_app w) ->
  write_search q w
  = (Done tt, set_win_app (refreshed (set_search_var q (win_app w))) w).
Proof.
  intros [_ [Hs _]].
  unfold write_search, _on_search_changed, wbind, lift_app, modify.
  cbn [win_app set_win_app].
  rewrite refresh_listbox_run by (apply sound_well_formed; exact Hs).
  reflexivity.
Qed.

(** X7. On a consistent window, writing in the search field leaves the
    collection and the disk alone and keeps the window consistent; the
    view then holds tasks of the store only. Writing the empty text
    shows every task of the store, and writing back the former text
    brings back the former view. *)
Theorem write_search_filters_view_only (w : window) (q : string) :
  consistent (win_app w) ->
  exists w', write_search q w = (Done tt, w') /\
    search_var (win_app w') = q /\
    collection (win_app w') = collection (win_app w) /\
    disk (win_app w') = disk (win_app w) /\
    (forall t, In t (view_locs (win_app w')) -> In t (task_locs (win_app w))) /\
    (PyStr.strip q = "" ->
       Permutation (view_locs (win_app w')) (task_locs (win_app w))) /\
    consistent (win_app w') /\
    exists w'', write_search (search_var (win_app w)) w' = (Done tt, w'') /\
      view_locs (win_app w'') = view_locs (win_app w).
Proof.
  intros Hc. pose proof Hc as [Hlist [Hs [Hnd [Hv _]]]].
  set (s1 := refreshed (set_search_var q (win_app w))).
  assert (Hc1 : consistent s1) by (apply search_changed_consistent, Hc).
  eexists. split; [apply write_search_run, Hc|].
  fold s1. cbn [win_app set_win_app].
  split; [reflexivity|].
  split; [apply (collection_refreshed (set_search_var q (win_app w))), Hlist|].
  split; [reflexivity|].
  split.
  { intros t Ht. unfold s1 in Ht. rewrite view_locs_refreshed in Ht.
    apply (Permutation_in _ (ordered_perm _)) in Ht.
    apply filtered_incl in Ht. exact Ht. }
  split.
  { intros Hq. unfold s1. rewrite view_locs_refreshed.
    rewrite (ordered_perm (set_search_var q (win_app w))).
    unfold filtered, search_term. cbn [search_var set_search_var].
    rewrite Hq. reflexivity. }
  split; [exact Hc1|].
  eexists. split; [apply (write_search_run (set_win_app s1 w)); exact Hc1|].
  cbn [win_app set_win_app].
  rewrite view_locs_refreshed, Hv.
  apply ordered_eq; try reflexivity.
  - change (task_locs (set_search_var (search_var (win_app w)) s1))
      with (task_locs s1).
    unfold s1. apply (task_locs_refreshed (set_search_var q (win_app w))), Hlist.
  - intros t _.
    change (heap (set_search_var (search_var (win_app w)) s1)) with (heap s1).
    unfold s1. rewrite dict_at_refreshed. reflexivity.
  - intros t _.
    change (heap (set_search_var (search_var (win_app w)) s1)) with (heap s1).
    unfold s1. rewrite dict_at_refreshed. reflexivity.
Qed.

Lemma write_search_filters_view_only_witness :
  consistent (win_app ready_window) /\
  exists w', write_search "an" ready_window = (Done tt, w') /\
    map title_of (view (win_app w')) = ["banana"].
Proof.
  split; [exact ready_app_consistent|].
  destruct (write_search_filters_view_only ready_window "an"
              ready_app_consistent) as [w' [Hrun _]].
  exists w'. split; [exact Hrun|].
  assert (E : map title_of (view (win_app (snd (write_search "an" ready_window))))
              = ["banana"]) by (vm_compute; reflexivity).
  rewrite Hrun in E. exact E.
Defined.

(** ** [_manual_save] and [on_close] *)

Section SaveAndClose.

Variable json_dumps : list dict -> string.

(** X8. [_manual_save] always ends by telling the user that the tasks
    were saved. That holds when the data file could be written, and then
    it holds the collection; it also holds when the data file could not
    be opened for writing: the file is as it was, the error dialog of
    [save_tasks] has been shown, and the success notice follows it. The
    collection itself is never changed. *)
Theorem manual_save_always_reports_success (w : window) :
  exists w', _manual_save json_dumps w = (Done tt, w') /\
    win_notices w' = (win_notices w ++ [SavedOk])%list /\
    collection (win_app w') = collection (win_app w) /\
    (can_write (disk (win_app w)) DATA_FILE = true ->
       file_text (disk (win_app w')) DATA_FILE
       = Some (json_dumps (collection (win_app w))) /\
       dialogs (win_app w') = dialogs (win_app w)) /\
    (can_write (disk (win_app w)) DATA_FILE = false ->
       fs_files (disk (win_app w')) !! DATA_FILE
       = fs_files (disk (win_app w)) !! DATA_FILE /\
       dialogs (win_app w')
       = (dialogs (win_app w) ++ [ShowError (MsgSaveFailed OSError)])%list).
Proof.
  eexists. split.
  { unfold _manual_save, wbind, lift_app, notify.
    rewrite save_tasks_run. reflexivity. }
  cbn [win_app win_notices set_win_app set_win_notices].
  split; [reflexivity|]. split; [apply collection_saved|]. split.
  - intros Hw. apply saved_writes, Hw.
  - intros Hw. split; [apply saved_unwritable, Hw | apply saved_fails, Hw].
Qed.

(** X9. [on_close] saves and then closes the window in every case: when
    the data file can be written it holds the collection on exit; when
    it cannot, the window is closed all the same, after the error
    dialog, with the data file as it was. *)
Theorem on_close_saves_then_closes (w : window) :
  exists w', on_close json_dumps w = (Done tt, w') /\
    win_open w' = false /\
    (can_write (disk (win_app w)) DATA_FILE = true ->
       file_text (disk (win_app w')) DATA_FILE
       = Some (json_dumps (collection (win_app w)))) /\
    (can_write (disk (win_app w)) DATA_FILE = false ->
       fs_files (disk (win_app w')) !! DATA_FILE
       = fs_files (disk (win_app w)) !! DATA_FILE /\
       dialogs (win_app w')
       = (dialogs (win_app w) ++ [ShowError (MsgSaveFailed OSError)])%list).
Proof.
  eexists. split.
  { unfold on_close, wbind, lift_app. rewrite save_tasks_run. reflexivity. }
  cbn [win_app win_open set_win_app set_win_open].
  split; [reflexivity|]. split.
  - intros Hw. apply saved_writes, Hw.
  - intros Hw. split; [apply saved_unwritable, Hw | apply saved_fails, Hw].
Qed.

End SaveAndClose.

Lemma manual_save_always_reports_success_witness :
  can_write (disk (win_app readonly_window)) DATA_FILE = false /\
  exists w', _manual_save titles_dumps readonly_window = (Done tt, w') /\
    win_notices w' = [SavedOk] /\
    file_text (disk (win_app w')) DATA_FILE = Some "[old]".
Proof.
  assert (Hw : can_write (disk (win_app readonly_window)) DATA_FILE = false)
    by (vm_compute; reflexivity).
  split; [exact Hw|].
  destruct (manual_save_always_reports_success titles_dumps readonly_window)
    as [w' [Hrun [Hn [_ [_ Hfail]]]]].
  exists w'. split; [exact Hrun|]. split; [exact Hn|].
  destruct (Hfail Hw) as [Hf _].
  unfold file_text. rewrite Hf. vm_compute. reflexivity.
Defined.

Lemma on_close_saves_then_closes_witness :
  can_write (disk (win_app ready_window)) DATA_FILE = true /\
  exists w', on_close titles_dumps ready_window = (Done tt, w') /\
    win_open w' = false /\
    file_text (disk (win_app w')) DATA_FILE = Some "[banana,Apple,cherry]".
Proof.
  assert (Hw : can_write (disk (win_app ready_window)) DATA_FILE = true)
    by (vm_compute; reflexivity).
  split; [exact Hw|].
  destruct (on_close_saves_then_closes titles_dumps ready_window)
    as [w' [Hrun [Ho [Hok _]]]].
  exists w'. split; [exact Hrun|]. split; [exact Ho|].
  rewrite (Hok Hw). vm_compute. reflexivity.
Defined.

(** ** The view is computed without touching the store *)

Lemma same_store_refl (s : app) : same_store s s.
Proof.
  repeat (split; [reflexivity|]). exists []. simpl. rewrite app_nil_r.
  reflexivity.
Qed.

Lemma same_store_alloc (s s' : app) (xs : list loc) (f : loc) :
  same_store s s' ->
  same_store s (set_filtered_tasks f (set_heap (heap s' ++ [OList xs]) s')).
Proof.
  intros [H1 [H2 [H3 [H4 [H5 [H6 [H7 [ls Hh]]]]]]]].
  repeat (split; [assumption|]).
  exists (ls ++ [xs])%list. cbn [heap set_filtered_tasks set_heap].
  rewrite Hh, map_app, <- app_assoc. reflexivity.
Qed.

Lemma same_store_listbox (s s' : app) (lb : list row) :
  same_store s s' -> same_store s (set_listbox lb s').
Proof. intros H. exact H. Qed.

Lemma same_store_filtered (s s' : app) (f : loc) :
  same_store s s' -> same_store s (set_filtered_tasks f s').
Proof. intros H. exact H. Qed.

Lemma render_listbox_only (ts : list loc) (s : app) :
  exists lb, snd (render ts s) = set_listbox lb s.
Proof.
  revert s. induction ts as [|t ts IH]; intros s; simpl.
  - exists (listbox s). destruct s; reflexivity.
  - unfold bind, gets, lift, modify.
    destruct (render_row (heap s) t) as [r|e].
    + destruct (IH (set_listbox (listbox s ++ [r]) s)) as [lb Hlb].
      exists lb.
      destruct (render ts (set_listbox (listbox s ++ [r]) s)) as [[u|e] s'];
        simpl in *; rewrite Hlb; reflexivity.
    + exists (listbox s). destruct s; reflexivity.
Qed.

Lemma sort_tasks_store (l : loc) (s : app) :
  (exists e, _sort_tasks l s = (Raise e, s)) \/
  (exists r, _sort_tasks l s
             = (Ok (length (heap s)), set_heap (heap s ++ [OList r]) s)).
Proof.
  unfold _sort_tasks, bind, gets, lift, alloc.
  destruct (match sort_mode s with
            | Alpha => sorted (title_key (heap s)) false (list_at (heap s) l)
            | Date => sorted (date_key (heap s)) true (list_at (heap s) l)
            end) as [r|e].
  - right. exists r. reflexivity.
  - left. exists e. reflexivity.
Qed.

Lemma refresh_same_store (s : app) : same_store s (snd (refresh_listbox s)).
Proof.
  unfold refresh_listbox, bind at 1, gets at 1.
  unfold bind at 1, gets at 1. unfold bind at 1, gets at 1.
  unfold bind at 1.
  set (q := PyStr.lower (PyStr.strip (search_var s))).
  assert (Hstep : (exists e,
            (if PyStr.nonempty q
             then let! r := lift (filter_res (matches q (heap s))
                                    (list_at (heap s) (tasks s))) in
                  let! l := alloc (OList r) in
                  modify (set_filtered_tasks l)
             else let! l := alloc (OList (list_at (heap s) (tasks s))) in
                  modify (set_filtered_tasks l)) s = (Raise e, s))
          \/ (exists xs,
            (if PyStr.nonempty q
             then let! r := lift (filter_res (matches q (heap s))
                                    (list_at (heap s) (tasks s))) in
                  let! l := alloc (OList r) in
                  modify (set_filtered_tasks l)
             else let! l := alloc (OList (list_at (heap s) (tasks s))) in
                  modify (set_filtered_tasks l)) s
            = (Ok tt, set_filtered_tasks (length (heap s))
                        (set_heap (heap s ++ [OList xs]) s)))).
  { destruct (PyStr.nonempty q).
    - unfold bind, lift, alloc, modify.
      destruct (filter_res _ _) as [r|e].
      + right. exists r. reflexivity.
      + left. exists e. reflexivity.
    - right. eexists. reflexivity. }
  destruct Hstep as [[e ->]|[xs ->]]; [apply same_store_refl|].
  set (s1 := set_filtered_tasks (length (heap s))
               (set_heap (heap s ++ [OList xs]) s)).
  assert (H1 : same_store s s1)
    by (apply (same_store_alloc s s), same_store_refl).
  unfold bind at 1, gets at 1. unfold bind at 1.
  destruct (sort_tasks_store (filtered_tasks s1) s1) as [[e ->]|[r ->]];
    [exact H1|].
  unfold bind at 1, modify at 1. unfold bind at 1, modify at 1.
  unfold bind at 1, gets at 1. unfold bind at 1, gets at 1.
  match goal with
  | |- same_store s (snd (render ?ts ?st)) =>
      destruct (render_listbox_only ts st) as [lb ->]
  end.
  apply same_store_listbox, same_store_listbox.
  apply (same_store_alloc s s1), H1.
Qed.

Lemma dict_at_app_lists (h : list obj) (ls : list (list loc)) (t : loc) :
  dict_at (h ++ map OList ls) t = dict_at h t.
Proof.
  revert h. induction ls as [|xs ls IH]; intros h; simpl.
  - rewrite app_nil_r. reflexivity.
  - change (h ++ OList xs :: map OList ls)%list
      with (h ++ [OList xs] ++ map OList ls)%list.
    rewrite app_assoc, IH. apply dict_at_app_list.
Qed.

Lemma same_store_collection (s s' : app) :
  tasks_is_list s -> same_store s s' ->
  task_locs s' = task_locs s /\ collection s' = collection s /\
  tasks_is_list s'.
Proof.
  intros [xs Hxs] [Ht [_ [_ [_ [_ [_ [_ [ls Hh]]]]]]]].
  assert (Hl : task_locs s' = task_locs s).
  { unfold task_locs. rewrite Ht, Hh.
    apply list_at_app_old. eapply lookup_lt_Some, Hxs. }
  split; [exact Hl|]. split.
  - unfold collection. fold (task_locs s') (task_locs s). rewrite Hl.
    apply map_ext. intros t. rewrite Hh. apply dict_at_app_lists.
  - exists xs. rewrite Ht, Hh.
    rewrite lookup_app_l by (eapply lookup_lt_Some, Hxs). exact Hxs.
Qed.

(** X10. [refresh_listbox] is a read of the store whatever its outcome,
    an exception included: the store's list and collection, the disk,
    the dialogs, the sort mode, the search text and the counters are,
    after the call, what they were before it. *)
Theorem refresh_listbox_reads_only (s : app) :
  tasks_is_list s ->
  tasks (snd (refresh_listbox s)) = tasks s /\
  task_locs (snd (refresh_listbox s)) = task_locs s /\
  collection (snd (refresh_listbox s)) = collection s /\
  disk (snd (refresh_listbox s)) = disk s /\
  dialogs (snd (refresh_listbox s)) = dialogs s /\
  sort_mode (snd (refresh_listbox s)) = sort_mode s /\
  search_var (snd (refresh_listbox s)) = search_var s /\
  stats_label (snd (refresh_listbox s)) = stats_label s.
Proof.
  intros Hlist. pose proof (refresh_same_store s) as Hss.
  destruct (same_store_collection _ _ Hlist Hss) as [Hl [Hc _]].
  destruct Hss as [H1 [H2 [H3 [H4 [H5 [_ [H7 _]]]]]]].
  repeat (split; [assumption|]). exact H7.
Qed.

Lemma refresh_listbox_reads_only_witness :
  tasks_is_list (app_of Date "" [ ∅ ]) /\
  fst (refresh_listbox (app_of Date "" [ ∅ ])) = Raise (KeyError "title") /\
  collection (snd (refresh_listbox (app_of Date "" [ ∅ ])))
  = collection (app_of Date "" [ ∅ ]).
Proof.
  assert (Hl : tasks_is_list (app_of Date "" [ ∅ ]))
    by (eexists; reflexivity).
  split; [exact Hl|]. split; [vm_compute; reflexivity|].
  exact (proj1 (proj2 (proj2 (refresh_listbox_reads_only _ Hl)))).
Defined.

(** ** A record without a title *)

Lemma filter_res_raises {B} (p : B -> res bool) (e : exn) (l : list B) :
  (forall x, In x l -> p x = Raise e \/ exists b, p x = Ok b) ->
  (exists u, In u l /\ p u = Raise e) ->
  filter_res p l = Raise e.
Proof.
  induction l as [|x l IH]; intros Hall [u [Hu He]]; [destruct Hu|].
  simpl. destruct (Hall x (or_introl eq_refl)) as [Hx|[b Hx]]; rewrite Hx.
  - reflexivity.
  - simpl. rewrite IH; [reflexivity | |].
    + intros y Hy. apply Hall. right. exact Hy.
    + destruct Hu as [<-|Hu]; [congruence|]. exists u. split; assumption.
Qed.

Lemma map_res_raises {B C} (f : B -> res C) (e : exn) (l : list B) :
  (forall x, In x l -> f x = Raise e \/ exists y, f x = Ok y) ->
  (exists u, In u l /\ f u = Raise e) ->
  map_res f l = Raise e.
Proof.
  induction l as [|x l IH]; intros Hall [u [Hu He]]; [destruct Hu|].
  simpl. destruct (Hall x (or_introl eq_refl)) as [Hx|[y Hx]]; rewrite Hx.
  - reflexivity.
  - simpl. rewrite IH; [reflexivity | |].
    + intros z Hz. apply Hall. right. exact Hz.
    + destruct Hu as [<-|Hu]; [congruence|]. exists u. split; assumption.
Qed.

Lemma render_raises (e : exn) (ts : list loc) (s : app) :
  (forall t, In t ts ->
     render_row (heap s) t = Raise e \/ exists r, render_row (heap s) t = Ok r) ->
  (exists u, In u ts /\ render_row (heap s) u = Raise e) ->
  fst (render ts s) = Raise e.
Proof.
  revert s. induction ts as [|t ts IH]; intros s Hall [u [Hu He]];
    [destruct Hu|].
  simpl. unfold bind, gets, lift, modify.
  destruct (Hall t (or_introl eq_refl)) as [Ht|[r Ht]]; rewrite Ht.
  - reflexivity.
  - specialize (IH (set_listbox (listbox s ++ [r]) s)).
    destruct (render ts (set_listbox (listbox s ++ [r]) s)) as [o s'].
    simpl in IH. rewrite IH; [destruct o; reflexivity | |].
    + intros z Hz. apply Hall. right. exact Hz.
    + destruct Hu as [<-|Hu]; [congruence|]. exists u. split; assumption.
Qed.

Lemma title_read_cases (h : list obj) (q : string) (t : loc) :
  (forall b, dict_at h t !! "title" <> Some (VBool b)) ->
  (dict_at h t !! "title" = None /\
   matches q h t = Raise (KeyError "title") /\
   title_key h t = Raise (KeyError "title") /\
   render_row h t = Raise (KeyError "title"))
  \/ ((exists b, matches q h t = Ok b) /\
      (exists y, title_key h t = Ok y) /\
      (exists r, render_row h t = Ok r)).
Proof.
  intros Hstr. unfold matches, title_key, render_row, getitem.
  destruct (dict_at h t !! "title") as [[x|b]|].
  - right. simpl. repeat split; eexists; reflexivity.
  - destruct (Hstr b eq_refl).
  - left. repeat split.
Qed.

(** X11. When some task record has no [title], the other titles being
    [str] (and, in date mode, each [created_at] absent or a [str]),
    [refresh_listbox] raises [KeyError] for ['title'], in either sort
    mode and with any search text: the view of such a store cannot be
    shown. *)
Theorem refresh_listbox_needs_titles (s : app) (u : loc) :
  (forall t, In t (task_locs s) ->
     forall b, dict_at (heap s) t !! "title" <> Some (VBool b)) ->
  (sort_mode s = Date ->
     forall t, In t (task_locs s) -> date_is_str (dict_at (heap s) t)) ->
  In u (task_locs s) -> dict_at (heap s) u !! "title" = None ->
  fst (refresh_listbox s) = Raise (KeyError "title").
Proof.
  intros Hstr Hdate Hu Hnone.
  assert (Hcase : forall q h, (forall t, dict_at h t = dict_at (heap s) t) ->
            forall t, In t (task_locs s) ->
              (matches q h t = Raise (KeyError "title") \/
               exists b, matches q h t = Ok b) /\
              (title_key h t = Raise (KeyError "title") \/
               exists y, title_key h t = Ok y) /\
              (render_row h t = Raise (KeyError "title") \/
               exists r, render_row h t = Ok r)).
  { intros q h Hh t Ht.
    destruct (title_read_cases h q t) as [[_ [H1 [H2 H3]]]|[H1 [H2 H3]]].
    - rewrite Hh. apply Hstr, Ht.
    - repeat split; left; assumption.
    - repeat split; right; assumption. }
  assert (Hbad : forall q h, (forall t, dict_at h t = dict_at (heap s) t) ->
            matches q h u = Raise (KeyError "title") /\
            title_key h u = Raise (KeyError "title") /\
            render_row h u = Raise (KeyError "title")).
  { intros q h Hh.
    destruct (title_read_cases h q u) as [[_ H]|[_ [_ [r Hr]]]].
    - rewrite Hh. apply Hstr, Hu.
    - exact H.
    - unfold render_row, getitem in Hr. rewrite Hh, Hnone in Hr.
      discriminate. }
  unfold refresh_listbox, bind at 1, gets at 1.
  unfold bind at 1, gets at 1. unfold bind at 1, gets at 1.
  unfold bind at 1.
  set (q := PyStr.lower (PyStr.strip (search_var s))).
  destruct (PyStr.nonempty q) eqn:Hq.
  - unfold bind at 1, lift at 1.
    rewrite (filter_res_raises _ (KeyError "title")); [reflexivity | |].
    + intros t Ht. apply (Hcase q (heap s) (fun _ => eq_refl) t Ht).
    + exists u. split; [exact Hu|].
      apply (Hbad q (heap s) (fun _ => eq_refl)).
  - unfold bind at 1, alloc at 1. unfold modify at 1.
    set (h1 := (heap s ++ [OList (list_at (heap s) (tasks s))])%list).
    set (s1 := set_filtered_tasks (length (heap s)) (set_heap h1 s)).
    assert (Hh1 : forall t, dict_at h1 t = dict_at (heap s) t)
      by (intros t; apply dict_at_app_list).
    assert (Hl1 : list_at (heap s1) (filtered_tasks s1) = task_locs s)
      by apply list_at_app_new.
    unfold bind at 1, gets at 1. unfold bind at 1.
    unfold _sort_tasks, bind at 1, gets at 1. unfold bind at 1, gets at 1.
    unfold bind at 1, lift at 1. rewrite Hl1.
    change (sort_mode s1) with (sort_mode s). change (heap s1) with h1.
    destruct (sort_mode s) eqn:Hm.
    + unfold sorted.
      rewrite (map_res_raises _ (KeyError "title")); [reflexivity | |].
      * intros t Ht. apply (Hcase q h1 Hh1 t Ht).
      * exists u. split; [exact Hu | apply (Hbad q h1 Hh1)].
    + rewrite (sorted_str (created_at (heap s))).
      2: { intros t Ht. unfold date_key. rewrite Hh1.
           apply (date_key_ok (heap s)), (Hdate eq_refl t Ht). }
      unfold alloc. unfold bind at 1, modify at 1. unfold bind at 1, modify at 1.
      unfold bind at 1, gets at 1. unfold bind at 1, gets at 1.
      cbn [heap filtered_tasks set_listbox set_filtered_tasks set_heap].
      rewrite list_at_app_new.
      set (r := sorted_by (created_at (heap s)) true (task_locs s)).
      assert (Hh2 : forall t, dict_at (h1 ++ [OList r]) t = dict_at (heap s) t)
        by (intros t; rewrite dict_at_app_list; apply Hh1).
      apply render_raises.
      * intros t Ht. cbn [heap set_listbox set_filtered_tasks set_heap].
        apply (Hcase q _ Hh2 t).
        apply (Permutation_in _
                 (sorted_by_perm (created_at (heap s)) true (task_locs s))), Ht.
      * exists u. split.
        -- apply (Permutation_in _
                    (Permutation_sym
                       (sorted_by_perm (created_at (heap s)) true
                          (task_locs s)))), Hu.
        -- cbn [heap set_listbox set_filtered_tasks set_heap].
           apply (Hbad q _ Hh2).
Qed.

Lemma refresh_listbox_needs_titles_witness :
  ((forall t, In t (task_locs (app_of Date "" [ ∅ ])) ->
      forall b, dict_at (heap (app_of Date "" [ ∅ ])) t !! "title"
                <> Some (VBool b)) /\
   In 2 (task_locs (app_of Date "" [ ∅ ])) /\
   dict_at (heap (app_of Date "" [ ∅ ])) 2 !! "title" = None) /\
  fst (refresh_listbox (app_of Date "" [ ∅ ])) = Raise (KeyError "title").
Proof.
  assert (H1 : forall t, In t (task_locs (app_of Date "" [ ∅ ])) ->
             forall b, dict_at (heap (app_of Date "" [ ∅ ])) t !! "title"
                       <> Some (VBool b)).
  { intros t [<-|[]] b. vm_compute. discriminate. }
  assert (H2 : In 2 (task_locs (app_of Date "" [ ∅ ])))
    by (left; reflexivity).
  assert (H3 : dict_at (heap (app_of Date "" [ ∅ ])) 2 !! "title" = None)
    by reflexivity.
  split; [split; [exact H1 | split; [exact H2 | exact H3]]|].
  apply (refresh_listbox_needs_titles _ 2 H1); [|exact H2 | exact H3].
  intros _ t [<-|[]] b. vm_compute. discriminate.
Defined.

(** ** [add_task] stores the task before it refreshes *)

Lemma collection_inserted_dicts (d : dict) (s : app) :
  tasks_is_list s ->
  (forall t, In t (task_locs s) -> exists d0, heap s !! t = Some (ODict d0)) ->
  collection (inserted d s) = d :: collection s.
Proof.
  intros Hlist Hd. unfold collection.
  rewrite (task_locs_inserted d s Hlist). cbn [map].
  rewrite (dict_at_inserted_new d s Hlist). f_equal.
  apply map_ext_in. intros t Ht. destruct (Hd t Ht) as [d0 Hd0].
  destruct Hlist as [xs Hxs].
  unfold inserted, dict_at. cbn [heap set_entry_task set_heap].
  rewrite list_lookup_insert_ne by (intros E; rewrite E in Hxs; congruence).
  rewrite lookup_app_l by (eapply lookup_lt_Some, Hd0). reflexivity.
Qed.

Section AddTaskOrder.

Variable json_dumps : list dict -> string.

(** X12. For an entry that strips to a non-empty title, on any store
    whose tasks are dict objects (whatever their fields), [add_task]
    has put the new record first in the collection, saved the new
    collection and cleared the entry field by the time it refreshes the
    view: that holds on return and also when the refresh raises. *)
Theorem add_task_stores_before_refresh (uuid now : string) (s : app) :
  tasks_is_list s ->
  (forall t, In t (task_locs s) -> exists d0, heap s !! t = Some (ODict d0)) ->
  PyStr.strip (entry_task s) <> "" ->
  let task := new_task uuid (PyStr.strip (entry_task s)) now in
  let s' := snd (add_task json_dumps uuid now s) in
  collection s' = task :: collection s /\
  entry_task s' = "" /\
  (can_write (disk s) DATA_FILE = true ->
     file_text (disk s') DATA_FILE = Some (json_dumps (task :: collection s))).
Proof.
  intros Hlist Hd Hne task s'.
  assert (Hne' : PyStr.nonempty (PyStr.strip (entry_task s)) = true).
  { destruct (PyStr.strip (entry_task s)); [contradiction | reflexivity]. }
  set (s2 := saved json_dumps (inserted task s)).
  assert (Hs' : s' = snd ((refresh_listbox ;;; _update_stats) s2)).
  { unfold s', add_task, bind at 1, gets at 1. rewrite Hne'. cbn [negb].
    unfold bind at 1, alloc at 1. unfold bind at 1, modify at 1.
    unfold bind at 1, modify at 1.
    match goal with
    | |- snd (_ ?x) = _ => change x with (inserted task s)
    end.
    unfold bind at 1. rewrite save_tasks_run. reflexivity. }
  assert (Hc2 : collection s2 = task :: collection s).
  { unfold s2. rewrite collection_saved.
    apply collection_inserted_dicts; assumption. }
  assert (Hl2 : tasks_is_list s2)
    by (apply saved_is_list, inserted_is_list, Hlist).
  pose proof (refresh_same_store s2) as Hss.
  destruct (same_store_collection _ _ Hl2 Hss) as [_ [Hc3 _]].
  destruct Hss as [_ [Hdisk [_ [_ [_ [Hentry _]]]]]].
  assert (Hfinal : collection s' = collection (snd (refresh_listbox s2)) /\
                   entry_task s' = entry_task (snd (refresh_listbox s2)) /\
                   disk s' = disk (snd (refresh_listbox s2))).
  { rewrite Hs'. unfold bind.
    destruct (refresh_listbox s2) as [[[]|e] s3]; repeat split. }
  destruct Hfinal as [-> [-> Hd']].
  split; [rewrite Hc3; exact Hc2|]. split.
  - rewrite Hentry. unfold s2.
    destruct (saved_rest json_dumps (inserted task s)) as [_ [_ [_ ->]]].
    reflexivity.
  - intros Hw. rewrite Hd', Hdisk. unfold s2.
    destruct (saved_writes json_dumps (inserted task s) Hw) as [Hf _].
    rewrite Hf. f_equal. f_equal.
    apply collection_inserted_dicts; assumption.
Qed.

End AddTaskOrder.

Lemma add_task_stores_before_refresh_witness :
  (tasks_is_list (set_entry_task "tea" (app_of Date "" [ ∅ ])) /\
   (forall t, In t (task_locs (set_entry_task "tea" (app_of Date "" [ ∅ ]))) ->
      exists d0, heap (set_entry_task "tea" (app_of Date "" [ ∅ ])) !! t
                 = Some (ODict d0)) /\
   PyStr.strip (entry_task (set_entry_task "tea" (app_of Date "" [ ∅ ]))) <> "") /\
  fst (add_task titles_dumps "id-1" "2024-05-04T10:00:00"
         (set_entry_task "tea" (app_of Date "" [ ∅ ])))
  = Raise (KeyError "title") /\
  file_text (disk (snd (add_task titles_dumps "id-1" "2024-05-04T10:00:00"
                          (set_entry_task "tea" (app_of Date "" [ ∅ ])))))
            DATA_FILE
  = Some "[tea,]".
Proof.
  assert (H1 : tasks_is_list (set_entry_task "tea" (app_of Date "" [ ∅ ])))
    by (eexists; reflexivity).
  assert (H2 : forall t,
             In t (task_locs (set_entry_task "tea" (app_of Date "" [ ∅ ]))) ->
             exists d0, heap (set_entry_task "tea" (app_of Date "" [ ∅ ])) !! t
                        = Some (ODict d0)).
  { intros t [<-|[]]. eexists. reflexivity. }
  assert (H3 : PyStr.strip (entry_task
                 (set_entry_task "tea" (app_of Date "" [ ∅ ]))) <> "")
    by (vm_compute; discriminate).
  split; [split; [exact H1 | split; [exact H2 | exact H3]]|].
  split; [vm_compute; reflexivity|].
  destruct (add_task_stores_before_refresh titles_dumps
              "id-1" "2024-05-04T10:00:00" _ H1 H2 H3) as [_ [_ Hf]].
  rewrite Hf by reflexivity. vm_compute. reflexivity.
Defined.

(** ** The backup after a corrupt load, and the round trip *)

Lemma open_write_readable (fs fs2 : fsys) (p : string) :
  open_write fs p = Ok fs2 ->
  (path_exists fs p = true -> can_read fs p = true) ->
  can_read fs2 p = true.
Proof.
  unfold open_write, path_exists, can_read. intros Ho Hr.
  destruct (fs_files fs !! p) as [f|].
  - destruct (f_writable f); [|discriminate]. injection Ho as <-.
    simpl. rewrite lookup_insert_eq. simpl. apply Hr. reflexivity.
  - destruct (fs_creatable fs); [|discriminate]. injection Ho as <-.
    simpl. rewrite lookup_insert_eq. reflexivity.
Qed.

Lemma write_text_readable (fs : fsys) (p txt : string) :
  can_read (write_text fs p txt) p = can_read fs p.
Proof.
  unfold can_read, write_text. simpl. rewrite lookup_alter_eq.
  destruct (fs_files fs !! p); reflexivity.
Qed.

Section Recovery.

Variable json_dumps : list dict -> string.
Variable json_loads : string -> res (list dict).

Lemma saved_readable (s : app) :
  can_write (disk s) DATA_FILE = true ->
  (path_exists (disk s) DATA_FILE = true -> can_read (disk s) DATA_FILE = true) ->
  can_read (disk (saved json_dumps s)) DATA_FILE = true.
Proof.
  intros Hw Hr. unfold saved.
  set (fs1 := if path_exists (disk s) DATA_FILE
              then backup_fs (disk s) else disk s).
  assert (Hsame : fs_files fs1 !! DATA_FILE = fs_files (disk s) !! DATA_FILE).
  { unfold fs1. destruct (path_exists (disk s) DATA_FILE); [|reflexivity].
    apply backup_fs_other, data_backup_distinct. }
  assert (Hw1 : can_write fs1 DATA_FILE = true).
  { unfold fs1. destruct (path_exists (disk s) DATA_FILE); [|exact Hw].
    rewrite can_write_backup_fs. exact Hw. }
  destruct (open_write_ok fs1 DATA_FILE Hw1) as [fs2 [Ho _]].
  rewrite Ho. cbn [disk set_disk]. rewrite write_text_readable.
  apply (open_write_readable fs1 fs2 DATA_FILE Ho).
  unfold path_exists, can_read in *. rewrite Hsame. exact Hr.
Qed.

(** X13. When the decoder raises [JSONDecodeError] on the text of the
    data file and the backup file can be written, [load_tasks] leaves
    the corrupt text in the backup file, in place of whatever the backup
    held: its recovery save copies the data file to [.bak] before
    overwriting it. *)
Theorem corrupt_load_overwrites_backup (s : app) (txt : string) :
  can_read (disk s) DATA_FILE = true ->
  file_text (disk s) DATA_FILE = Some txt ->
  json_loads txt = Raise JSONDecodeError ->
  can_write (disk s) BACKUP_FILE = true ->
  file_text (disk (snd (load_tasks json_dumps json_loads s))) BACKUP_FILE
  = Some txt.
Proof.
  intros Hr Ht Hj Hb. rewrite (load_corrupt _ _ s txt Hr Ht Hj). cbn [snd].
  apply (saved_backup json_dumps
           (reset (shown (ShowError MsgCorrupt) s)) txt); assumption.
Qed.

(** X14. A collection saved is the collection loaded: when the data
    file can be written (and, if it exists, read) and the JSON codec
    reads back what it writes for this collection, a window started on
    the disk that [save_tasks] left loads exactly this collection, with
    no dialog and without writing. *)
Theorem save_then_load_round_trip (s s0 : app) :
  can_write (disk s) DATA_FILE = true ->
  (path_exists (disk s) DATA_FILE = true -> can_read (disk s) DATA_FILE = true) ->
  json_loads (json_dumps (collection s)) = Ok (collection s) ->
  disk s0 = disk (snd (save_tasks json_dumps s)) ->
  fst (load_tasks json_dumps json_loads s0) = Ok tt /\
  collection (snd (load_tasks json_dumps json_loads s0)) = collection s /\
  dialogs (snd (load_tasks json_dumps json_loads s0)) = dialogs s0 /\
  disk (snd (load_tasks json_dumps json_loads s0)) = disk s0.
Proof.
  intros Hw Hr Hj Hd. rewrite save_tasks_run in Hd. cbn [snd] in Hd.
  assert (Hr0 : can_read (disk s0) DATA_FILE = true)
    by (rewrite Hd; apply saved_readable; assumption).
  assert (Ht0 : file_text (disk s0) DATA_FILE
                = Some (json_dumps (collection s)))
    by (rewrite Hd; apply saved_writes, Hw).
  rewrite (load_valid _ _ s0 _ (collection s) Hr0 Ht0 Hj). cbn [fst snd].
  split; [reflexivity|]. split; [apply collection_loaded|].
  split; reflexivity.
Qed.

End Recovery.

Lemma corrupt_load_overwrites_backup_witness :
  (can_read (disk (new_app (disk_with "{oops"))) DATA_FILE = true /\
   file_text (disk (new_app (disk_with "{oops"))) DATA_FILE = Some "{oops" /\
   empty_loads "{oops" = Raise JSONDecodeError /\
   can_write (disk (new_app (disk_with "{oops"))) BACKUP_FILE = true) /\
  file_text (disk (snd (load_tasks titles_dumps empty_loads
                          (new_app (disk_with "{oops"))))) BACKUP_FILE
  = Some "{oops".
Proof.
  assert (H : can_read (disk (new_app (disk_with "{oops"))) DATA_FILE = true /\
              file_text (disk (new_app (disk_with "{oops"))) DATA_FILE
              = Some "{oops" /\
              empty_loads "{oops" = Raise JSONDecodeError /\
              can_write (disk (new_app (disk_with "{oops"))) BACKUP_FILE = true)
    by (repeat split; vm_compute; reflexivity).
  split; [exact H|]. destruct H as [Hr [Ht [Hj Hb]]].
  exact (corrupt_load_overwrites_backup titles_dumps empty_loads
           (new_app (disk_with "{oops")) "{oops" Hr Ht Hj Hb).
Defined.

Lemma save_then_load_round_trip_witness :
  (can_write (disk stored_app) DATA_FILE = true /\
   can_read (disk stored_app) DATA_FILE = true /\
   fruit_loads (titles_dumps (collection stored_app))
   = Ok (collection stored_app)) /\
  map title_of
    (collection
       (snd (load_tasks titles_dumps fruit_loads
               (new_app (disk (snd (save_tasks titles_dumps stored_app)))))))
  = ["banana"; "Apple"; "cherry"].
Proof.
  assert (Hw : can_write (disk stored_app) DATA_FILE = true)
    by (vm_compute; reflexivity).
  assert (Hr : can_read (disk stored_app) DATA_FILE = true)
    by (vm_compute; reflexivity).
  assert (Hj : fruit_loads (titles_dumps (collection stored_app))
               = Ok (collection stored_app))
    by (vm_compute; reflexivity).
  split; [split; [exact Hw | split; [exact Hr | exact Hj]]|].
  rewrite (proj1 (proj2 (save_then_load_round_trip titles_dumps fruit_loads
                           stored_app
                           (new_app (disk (snd (save_tasks titles_dumps
                                                  stored_app))))
                           Hw (fun _ => Hr) Hj eq_refl))).
  vm_compute. reflexivity.
Defined.

(** ** Consistency is kept, and established at start *)

Lemma nodup_map_filter {B C} (f : B -> C) (p : B -> bool) (l : list B) :
  NoDup (map f l) -> NoDup (map f (List.filter p l)).
Proof.
  induction l as [|x l IH]; simpl; intros H; [exact H|].
  apply NoDup_cons in H. destruct H as [Hx Hl].
  destruct (p x); simpl; [|apply IH, Hl].
  apply NoDup_cons. split; [|apply IH, Hl].
  intros Hin. apply Hx. apply list_elem_of_In in Hin.
  apply list_elem_of_In. apply in_map_iff in Hin.
  destruct Hin as [y [Hy Hin]]. apply in_map_iff. exists y.
  split; [exact Hy|]. apply filter_In in Hin. apply Hin.
Qed.

Lemma new_task_sound (uuid title now : string) :
  record_sound (new_task uuid title now).
Proof.
  split; [exists title; reflexivity|].
  split; [intros b; discriminate | exists (VStr uuid); reflexivity].
Qed.

Lemma shown_consistent (d : dialog) (s : app) :
  consistent s -> consistent (shown d s).
Proof.
  intros [H1 [H2 [H3 [H4 [H5 H6]]]]].
  split; [exact H1|]. split; [exact H2|]. split; [exact H3|].
  split; [exact H4|]. split; [exact H5 | exact H6].
Qed.

Section KeptConsistent.

Variable json_dumps : list dict -> string.
Variable json_loads : string -> res (list dict).

(** X15. [add_task] keeps a consistent window consistent, provided
    [uuid4] drew an [id] no task has: the [id]s stay distinct. With an
    entry that strips to a non-empty title it returns, and the new [id]
    is put in front of the former ones. *)
Theorem add_task_keeps_consistent (uuid now : string) (s : app) :
  consistent s ->
  ~ In (Some (VStr uuid)) (ids_of s) ->
  consistent (snd (add_task json_dumps uuid now s)) /\
  (PyStr.strip (entry_task s) <> "" ->
     fst (add_task json_dumps uuid now s) = Ok tt /\
     ids_of (snd (add_task json_dumps uuid now s))
     = Some (VStr uuid) :: ids_of s).
Proof.
  intros Hc Hfresh. pose proof Hc as [Hlist [Hs [Hnd _]]].
  pose proof (sound_well_formed s Hs) as Hwf.
  destruct (PyStr.nonempty (PyStr.strip (entry_task s))) eqn:Hne.
  - rewrite (add_task_run json_dumps uuid now s Hlist Hwf Hne).
    cbn [fst snd].
    set (task := new_task uuid (PyStr.strip (entry_task s)) now).
    assert (Hc1 : collection (inserted task s) = task :: collection s)
      by (apply collection_inserted; assumption).
    assert (Hids : ids_of (saved json_dumps (inserted task s))
                   = Some (VStr uuid) :: ids_of s).
    { unfold ids_of. rewrite collection_saved, Hc1. reflexivity. }
    assert (Hl1 : tasks_is_list (saved json_dumps (inserted task s)))
      by (apply saved_is_list, inserted_is_list, Hlist).
    split.
    + apply counted_refreshed_consistent.
      * exact Hl1.
      * apply saved_sound. intros t Ht.
        unfold task_locs in Ht. rewrite task_locs_inserted in Ht by exact Hlist.
        destruct Ht as [<-|Ht].
        -- rewrite dict_at_inserted_new by exact Hlist. apply new_task_sound.
        -- rewrite dict_at_inserted_old by assumption. apply Hs, Ht.
      * rewrite Hids. apply NoDup_cons. split; [|exact Hnd].
        intros Hin. apply Hfresh, list_elem_of_In, Hin.
    + intros _. split; [reflexivity|].
      rewrite <- Hids. apply ids_of_eq.
      rewrite collection_counted. apply collection_refreshed, Hl1.
  - assert (Hrun : add_task json_dumps uuid now s
                   = (Ok tt, shown (ShowWarning MsgEmptyTask) s)).
    { unfold add_task, bind, gets. rewrite Hne. reflexivity. }
    rewrite Hrun. split; [apply shown_consistent, Hc|].
    intros Hne'. destruct (PyStr.strip (entry_task s)); [contradiction|].
    discriminate.
Qed.

(** X16. [clear_completed] keeps a consistent window consistent,
    whatever the user answers. *)
Theorem clear_completed_keeps_consistent (answer : bool) (s : app) :
  consistent s ->
  fst (clear_completed json_dumps answer s) = Ok tt /\
  consistent (snd (clear_completed json_dumps answer s)).
Proof.
  intros Hc. pose proof Hc as [Hlist [Hs [Hnd _]]].
  pose proof (sound_well_formed s Hs) as Hwf.
  destruct (Nat.eq_dec (length (List.filter is_completed (collection s))) 0)
    as [H0|Hn].
  - rewrite (clear_nothing json_dumps answer s H0).
    split; [reflexivity | apply shown_consistent, Hc].
  - destruct answer.
    + rewrite (clear_confirmed json_dumps s Hlist Hwf Hn). cbn [fst snd].
      split; [reflexivity|].
      set (s0 := shown (AskYesNo (MsgConfirmClear
                   (length (List.filter is_completed (collection s)))) true) s).
      apply shown_consistent.
      apply (counted_refreshed_consistent (saved json_dumps (cleared s0))).
      * apply saved_is_list, cleared_is_list.
      * apply saved_sound. intros t Ht. unfold cleared in *.
        unfold task_locs in Ht.
        cbn [heap tasks set_tasks set_heap] in *.
        rewrite list_at_app_new in Ht. apply filter_In in Ht.
        rewrite dict_at_app_list. apply Hs, Ht.
      * unfold ids_of. rewrite collection_saved, (collection_cleared s0).
        apply nodup_map_filter. exact Hnd.
    + rewrite (clear_declined json_dumps s Hn).
      split; [reflexivity | apply shown_consistent, Hc].
Qed.





End KeptConsistent.

Lemma typed_ready_app_fresh : ~ In (Some (VStr "id-4")) (ids_of typed_ready_app).
Proof.
  intros H. vm_compute in H.
  repeat (destruct H as [H|H]; [discriminate|]). destruct H.
Qed.

Lemma add_task_keeps_consistent_witness :
  (consistent typed_ready_app /\
   ~ In (Some (VStr "id-4")) (ids_of typed_ready_app) /\
   PyStr.strip (entry_task typed_ready_app) <> "") /\
  consistent (snd (add_task titles_dumps "id-4" "2024-05-04T10:00:00"
                     typed_ready_app)) /\
  ids_of (snd (add_task titles_dumps "id-4" "2024-05-04T10:00:00"
                 typed_ready_app))
  = Some (VStr "id-4") :: ids_of typed_ready_app.
Proof.
  assert (Hc : consistent typed_ready_app) by exact ready_app_consistent.
  assert (Hne : PyStr.strip (entry_task typed_ready_app) <> "")
    by (vm_compute; discriminate).
  split; [split; [exact Hc | split; [exact typed_ready_app_fresh | exact Hne]]|].
  destruct (add_task_keeps_consistent titles_dumps
              "id-4" "2024-05-04T10:00:00" typed_ready_app
              Hc typed_ready_app_fresh) as [Hc' Hids].
  split; [exact Hc' | exact (proj2 (Hids Hne))].
Defined.

Lemma chores_app_sound :
  forall t, In t (task_locs chores_app) ->
    record_sound (dict_at (heap chores_app) t).
Proof.
  intros t Ht. vm_compute in Ht.
  repeat (destruct Ht as [<-|Ht];
          [split; [eexists; vm_compute; reflexivity|];
           split; [intros b; vm_compute; discriminate
                  | eexists; vm_compute; reflexivity]|]).
  destruct Ht.
Qed.

Lemma chores_app_ids : NoDup (ids_of chores_app).
Proof.
  vm_compute.
  repeat (apply NoDup_cons_2;
          [rewrite ?elem_of_cons, elem_of_nil; intuition discriminate|]).
  apply NoDup_nil_2.
Qed.

Lemma chores_ready_app_consistent : consistent chores_ready_app.
Proof.
  apply counted_refreshed_consistent.
  - eexists. reflexivity.
  - exact chores_app_sound.
  - exact chores_app_ids.
Qed.

Lemma clear_completed_keeps_consistent_witness :
  consistent chores_ready_app /\
  consistent (snd (clear_completed titles_dumps true chores_ready_app)) /\
  map title_of (collection (snd (clear_completed titles_dumps true
                                   chores_ready_app)))
  = ["cook"].
Proof.
  split; [exact chores_ready_app_consistent|].
  split.
  - exact (proj2 (clear_completed_keeps_consistent titles_dumps true
                    chores_ready_app chores_ready_app_consistent)).
  - vm_compute. reflexivity.
Defined.



(** ** Toggling twice *)

Section ToggleTwice.

Variable json_dumps : list dict -> string.

Lemma toggled_state (w : window) (i : nat) (t : loc) (now : string) :
  consistent (win_app w) ->
  task_locs (win_app w) !! i = Some t ->
  let d := dict_at (heap (win_app w)) t in
  let s1 := counted (refreshed (saved json_dumps
              (updated t (toggled now d) (win_app w)))) in
  consistent s1 /\
  view_locs s1 = ordered (win_app w) /\
  task_locs s1 = task_locs (win_app w) /\
  dict_at (heap s1) t = toggled now d /\
  collection s1 = <[i := toggled now d]> (collection (win_app w)).
Proof.
  intros Hc Hi d s1. pose proof Hc as [Hlist [Hs [Hnd _]]].
  assert (Hin : In t (task_locs (win_app w)))
    by (apply list_elem_of_In; eapply list_elem_of_lookup_2, Hi).
  destruct (sound_allocated _ _ (Hs t Hin)) as [d0 Hd0].
  assert (Hne : tasks (win_app w) <> t).
  { destruct Hlist as [xs Hxs]. intros E. rewrite E in Hxs. congruence. }
  destruct (updated_sound (win_app w) t (toggled now d) i Hc Hi)
    as [Hlist1 [Hs1 [Hnd1 Hc1]]].
  { apply toggled_sound, Hs, Hin. }
  { apply toggled_other; discriminate. }
  set (s0 := updated t (toggled now d) (win_app w)) in *.
  assert (Hl0 : task_locs s0 = task_locs (win_app w))
    by (apply task_locs_updated; assumption).
  assert (Hls : tasks_is_list (saved json_dumps s0))
    by (apply saved_is_list, Hlist1).
  assert (Hheap : heap (saved json_dumps s0) = heap s0)
    by (destruct (saved_fields json_dumps s0) as [-> _]; reflexivity).
  split.
  { apply counted_refreshed_consistent.
    - exact Hls.
    - apply saved_sound, Hs1.
    - rewrite (ids_of_eq s0) by apply collection_saved. exact Hnd1. }
  split.
  { change (view_locs s1) with (view_locs (refreshed (saved json_dumps s0))).
    rewrite view_locs_refreshed.
    destruct (saved_fields json_dumps s0) as [_ [_ [Hm Hq]]].
    apply ordered_eq.
    - rewrite Hm. reflexivity.
    - rewrite Hq. reflexivity.
    - rewrite task_locs_saved. exact Hl0.
    - intros u Hu. rewrite Hheap.
      destruct (decide (u = t)) as [->|Hut].
      + unfold s0. rewrite dict_at_updated_same by (eapply lookup_lt_Some, Hd0).
        unfold title_of. rewrite toggled_other by discriminate. reflexivity.
      + unfold s0. rewrite dict_at_updated_other by exact Hut. reflexivity.
    - intros u Hu. rewrite Hheap.
      destruct (decide (u = t)) as [->|Hut].
      + unfold s0. rewrite dict_at_updated_same by (eapply lookup_lt_Some, Hd0).
        unfold created_at_of. rewrite toggled_other by discriminate.
        reflexivity.
      + unfold s0. rewrite dict_at_updated_other by exact Hut. reflexivity. }
  split.
  { change (task_locs s1) with (task_locs (refreshed (saved json_dumps s0))).
    rewrite task_locs_refreshed by exact Hls.
    rewrite task_locs_saved. exact Hl0. }
  split.
  { change (heap s1) with (heap (refreshed (saved json_dumps s0))).
    rewrite dict_at_refreshed, Hheap. unfold s0.
    apply dict_at_updated_same. eapply lookup_lt_Some, Hd0. }
  change (collection s1) with (collection (refreshed (saved json_dumps s0))).
  rewrite collection_refreshed by exact Hls.
  rewrite collection_saved. exact Hc1.
Qed.

(** X18. On a consistent window, [toggle_complete] leaves the view in
    the same order, so the same row still shows the same task; calling
    it twice on that row gives the task back its completion state:
    after the two calls only its [updated_at] (and a [completed] key
    that was absent, now false) differs from before. *)
Theorem toggle_complete_twice_restores (w : window) (idx i : nat) (t : loc)
        (now1 now2 : string) :
  consistent (win_app w) ->
  view_locs (win_app w) !! idx = Some t ->
  task_locs (win_app w) !! i = Some t ->
  let d := dict_at (heap (win_app w)) t in
  exists w1 w2 d2,
    toggle_complete json_dumps (Some idx) now1 w = (Done tt, w1) /\
    view_locs (win_app w1) = view_locs (win_app w) /\
    toggle_complete json_dumps (Some idx) now2 w1 = (Done tt, w2) /\
    collection (win_app w2) = <[i := d2]> (collection (win_app w)) /\
    is_completed d2 = is_completed d /\
    d2 !! "updated_at" = Some (VStr now2) /\
    (forall k, k <> "completed" -> k <> "updated_at" -> d2 !! k = d !! k).
Proof.
  intros Hc Hv Hi d. pose proof Hc as [_ [_ [_ [Hview _]]]].
  destruct (toggled_state w i t now1 Hc Hi) as [Hc1 [Hv1 [Hl1 [Hd1 Hcol1]]]].
  fold d in Hc1, Hv1, Hl1, Hd1, Hcol1.
  set (s1 := counted (refreshed (saved json_dumps
               (updated t (toggled now1 d) (win_app w))))) in *.
  set (w1 := set_win_app s1 w).
  assert (Hv1' : view_locs (win_app w1) !! idx = Some t).
  { cbn [win_app w1 set_win_app]. rewrite Hv1, <- Hview. exact Hv. }
  assert (Hi1 : task_locs (win_app w1) !! i = Some t).
  { cbn [win_app w1 set_win_app]. rewrite Hl1. exact Hi. }
  destruct (toggled_state w1 i t now2 Hc1 Hi1) as [_ [_ [_ [_ Hcol2]]]].
  cbn [win_app w1 set_win_app] in Hcol2. rewrite Hd1, Hcol1 in Hcol2.
  rewrite list_insert_insert_eq in Hcol2.
  exists w1. eexists. exists (toggled now2 (toggled now1 d)).
  split; [apply (toggle_complete_run json_dumps w idx i t now1 Hc Hv Hi)|].
  split; [cbn [win_app w1 set_win_app]; rewrite Hv1, Hview; reflexivity|].
  split.
  { rewrite (toggle_complete_run json_dumps w1 idx i t now2 Hc1 Hv1' Hi1).
    reflexivity. }
  cbn [win_app w1 set_win_app]. rewrite Hd1.
  split; [exact Hcol2|].
  split; [rewrite !is_completed_toggled; apply negb_involutive|].
  split; [apply lookup_insert_eq|].
  intros k H1 H2. rewrite !toggled_other by assumption. reflexivity.
Qed.

End ToggleTwice.

Lemma toggle_complete_twice_restores_witness :
  (consistent (win_app ready_window) /\
   view_locs (win_app ready_window) !! 0 = Some 3 /\
   task_locs (win_app ready_window) !! 1 = Some 3) /\
  exists w1 w2,
    toggle_complete titles_dumps (Some 0) "2024-05-05T10:00:00" ready_window
    = (Done tt, w1) /\
    toggle_complete titles_dumps (Some 0) "2024-05-06T10:00:00" w1
    = (Done tt, w2) /\
    view_locs (win_app w1) = view_locs (win_app ready_window).
Proof.
  destruct ready_window_selection as [Hv Hi].
  split; [split; [exact ready_app_consistent | split; [exact Hv | exact Hi]]|].
  destruct (toggle_complete_twice_restores titles_dumps ready_window 0 1 3
              "2024-05-05T10:00:00" "2024-05-06T10:00:00"
              ready_app_consistent Hv Hi)
    as [w1 [w2 [d2 [Hr1 [Hv1 [Hr2 _]]]]]].
  exists w1, w2. split; [exact Hr1|]. split; [exact Hr2 | exact Hv1].
Defined.

(** ** The counters *)

Lemma filter_split_length {A : Type} (f : A -> bool) (l : list A) :
  length (List.filter (fun x => negb (f x)) l) + length (List.filter f l)
  = length l.
Proof.
  induction l as [|x l IH]; [reflexivity|].
  cbn [List.filter]. destruct (f x); cbn [negb length]; lia.
Qed.

(** X19. [_update_stats] returns on every store and changes the
    counters' label only. The label shows the number of tasks, the
    number of tasks whose [completed] is absent or false, and the number
    whose [completed] is true, in that order; the last two add up to the
    first. *)
Theorem update_stats_counts_split (s : app) :
  exists total pending completed : nat,
    _update_stats s = (Ok tt, set_stats_label (total, pending, completed) s) /\
    total = length (collection s) /\
    pending
    = length (List.filter (fun d => negb (is_completed d)) (collection s)) /\
    completed = length (List.filter is_completed (collection s)) /\
    pending + completed = total.
Proof.
  pose proof (filter_split_length is_completed (collection s)) as H.
  exists (length (collection s)),
         (length (collection s)
          - length (List.filter is_completed (collection s))),
         (length (List.filter is_completed (collection s))).
  split; [reflexivity|]. split; [reflexivity|].
  split; [lia|]. split; [reflexivity | lia].
Qed.
